(** * Sticker-set dialog: fetch and install reconciliation

    A shallow embedding of [boxes/sticker_set_box.cpp]
    ([StickerSetBox] and its private widget [StickerSetBox::Inner]):
    the parser of a [messages.StickerSet] response, the reconciliation of
    the session-wide sticker-set registry on fetch and on install
    completion, the install request of the dialog, the buttons of the
    box, the grid of the widget (hit testing, the cells a paint event
    draws, the players paused outside the visible rows) and the mouse
    handlers (selection, preview, sending by a click).

    Drawing itself, the Lottie players and the scaling of a sticker to
    its cell are left out; every field of [Inner] that the fetch and
    install paths read or write is kept. *)

From Stdlib Require Import ZArith String.
From stdpp Require Import base option list gmap.

Local Open Scope Z_scope.

(** ** Scalar types of the source *)

Definition uint64 := Z.
Definition int32 := Z.
Definition TimeId := Z.
Definition mtpRequestId := Z.
Definition DocumentId := Z.
(** [EmojiPtr] points into the static emoji table. *)
Definition EmojiPtr := N.
(** A wire thumbnail descriptor; only handed on to [Images::Create]. *)
Definition MTPPhotoSize := string.

(** ** Containers of Qt, as the code uses them *)

Section QtContainers.
Context {A : Type} `{EqDecision A}.

(** [QList::indexOf] / [QVector::indexOf]: the position of the first
    element equal to [x], or [-1]. *)
Definition indexOf (x : A) (l : list A) : Z :=
  match list_find (λ y, y = x) l with
  | Some (i, _) => Z.of_nat i
  | None => -1
  end.

(** [removeAt(i)]; every call in the file is guarded by [i >= 0]. *)
Definition removeAt (i : Z) (l : list A) : list A :=
  if decide (0 ≤ i) then delete (Z.to_nat i) l else l.

(** [insert(i, x)]. *)
Definition insertAt (i : Z) (x : A) (l : list A) : list A :=
  take (Z.to_nat i) l ++ x :: drop (Z.to_nat i) l.

(** The idiom [i = l.indexOf(x); if (i >= 0) l.removeAt(i);]. *)
Definition removeFirst (x : A) (l : list A) : list A :=
  let index := indexOf x l in
  if decide (0 ≤ index) then removeAt index l else l.

(** Number of positions of [l] that hold [x]. *)
Definition occurrences (x : A) (l : list A) : nat :=
  length (filter (λ y, y = x) l).
End QtContainers.

(** ** Wire types (the parts of the MTProto scheme the file reads) *)

Inductive MTPInputStickerSet :=
| MTPDinputStickerSetID (vid : uint64) (vaccess_hash : uint64)
| MTPDinputStickerSetShortName (vshort_name : string)
| MTPDinputStickerSetEmpty
| MTPDinputStickerSetAnimatedEmoji.

(** [DocumentData::sticker()] yields this when the document is a sticker. *)
Record StickerData := { sticker_set : MTPInputStickerSet }.

(** A document of the response: its id and the sticker metadata it
    carries, if any. *)
Record MTPDocument := {
  doc_vid : DocumentId;
  doc_sticker : option StickerData
}.

Record MTPDstickerPack := {
  vemoticon : string;
  pack_vdocuments : list DocumentId
}.

Record MTPDstickerSet := {
  vid : uint64;
  vaccess_hash : uint64;
  vtitle : string;
  vshort_name : string;
  vcount : Z;
  vhash : int32;
  vflags : Z;
  vinstalled_date : option TimeId;
  vthumb : option MTPPhotoSize
}.

Record MTPDmessages_stickerSet := {
  vset : MTPDstickerSet;
  vpacks : list MTPDstickerPack;
  vdocuments : list MTPDocument
}.

(** The payload of the archive result: the sets the server archived. *)
Record MTPDmessages_stickerSetInstallResultArchive := {
  vsets : list MTPDstickerSet
}.

Inductive MTPmessages_StickerSetInstallResult :=
| mtpc_messages_stickerSetInstallResultSuccess
| mtpc_messages_stickerSetInstallResultArchive
    (c : MTPDmessages_stickerSetInstallResultArchive).

(** ** Client data *)

(** [Images::Create(set, thumb)] is kept uninterpreted: the image is
    named by the arguments it was created from. *)
Inductive ImagePtr :=
| ImagePtr_null
| Images_Create (set : MTPDstickerSet) (thumb : MTPPhotoSize).

(** [Stickers::Pack] holds document pointers; a pointer is modelled by the
    id of the document it points to. *)
Definition Pack := list DocumentId.
Abbreviation ByEmojiMap := (gmap EmojiPtr Pack).

(** [Stickers::Set], with the fields this file touches. *)
Record StickersSet := {
  set_id : uint64;
  set_access : uint64;
  set_title : string;
  set_shortName : string;
  set_count : Z;
  set_hash : int32;
  set_flags : Z;
  set_installDate : TimeId;
  set_thumbnail : ImagePtr;
  set_stickers : Pack;
  set_emoji : ByEmojiMap
}.

Record DocumentData := { sticker : option StickerData }.

(** The part of [Data::Session] reached through
    [_controller->session().data()]. *)
Record SessionData := {
  stickerSets : gmap uint64 StickersSet;
  stickerSetsOrder : list uint64;
  archivedStickerSetsOrder : list uint64;
  documents : gmap DocumentId DocumentData
}.

(** ** What the file takes from its collaborators

    The scheme's flag masks, the id of the custom bucket and the helpers
    declared in headers that are not part of this file. *)

Class Collaborators := {
  (** [MTPDstickerSet::Flag] *)
  Flag_f_installed_date : Z;
  Flag_f_archived : Z;
  Flag_f_masks : Z;
  (** [MTPDstickerSet_ClientFlag] *)
  ClientFlag_f_featured : Z;
  ClientFlag_f_not_loaded : Z;
  ClientFlag_f_unread : Z;
  ClientFlag_f_special : Z;
  (** [Stickers::CustomSetId] *)
  CustomSetId : uint64;
  (** [Stickers::GetSetTitle] *)
  GetSetTitle : MTPDstickerSet → string;
  (** [Ui::Emoji::Find(text)] followed by [->original()] *)
  Emoji_Find : string → option EmojiPtr;
  Emoji_original : EmojiPtr → EmojiPtr;
  (** [Stickers::ApplyArchivedResult] *)
  ApplyArchivedResult :
    MTPDmessages_stickerSetInstallResultArchive → SessionData → SessionData
}.

(** Flags are 32-bit masks; [~x] of the source. *)
Definition flags_not (x : Z) : Z := Z.land (Z.lnot x) (Z.ones 32).

(** A mask tested as a condition: [if (flags & mask)]. *)
Definition flag_set (flags mask : Z) : bool := negb (Z.land flags mask =? 0).

(** ** Effects

    Calls that leave the file (dialogs, the request sender, local storage,
    the rpl streams of [Inner]) are returned as a list, in program order. *)

Inductive LangKey :=
| lng_contacts_loading
| lng_attach_failed
| lng_stickers_not_found
| lng_stickers_masks_pack.

Inductive LayerOption := LayerOption_KeepOther.

Inductive MTPRequest :=
| MTPmessages_GetStickerSet (input : MTPInputStickerSet)
| MTPmessages_InstallStickerSet (input : MTPInputStickerSet) (archived : bool).

Inductive Effect :=
(** [Ui::show(Box<InformBox>(text), options)]; [None] when the call
    passes no option *)
| ShowInformBox (text : LangKey) (options : option LayerOption)
(** [_mtp.request(...).send()], with the id the sender returned *)
| SendRequest (id : mtpRequestId) (request : MTPRequest)
(** [resize(...)] of the widget, by the number of sticker rows *)
| ResizeRows (rows : Z)
| FireUpdateControls
| FireSetInstalled (setId : uint64)
| WriteArchivedStickers
| WriteInstalledStickers
| NotifyStickersUpdated
(** [_controller->session().api().stickerSetInstalled(setId)] *)
| ApiStickerSetInstalled (setId : uint64)
| CloseBox.

(** ** [StickerSetBox::Inner] *)

Record Inner := {
  _pack : Pack;
  _emoji : ByEmojiMap;
  _loaded : bool;
  _setId : uint64;
  _setAccess : uint64;
  _setTitle : string;
  _setShortName : string;
  _setCount : Z;
  _setHash : int32;
  _setFlags : Z;
  _setInstallDate : TimeId;
  _setThumbnail : ImagePtr;
  _input : MTPInputStickerSet;
  _installRequest : mtpRequestId
}.

Definition kStickersPanelPerRow : Z := 5.

(** The constructor: field initialisers, the [match] on the input and the
    [GetStickerSet] request whose id the sender chose. *)
Definition Inner_new (fetchId : mtpRequestId) (set : MTPInputStickerSet)
  : Inner * list Effect :=
  let base := {|
    _pack := []; _emoji := ∅; _loaded := false;
    _setId := 0; _setAccess := 0; _setTitle := EmptyString; _setShortName := EmptyString;
    _setCount := 0; _setHash := 0; _setFlags := 0; _setInstallDate := 0;
    _setThumbnail := ImagePtr_null; _input := set; _installRequest := 0 |} in
  let self :=
    match set with
    | MTPDinputStickerSetID id access =>
        {| _pack := []; _emoji := ∅; _loaded := false;
           _setId := id; _setAccess := access;
           _setTitle := EmptyString; _setShortName := EmptyString;
           _setCount := 0; _setHash := 0; _setFlags := 0;
           _setInstallDate := 0; _setThumbnail := ImagePtr_null;
           _input := set; _installRequest := 0 |}
    | MTPDinputStickerSetShortName short_name =>
        {| _pack := []; _emoji := ∅; _loaded := false;
           _setId := 0; _setAccess := 0;
           _setTitle := EmptyString; _setShortName := short_name;
           _setCount := 0; _setHash := 0; _setFlags := 0;
           _setInstallDate := 0; _setThumbnail := ImagePtr_null;
           _input := set; _installRequest := 0 |}
    | MTPDinputStickerSetEmpty => base
    | MTPDinputStickerSetAnimatedEmoji => base
    end in
  (self, [SendRequest fetchId (MTPmessages_GetStickerSet set)]).

(** The [fail] handler of the fetch request. *)
Definition fetchFail (self : Inner) : Inner * list Effect :=
  ({| _pack := _pack self; _emoji := _emoji self; _loaded := true;
      _setId := _setId self; _setAccess := _setAccess self;
      _setTitle := _setTitle self; _setShortName := _setShortName self;
      _setCount := _setCount self; _setHash := _setHash self;
      _setFlags := _setFlags self; _setInstallDate := _setInstallDate self;
      _setThumbnail := _setThumbnail self; _input := _input self;
      _installRequest := _installRequest self |},
   [ShowInformBox lng_stickers_not_found None]).

Definition loaded (self : Inner) : bool :=
  _loaded self && negb (bool_decide (_pack self = [])).

Definition official (self : Inner) : bool :=
  _loaded self && bool_decide (_setShortName self = EmptyString).

Inductive Title :=
| TitleLang (key : LangKey)
| TitleText (text : string).

Definition title (self : Inner) : Title :=
  if negb (_loaded self) then TitleLang lng_contacts_loading
  else if bool_decide (_pack self = []) then TitleLang lng_attach_failed
  else TitleText (_setTitle self).

Section WithCollaborators.
Context `{Collaborators}.

Definition isMasksSet (self : Inner) : bool :=
  flag_set (_setFlags self) Flag_f_masks.

Definition notInstalled (self : Inner) (data : SessionData) : bool :=
  if negb (_loaded self) then false
  else
    match stickerSets data !! _setId self with
    | None => negb (bool_decide (_pack self = []))
    | Some it =>
        if negb (flag_set (set_flags it) Flag_f_installed_date)
           || flag_set (set_flags it) Flag_f_archived
        then negb (bool_decide (_pack self = []))
        else false
    end.

(** *** The parser of [gotSet] *)

(** Modelled from the spec: [Data::Session::processDocument] is not part
    of this file; per the document-store contract
    ([Ingest(wireDocument) -> DocumentRef]) it registers the wire document
    under its id and returns the reference to it. *)
Definition processDocument (item : MTPDocument)
    (docs : gmap DocumentId DocumentData)
  : DocumentId * gmap DocumentId DocumentData :=
  (doc_vid item, <[doc_vid item := {| sticker := doc_sticker item |}]> docs).

(** Modelled from the spec: [Data::Session::document(id)] is not part of
    this file; per the document-store contract
    ([Resolve(documentId) -> DocumentRef | absent]) it looks the id up. *)
Definition document (docs : gmap DocumentId DocumentData) (id : DocumentId)
  : option DocumentData :=
  docs !! id.

(** The first loop: every document is processed, those without sticker
    metadata are skipped. *)
Fixpoint collectDocuments (v : list MTPDocument)
    (docs : gmap DocumentId DocumentData) (pack : Pack)
  : Pack * gmap DocumentId DocumentData :=
  match v with
  | [] => (pack, docs)
  | item :: rest =>
      let '(doc, docs') := processDocument item docs in
      match document docs' doc ≫= sticker with
      | None => collectDocuments rest docs' pack
      | Some _ => collectDocuments rest docs' (pack ++ [doc])
      end
  end.

(** [if (!doc || !doc->sticker()) continue;] *)
Definition resolvesToSticker (docs : gmap DocumentId DocumentData)
    (id : DocumentId) : bool :=
  match document docs id with
  | None => false
  | Some doc => bool_decide (is_Some (sticker doc))
  end.

(** The inner loop over the documents of one emoji pack. *)
Fixpoint collectPack (docs : gmap DocumentId DocumentData)
    (stickers : list DocumentId) (p : Pack) : Pack :=
  match stickers with
  | [] => p
  | id :: rest =>
      if resolvesToSticker docs id
      then collectPack docs rest (p ++ [id])
      else collectPack docs rest p
  end.

(** The second loop, over [data.vpacks()]. *)
Fixpoint collectEmoji (docs : gmap DocumentId DocumentData)
    (packs : list MTPDstickerPack) (emoji : ByEmojiMap) : ByEmojiMap :=
  match packs with
  | [] => emoji
  | pack :: rest =>
      match Emoji_Find (vemoticon pack) with
      | Some e =>
          let original := Emoji_original e in
          let p := collectPack docs (pack_vdocuments pack) [] in
          collectEmoji docs rest (<[original := p]> emoji)
      | None => collectEmoji docs rest emoji
      end
  end.

Definition clientFlagsMask : Z :=
  Z.lor (Z.lor (Z.lor ClientFlag_f_featured ClientFlag_f_not_loaded)
               ClientFlag_f_unread)
        ClientFlag_f_special.

Definition rowsOf (pack : Pack) : Z :=
  Z.of_nat (length pack) / kStickersPanelPerRow
  + (if decide (Z.of_nat (length pack) `mod` kStickersPanelPerRow = 0)
     then 0 else 1).

(** *** [StickerSetBox::Inner::gotSet] *)
Definition gotSet (response : MTPDmessages_stickerSet)
    (self : Inner) (data : SessionData)
  : Inner * SessionData * list Effect :=
  let '(pack, docs) := collectDocuments (vdocuments response) (documents data) [] in
  let emoji := collectEmoji docs (vpacks response) ∅ in
  let set := vset response in
  let setId := vid set in
  let setInstallDate := default 0 (vinstalled_date set) in
  let setThumbnail :=
    match vthumb set with
    | Some thumb => Images_Create set thumb
    | None => ImagePtr_null
    end in
  let sets := stickerSets data in
  let '(setFlags, sets') :=
    match sets !! setId with
    | Some it =>
        let clientFlags := Z.land (set_flags it) clientFlagsMask in
        let setFlags := Z.lor (vflags set) clientFlags in
        (setFlags,
         <[setId := {|
             set_id := set_id it; set_access := set_access it;
             set_title := set_title it; set_shortName := set_shortName it;
             set_count := set_count it; set_hash := set_hash it;
             set_flags := setFlags;
             set_installDate := setInstallDate;
             set_thumbnail := setThumbnail;
             set_stickers := pack;
             set_emoji := emoji |}]> sets)
    | None => (vflags set, sets)
    end in
  let data' := {|
    stickerSets := sets';
    stickerSetsOrder := stickerSetsOrder data;
    archivedStickerSetsOrder := archivedStickerSetsOrder data;
    documents := docs |} in
  let parsed (isLoaded : bool) := {|
    _pack := pack; _emoji := emoji; _loaded := isLoaded;
    _setId := setId; _setAccess := vaccess_hash set;
    _setTitle := GetSetTitle set; _setShortName := vshort_name set;
    _setCount := vcount set; _setHash := vhash set;
    _setFlags := setFlags; _setInstallDate := setInstallDate;
    _setThumbnail := setThumbnail; _input := _input self;
    _installRequest := _installRequest self |} in
  if decide (pack = []) then
    (parsed (_loaded self), data',
     [ShowInformBox lng_stickers_not_found None])
  else
    (parsed true, data', [ResizeRows (rowsOf pack); FireUpdateControls]).

(** *** [StickerSetBox::Inner::installDone] *)

(** [Stickers::Set(id, access, title, shortName, count, hash, flags,
    installDate, thumbnail)]: the pack and the emoji map start empty. *)
Definition Stickers_Set (id access : uint64) (title shortName : string)
    (count : Z) (hash : int32) (flags : Z) (installDate : TimeId)
    (thumbnail : ImagePtr) : StickersSet :=
  {| set_id := id; set_access := access; set_title := title;
     set_shortName := shortName; set_count := count; set_hash := hash;
     set_flags := flags; set_installDate := installDate;
     set_thumbnail := thumbnail; set_stickers := []; set_emoji := ∅ |}.

Definition withStickers (it : StickersSet) (stickers : Pack) : StickersSet :=
  {| set_id := set_id it; set_access := set_access it;
     set_title := set_title it; set_shortName := set_shortName it;
     set_count := set_count it; set_hash := set_hash it;
     set_flags := set_flags it; set_installDate := set_installDate it;
     set_thumbnail := set_thumbnail it; set_stickers := stickers;
     set_emoji := set_emoji it |}.

(** The archived-order step: [wasArchived] guards the removal of the
    first position that holds [_setId]. *)
Definition dropArchived (self : Inner) (archivedOrder : list uint64)
  : list uint64 :=
  if flag_set (_setFlags self) Flag_f_archived then
    let index := indexOf (_setId self) archivedOrder in
    if decide (0 ≤ index) then removeAt index archivedOrder
    else archivedOrder
  else archivedOrder.

(** [_setFlags &= ~f_archived; _setFlags |= f_installed_date;] *)
Definition installedFlags (flags : Z) : Z :=
  Z.lor (Z.land flags (flags_not Flag_f_archived)) Flag_f_installed_date.

(** [sets.find(_setId)], insert or update, then the overwrite of
    [stickers] and [emoji]; [self] already carries the new flags and
    install date. *)
Definition upsertSet (self : Inner) (sets : gmap uint64 StickersSet)
  : gmap uint64 StickersSet :=
  let it :=
    match sets !! _setId self with
    | None =>
        Stickers_Set (_setId self) (_setAccess self) (_setTitle self)
          (_setShortName self) (_setCount self) (_setHash self)
          (_setFlags self) (_setInstallDate self) (_setThumbnail self)
    | Some it =>
        {| set_id := set_id it; set_access := set_access it;
           set_title := set_title it; set_shortName := set_shortName it;
           set_count := set_count it; set_hash := set_hash it;
           set_flags := _setFlags self;
           set_installDate := _setInstallDate self;
           set_thumbnail := set_thumbnail it;
           set_stickers := set_stickers it; set_emoji := set_emoji it |}
    end in
  <[_setId self := {|
      set_id := set_id it; set_access := set_access it;
      set_title := set_title it; set_shortName := set_shortName it;
      set_count := set_count it; set_hash := set_hash it;
      set_flags := set_flags it; set_installDate := set_installDate it;
      set_thumbnail := set_thumbnail it;
      set_stickers := _pack self; set_emoji := _emoji self |}]> sets.

(** The install-order step. *)
Definition reorder (setId : uint64) (order : list uint64) : list uint64 :=
  let insertAtIndex := 0 in
  let currentIndex := indexOf setId order in
  if decide (currentIndex ≠ insertAtIndex) then
    insertAt insertAtIndex setId
      (if decide (0 < currentIndex) then removeAt currentIndex order
       else order)
  else order.

(** The loop over [_pack] on the custom bucket's sticker list. *)
Definition removeStickers (pack : Pack) (stickers : Pack) : Pack :=
  fold_left (λ stickers sticker, removeFirst sticker stickers) pack stickers.

(** The custom-bucket step. *)
Definition cleanCustom (pack : Pack) (sets : gmap uint64 StickersSet)
  : gmap uint64 StickersSet :=
  match sets !! CustomSetId with
  | Some custom =>
      let stickers := removeStickers pack (set_stickers custom) in
      if decide (stickers = []) then delete CustomSetId sets
      else <[CustomSetId := withStickers custom stickers]> sets
  | None => sets
  end.

(** The fields of [Inner] after the install completed. *)
Definition installedInner (now : TimeId) (self : Inner) : Inner :=
  {| _pack := _pack self; _emoji := _emoji self; _loaded := _loaded self;
     _setId := _setId self; _setAccess := _setAccess self;
     _setTitle := _setTitle self; _setShortName := _setShortName self;
     _setCount := _setCount self; _setHash := _setHash self;
     _setFlags := installedFlags (_setFlags self);
     _setInstallDate := now;
     _setThumbnail := _setThumbnail self; _input := _input self;
     _installRequest := _installRequest self |}.

(** Everything [installDone] does to the session data before it looks at
    the kind of the result. *)
Definition reconcileInstalled (now : TimeId) (self : Inner)
    (data : SessionData) : SessionData :=
  let self' := installedInner now self in
  {| stickerSets := cleanCustom (_pack self') (upsertSet self' (stickerSets data));
     stickerSetsOrder := reorder (_setId self') (stickerSetsOrder data);
     archivedStickerSetsOrder := dropArchived self (archivedStickerSetsOrder data);
     documents := documents data |}.

(** The branch on the result type: the archive path is a collaborator's,
    everything else is left as reconciled. *)
Definition applyResult (result : MTPmessages_StickerSetInstallResult)
    (data : SessionData) : SessionData :=
  match result with
  | mtpc_messages_stickerSetInstallResultArchive c => ApplyArchivedResult c data
  | mtpc_messages_stickerSetInstallResultSuccess => data
  end.

Definition installDone (result : MTPmessages_StickerSetInstallResult)
    (now : TimeId) (self : Inner) (data : SessionData)
  : Inner * SessionData * list Effect :=
  let wasArchived := flag_set (_setFlags self) Flag_f_archived in
  let self' := installedInner now self in
  let data' := reconcileInstalled now self data in
  (self', applyResult result data',
   match result with
   | mtpc_messages_stickerSetInstallResultArchive _ => []
   | mtpc_messages_stickerSetInstallResultSuccess =>
       (if wasArchived then [WriteArchivedStickers] else [])
       ++ [WriteInstalledStickers; NotifyStickersUpdated]
   end ++ [FireSetInstalled (_setId self')]).

(** *** [StickerSetBox::Inner::install] *)

Definition withInstallRequest (self : Inner) (id : mtpRequestId) : Inner :=
  {| _pack := _pack self; _emoji := _emoji self; _loaded := _loaded self;
     _setId := _setId self; _setAccess := _setAccess self;
     _setTitle := _setTitle self; _setShortName := _setShortName self;
     _setCount := _setCount self; _setHash := _setHash self;
     _setFlags := _setFlags self; _setInstallDate := _setInstallDate self;
     _setThumbnail := _setThumbnail self; _input := _input self;
     _installRequest := id |}.

(** [requestId] is the id [send()] returns for the request, should the
    call get as far as sending it. *)
Definition install (requestId : mtpRequestId) (self : Inner)
  : Inner * list Effect :=
  if isMasksSet self then
    (self, [ShowInformBox lng_stickers_masks_pack (Some LayerOption_KeepOther)])
  else if decide (_installRequest self ≠ 0) then
    (self, [])
  else
    (withInstallRequest self requestId,
     [SendRequest requestId
        (MTPmessages_InstallStickerSet (_input self) false)]).

(** The [fail] handler of the install request. *)
Definition installFail (self : Inner) : Inner * list Effect :=
  (self, [ShowInformBox lng_stickers_not_found None]).

(** ** [StickerSetBox]

    The dialog around [Inner]: its buttons, the requests of [_mtp] whose
    callback has not run yet, and the session data the callbacks act on. *)

Inductive Button :=
| lng_stickers_add_pack
| lng_stickers_share_pack
| lng_about_done
| lng_cancel.

#[global] Instance Button_eq_dec : EqDecision Button.
Proof. solve_decision. Defined.

Record Dialog := {
  inner : Inner;
  boxTitle : Title;
  buttons : list Button;
  session : SessionData;
  pending : list (mtpRequestId * MTPRequest)
}.

(** [StickerSetBox::updateButtons]: the buttons it leaves in place. *)
Definition updateButtons (self : Inner) (data : SessionData) : list Button :=
  if loaded self then
    if notInstalled self data then [lng_stickers_add_pack; lng_cancel]
    else if official self then [lng_about_done]
    else [lng_stickers_share_pack; lng_cancel]
  else [lng_cancel].

(** [StickerSetBox::prepare]: the title is set to "loading", [Inner] is
    constructed (which sends the fetch), then [updateTitleAndButtons]. *)
Definition prepare (fetchId : mtpRequestId) (set : MTPInputStickerSet)
    (data : SessionData) : Dialog * list Effect :=
  let '(self, effects) := Inner_new fetchId set in
  ({| inner := self; boxTitle := title self;
      buttons := updateButtons self data; session := data;
      pending := [(fetchId, MTPmessages_GetStickerSet set)] |},
   effects).

(** What can happen to an open dialog. *)
Inductive Event :=
(** the [done] handler of the request with this id runs *)
| FetchDone (id : mtpRequestId) (response : MTPDmessages_stickerSet)
(** its [fail] handler runs *)
| FetchFailed (id : mtpRequestId)
(** the "add" button is pressed: [addStickers] calls [install], and
    [send()] would return [requestId] *)
| AddPressed (requestId : mtpRequestId)
| InstallDone (id : mtpRequestId)
    (result : MTPmessages_StickerSetInstallResult) (now : TimeId)
| InstallFailed (id : mtpRequestId)
(** another part of the application rewrote the session data, and fired
    [stickersUpdated] or not *)
| SessionChanged (data : SessionData) (notified : bool).

(** The pending request a callback with id [id] belongs to, and the
    requests left once it has run. *)
Definition takeRequest (id : mtpRequestId)
    (requests : list (mtpRequestId * MTPRequest))
  : option (MTPRequest * list (mtpRequestId * MTPRequest)) :=
  match list_find (λ r, r.1 = id) requests with
  | Some (i, (_, request)) => Some (request, delete i requests)
  | None => None
  end.

Definition isFetch (request : MTPRequest) : bool :=
  match request with MTPmessages_GetStickerSet _ => true | _ => false end.

Definition isInstall (request : MTPRequest) : bool :=
  match request with MTPmessages_InstallStickerSet _ _ => true | _ => false end.

(** One event on an open dialog; [None] when the event cannot happen in
    this state (no such pending request, no such button, or an id the
    sender never hands out: request ids are non-zero, as [install]
    itself relies on). *)
Definition dispatch (event : Event) (w : Dialog)
  : option (Dialog * list Effect) :=
  match event with
  | FetchDone id response =>
      match takeRequest id (pending w) with
      | Some (MTPmessages_GetStickerSet _, rest) =>
          let '(self, data, effects) := gotSet response (inner w) (session w) in
          (* [_inner->updateControls()] runs [updateTitleAndButtons] *)
          if existsb (λ e, match e with
                           | FireUpdateControls => true
                           | _ => false
                           end) effects
          then Some ({| inner := self; boxTitle := title self;
                        buttons := updateButtons self data;
                        session := data; pending := rest |}, effects)
          else Some ({| inner := self; boxTitle := boxTitle w;
                        buttons := buttons w;
                        session := data; pending := rest |}, effects)
      | _ => None
      end
  | FetchFailed id =>
      match takeRequest id (pending w) with
      | Some (MTPmessages_GetStickerSet _, rest) =>
          let '(self, effects) := fetchFail (inner w) in
          Some ({| inner := self; boxTitle := boxTitle w;
                   buttons := buttons w; session := session w;
                   pending := rest |}, effects)
      | _ => None
      end
  | AddPressed requestId =>
      if decide (lng_stickers_add_pack ∈ buttons w ∧ requestId ≠ 0) then
        let '(self, effects) := install requestId (inner w) in
        Some ({| inner := self; boxTitle := boxTitle w;
                 buttons := buttons w; session := session w;
                 pending :=
                   pending w ++
                   omap (λ e, match e with
                              | SendRequest id request => Some (id, request)
                              | _ => None
                              end) effects |}, effects)
      else None
  | InstallDone id result now =>
      match takeRequest id (pending w) with
      | Some (MTPmessages_InstallStickerSet _ _, rest) =>
          let '(self, data, effects) :=
            installDone result now (inner w) (session w) in
          (* [stickersUpdated] runs [updateButtons]; [setInstalled]
             reports to the api and closes the box *)
          Some ({| inner := self; boxTitle := boxTitle w;
                   buttons :=
                     if existsb (λ e, match e with
                                      | NotifyStickersUpdated => true
                                      | _ => false
                                      end) effects
                     then updateButtons self data else buttons w;
                   session := data; pending := rest |},
                effects ++ [ApiStickerSetInstalled (_setId self); CloseBox])
      | _ => None
      end
  | InstallFailed id =>
      match takeRequest id (pending w) with
      | Some (MTPmessages_InstallStickerSet _ _, rest) =>
          let '(self, effects) := installFail (inner w) in
          Some ({| inner := self; boxTitle := boxTitle w;
                   buttons := buttons w; session := session w;
                   pending := rest |}, effects)
      | _ => None
      end
  | SessionChanged data notified =>
      Some ({| inner := inner w; boxTitle := boxTitle w;
               buttons := if notified then updateButtons (inner w) data
                          else buttons w;
               session := data; pending := pending w |}, [])
  end.

(** Runs of a dialog: the events that happened, each with the effects it
    had, oldest first.  [CloseBox] only starts the closing of the box, so
    runs are not cut at it: what holds of every run below holds of the
    shorter runs of the program. *)
Inductive runs (w0 : Dialog) : list (Event * list Effect) → Dialog → Prop :=
| runs_nil : runs w0 [] w0
| runs_snoc trace w event w' effects :
    runs w0 trace w →
    dispatch event w = Some (w', effects) →
    runs w0 (trace ++ [(event, effects)]) w'.

(** Install requests awaiting their callback. *)
Definition installsInFlight (w : Dialog) : nat :=
  length (filter (λ r, isInstall r.2 = true) (pending w)).

Definition fetchesInFlight (w : Dialog) : nat :=
  length (filter (λ r, isFetch r.2 = true) (pending w)).

(** Install requests sent by the effects of a trace. *)
Definition sendsInstall (e : Effect) : bool :=
  match e with
  | SendRequest _ request => isInstall request
  | _ => false
  end.

Definition installsSent (trace : list (Event * list Effect)) : nat :=
  length (filter (λ e, sendsInstall e = true) (trace ≫= snd)).

End WithCollaborators.

(** The documents of a response that carry sticker metadata, in the order
    of the response. *)
Definition validStickers (response : MTPDmessages_stickerSet) : Pack :=
  doc_vid <$> filter (λ item, is_Some (doc_sticker item)) (vdocuments response).

(** ** Invariants of the runs of a dialog *)

Section Invariants.
Context `{Collaborators}.

(** While the fetch is pending nothing is loaded and nothing can be
    installed; once it is not, the trace tells which handler ran, and the
    pack and the loaded flag are as that handler left them. *)
Definition fetch_inv (trace : list (Event * list Effect)) (w : Dialog)
  : Prop :=
  (fetchesInFlight w ≤ 1)%nat ∧
  (fetchesInFlight w = 1%nat →
     _loaded (inner w) = false ∧ _pack (inner w) = [] ∧
     boxTitle w = TitleLang lng_contacts_loading ∧
     (lng_stickers_add_pack ∉ buttons w) ∧
     _installRequest (inner w) = 0 ∧ installsInFlight w = 0%nat) ∧
  (∀ id response effects,
     (FetchDone id response, effects) ∈ trace →
     fetchesInFlight w = 0%nat ∧
     _pack (inner w) = validStickers response ∧
     (validStickers response = [] →
        _loaded (inner w) = false ∧
        boxTitle w = TitleLang lng_contacts_loading) ∧
     (validStickers response ≠ [] → _loaded (inner w) = true)) ∧
  (∀ id effects,
     (FetchFailed id, effects) ∈ trace →
     fetchesInFlight w = 0%nat ∧
     _loaded (inner w) = true ∧ _pack (inner w) = []) ∧
  (fetchesInFlight w = 0%nat →
     (∃ id response effects, (FetchDone id response, effects) ∈ trace) ∨
     (∃ id effects, (FetchFailed id, effects) ∈ trace)).

(** [_installRequest] is zero exactly as long as no install request was
    sent; after that one request was sent, at most one is pending, and
    the set is not a masks set. *)
Definition install_inv (trace : list (Event * list Effect)) (w : Dialog)
  : Prop :=
  (installsInFlight w ≤ 1)%nat ∧
  (_installRequest (inner w) = 0 →
     installsInFlight w = 0%nat ∧ installsSent trace = 0%nat) ∧
  (_installRequest (inner w) ≠ 0 →
     isMasksSet (inner w) = false ∧ fetchesInFlight w = 0%nat ∧
     installsSent trace = 1%nat).

End Invariants.

(** ** The sticker grid of [StickerSetBox::Inner]

    Hit testing, painting and the pausing of animations compute with
    [int] coordinates; the arithmetic is written with its 32-bit wrap. *)

(** [st::stickersPadding] and [st::stickersSize], from the style sheet. *)
Class StickersStyle := {
  stickersPadding_left : Z;
  stickersPadding_top : Z;
  stickersPadding_bottom : Z;
  stickersSize_width : Z;
  stickersSize_height : Z
}.

(** The value an [int] holds after an operation whose exact result is
    [z]. *)
Definition int_wrap (z : Z) : Z := (z + 2 ^ 31) `mod` 2 ^ 32 - 2 ^ 31.

(** An [int] compared with, or used as, a [size_t]. *)
Definition to_size_t (z : Z) : Z := z `mod` 2 ^ 64.

(** [Inner::Element]: the document and the Lottie animation, [0] for
    [nullptr]. *)
Record Element := {
  element_document : DocumentId;
  element_animated : Z
}.

Section Grid.
Context `{StickersStyle}.

(** [stickerFromGlobalPos(p)], from [l = mapFromGlobal(p)], [rtl()],
    [width()] and the pack. *)
Definition stickerFromGlobalPos (rtl : bool) (width : Z) (pack : Pack)
    (l : Z * Z) : Z :=
  let lx := if rtl then int_wrap (width - l.1) else l.1 in
  let ly := l.2 in
  let row :=
    if decide (stickersPadding_top ≤ ly)
    then int_wrap (ly - stickersPadding_top) ÷ stickersSize_height
    else -1 in
  let col :=
    if decide (stickersPadding_left ≤ lx)
    then int_wrap (lx - stickersPadding_left) ÷ stickersSize_width
    else -1 in
  if decide (0 ≤ row ∧ 0 ≤ col ∧ col < kStickersPanelPerRow) then
    let result := int_wrap (int_wrap (row * kStickersPanelPerRow) + col) in
    if decide (result < Z.of_nat (length pack)) then result else -1
  else -1.

(** The inner loop of [paintEvent] over the columns of row [i]: the calls
    [paintSticker(p, index, pos)] it makes, up to the [break]. *)
Fixpoint paintRow (elements : list Element) (i : Z) (columns : list Z)
  : list (Z * (Z * Z)) :=
  match columns with
  | [] => []
  | j :: rest =>
      let index := int_wrap (int_wrap (i * kStickersPanelPerRow) + j) in
      if decide (Z.of_nat (length elements) ≤ to_size_t index) then []
      else
        (index,
         (int_wrap (stickersPadding_left + int_wrap (j * stickersSize_width)),
          int_wrap (stickersPadding_top + int_wrap (i * stickersSize_height))))
        :: paintRow elements i rest
  end.

(** [paintEvent(e)], from the top and the bottom of [e->rect()]: the calls
    of [paintSticker], in order. *)
Definition paintEvent (rectTop rectBottom : Z) (elements : list Element)
  : list (Z * (Z * Z)) :=
  match elements with
  | [] => []
  | _ =>
      let from := rectTop ÷ stickersSize_height in
      let to := int_wrap (rectBottom ÷ stickersSize_height + 1) in
      seqZ from (to - from)
        ≫= λ i, paintRow elements i (seqZ 0 kStickersPanelPerRow)
  end.

(** The inner loop of [pauseInRows] over the columns of row [i]: the
    elements whose animation is paused, by index. *)
Fixpoint pauseRow (elements : list Element) (i : Z) (columns : list Z)
  : list Z :=
  match columns with
  | [] => []
  | j :: rest =>
      let index := int_wrap (int_wrap (i * kStickersPanelPerRow) + j) in
      if decide (Z.of_nat (length elements) ≤ to_size_t index) then []
      else
        match elements !! Z.to_nat (to_size_t index) with
        | Some element =>
            if decide (element_animated element ≠ 0)
            then index :: pauseRow elements i rest
            else pauseRow elements i rest
        | None => pauseRow elements i rest
        end
  end.

(** The lambda [pauseInRows]; [None] when [Expects(fromRow <= tillRow)]
    fails. *)
Definition pauseInRows (elements : list Element) (fromRow tillRow : Z)
  : option (list Z) :=
  if decide (fromRow ≤ tillRow) then
    Some (seqZ fromRow (tillRow - fromRow)
            ≫= λ i, pauseRow elements i (seqZ 0 kStickersPanelPerRow))
  else None.

(** [visibleTopBottomUpdated]: the elements paused above and below the
    visible part, [None] when a contract of [pauseInRows] fails. *)
Definition visibleTopBottomUpdated (visibleTop visibleBottom : Z)
    (elements : list Element) : option (list Z) :=
  let count := int_wrap (Z.of_nat (length elements)) in
  let rowsCount :=
    int_wrap (count ÷ kStickersPanelPerRow
              + if decide (Z.rem count kStickersPanelPerRow ≠ 0)
                then 1 else 0) in
  let rowsTop := stickersPadding_top in
  let singleHeight := stickersSize_height in
  let rowsBottom := int_wrap (rowsTop + int_wrap (rowsCount * singleHeight)) in
  above ←
    (if decide (int_wrap (rowsTop + singleHeight) ≤ visibleTop
                ∧ visibleTop < rowsBottom)
     then
       let pauseHeight := int_wrap (visibleTop - rowsTop) in
       let pauseRows := Z.min (pauseHeight ÷ singleHeight) rowsCount in
       pauseInRows elements 0 pauseRows
     else Some []);
  below ←
    (if decide (rowsTop < visibleBottom
                ∧ int_wrap (visibleBottom + singleHeight) ≤ rowsBottom)
     then
       let pauseHeight := int_wrap (rowsBottom - visibleBottom) in
       let pauseRows := Z.min (pauseHeight ÷ singleHeight) rowsCount in
       pauseInRows elements (int_wrap (rowsCount - pauseRows)) rowsCount
     else Some []);
  Some (above ++ below).

(** Where row [i], column [j] of the grid starts. *)
Definition cellLeft (j : Z) : Z := stickersPadding_left + j * stickersSize_width.
Definition cellTop (i : Z) : Z := stickersPadding_top + i * stickersSize_height.

End Grid.

(** Ranges in which the [int] arithmetic of the grid does not overflow:
    coordinates within 2^27 of the origin, cells and paddings of at most
    2^11 pixels, at most 2^15 elements. *)
Definition coordinate (z : Z) : Prop := - 2 ^ 27 ≤ z ≤ 2 ^ 27.

Definition styleInRange `{StickersStyle} : Prop :=
  0 < stickersSize_width ≤ 2 ^ 11 ∧ 0 < stickersSize_height ≤ 2 ^ 11 ∧
  0 ≤ stickersPadding_left ≤ 2 ^ 11 ∧ 0 ≤ stickersPadding_top ≤ 2 ^ 11.

Definition countInRange {A} (l : list A) : Prop :=
  Z.of_nat (length l) ≤ 2 ^ 15.

(** ** The pointer over the grid

    Selection, preview and the sending of a sticker by a click. *)

(** The fields of [Inner] the mouse handlers keep; [_previewTimer] by
    whether it is active. *)
Record Pointer := {
  _selected : Z;
  _previewShown : Z;
  _previewTimer : bool
}.

Inductive PointerEffect :=
(** [_elements[index].overAnimation.start(..., from, to, ...)] *)
| StartOverAnimation (index : Z) (from to : Z)
(** [setCursor(style::cur_pointer)] or [setCursor(style::cur_default)] *)
| SetCursor (pointer : bool)
(** [w->showMediaPreview(Data::FileOriginStickerSet(_setId, _setAccess),
    document)] *)
| ShowMediaPreview (setId setAccess : uint64) (document : option DocumentId)
(** [Core::App().postponeCall(...)] of [onSendSticker(sticker)] *)
| PostSendSticker (sticker : option DocumentId).

(** What the handlers read besides [Inner] and the pointer: the elements,
    [rtl()], [width()], and whether [App::wnd()] is there. *)
Record Widget := {
  widget_elements : list Element;
  widget_rtl : bool;
  widget_width : Z;
  widget_wnd : bool
}.

Inductive MouseEvent :=
(** [mousePressEvent], with [mapFromGlobal(e->globalPos())] *)
| MousePress (l : Z * Z)
(** [mouseMoveEvent], with the local points of [QCursor::pos()] and of
    [e->globalPos()] *)
| MouseMove (cursor l : Z * Z)
| MouseRelease (l : Z * Z)
| MouseLeave
(** [_previewTimer] fires and runs [showPreview], with the local point of
    [QCursor::pos()] *)
| PreviewTimerFired (cursor : Z * Z).

Section PointerModel.
Context `{Collaborators} `{StickersStyle}.

Definition startOverAnimation (widget : Widget) (index : Z) (from to : Z)
  : list PointerEffect :=
  if decide (index < 0
             ∨ Z.of_nat (length (widget_elements widget)) ≤ to_size_t index)
  then []
  else [StartOverAnimation index from to].

Definition setSelected (widget : Widget) (selected : Z) (p : Pointer)
  : Pointer * list PointerEffect :=
  if decide (_selected p ≠ selected) then
    ({| _selected := selected; _previewShown := _previewShown p;
        _previewTimer := _previewTimer p |},
     startOverAnimation widget (_selected p) 1 0
     ++ startOverAnimation widget selected 0 1
     ++ [SetCursor (bool_decide (0 ≤ selected))])
  else (p, []).

Definition updateSelected (self : Inner) (widget : Widget) (cursor : Z * Z)
    (p : Pointer) : Pointer * list PointerEffect :=
  let selected :=
    stickerFromGlobalPos (widget_rtl widget) (widget_width widget)
      (_pack self) cursor in
  setSelected widget (if isMasksSet self then -1 else selected) p.

(** [w->showMediaPreview(..., _pack[index])] when there is a window;
    [_pack[index]] is [None] for an index outside the pack. *)
Definition showMediaPreview (self : Inner) (widget : Widget) (index : Z)
  : list PointerEffect :=
  if widget_wnd widget
  then [ShowMediaPreview (_setId self) (_setAccess self)
          (_pack self !! Z.to_nat index)]
  else [].

Definition mousePressEvent (self : Inner) (widget : Widget) (l : Z * Z)
    (p : Pointer) : Pointer * list PointerEffect :=
  let index :=
    stickerFromGlobalPos (widget_rtl widget) (widget_width widget)
      (_pack self) l in
  if decide (0 ≤ index ∧ index < Z.of_nat (length (_pack self))) then
    ({| _selected := _selected p; _previewShown := _previewShown p;
        _previewTimer := true |}, [])
  else (p, []).

Definition mouseMoveEvent (self : Inner) (widget : Widget)
    (cursor l : Z * Z) (p : Pointer) : Pointer * list PointerEffect :=
  let '(p1, effects) := updateSelected self widget cursor p in
  if decide (0 ≤ _previewShown p1) then
    let index :=
      stickerFromGlobalPos (widget_rtl widget) (widget_width widget)
        (_pack self) l in
    if decide (0 ≤ index ∧ index < Z.of_nat (length (_pack self))
               ∧ index ≠ _previewShown p1) then
      ({| _selected := _selected p1; _previewShown := index;
          _previewTimer := _previewTimer p1 |},
       effects ++ showMediaPreview self widget index)
    else (p1, effects)
  else (p1, effects).

Definition leaveEventHook (widget : Widget) (p : Pointer)
  : Pointer * list PointerEffect :=
  setSelected widget (-1) p.

Definition mouseReleaseEvent (self : Inner) (widget : Widget) (l : Z * Z)
    (p : Pointer) : Pointer * list PointerEffect :=
  if decide (0 ≤ _previewShown p) then
    ({| _selected := _selected p; _previewShown := -1;
        _previewTimer := _previewTimer p |}, [])
  else if _previewTimer p then
    let p1 := {| _selected := _selected p; _previewShown := _previewShown p;
                 _previewTimer := false |} in
    let index :=
      stickerFromGlobalPos (widget_rtl widget) (widget_width widget)
        (_pack self) l in
    if decide (0 ≤ index ∧ index < Z.of_nat (length (_pack self))
               ∧ isMasksSet self = false) then
      (p1, [PostSendSticker (_pack self !! Z.to_nat index)])
    else (p1, [])
  else (p, []).

Definition showPreview (self : Inner) (widget : Widget) (cursor : Z * Z)
    (p : Pointer) : Pointer * list PointerEffect :=
  let index :=
    stickerFromGlobalPos (widget_rtl widget) (widget_width widget)
      (_pack self) cursor in
  if decide (0 ≤ index ∧ index < Z.of_nat (length (_pack self))) then
    ({| _selected := _selected p; _previewShown := index;
        _previewTimer := _previewTimer p |},
     showMediaPreview self widget index)
  else (p, []).

(** One mouse event; the timer can only fire while it is active, and is
    inactive once it has. *)
Definition mouseStep (self : Inner) (widget : Widget) (event : MouseEvent)
    (p : Pointer) : option (Pointer * list PointerEffect) :=
  match event with
  | MousePress l => Some (mousePressEvent self widget l p)
  | MouseMove cursor l => Some (mouseMoveEvent self widget cursor l p)
  | MouseRelease l => Some (mouseReleaseEvent self widget l p)
  | MouseLeave => Some (leaveEventHook widget p)
  | PreviewTimerFired cursor =>
      if _previewTimer p then
        Some (showPreview self widget cursor
                {| _selected := _selected p;
                   _previewShown := _previewShown p;
                   _previewTimer := false |})
      else None
  end.

(** A sequence of mouse events, with the effects in order. *)
Fixpoint mouseRun (self : Inner) (widget : Widget) (events : list MouseEvent)
    (p : Pointer) : option (Pointer * list PointerEffect) :=
  match events with
  | [] => Some (p, [])
  | event :: rest =>
      '(p1, effects1) ← mouseStep self widget event p;
      '(p2, effects2) ← mouseRun self widget rest p1;
      Some (p2, effects1 ++ effects2)
  end.

End PointerModel.

(** The pointer of a new [Inner]. *)
Definition Pointer_new : Pointer :=
  {| _selected := -1; _previewShown := -1; _previewTimer := false |}.

(** The points of an event are coordinates. *)
Definition mouseEventInRange (event : MouseEvent) : Prop :=
  match event with
  | MousePress l | MouseRelease l | PreviewTimerFired l =>
      coordinate l.1 ∧ coordinate l.2
  | MouseMove cursor l =>
      (coordinate cursor.1 ∧ coordinate cursor.2)
      ∧ coordinate l.1 ∧ coordinate l.2
  | MouseLeave => True
  end.

(** A style with cells of 64 by 64 behind a padding of 8. *)
Definition sampleStyle : StickersStyle := {|
  stickersPadding_left := 8; stickersPadding_top := 8;
  stickersPadding_bottom := 8;
  stickersSize_width := 64; stickersSize_height := 64
|}.

(** ** A concrete scheme and concrete inputs

    Used to run the definitions above: flag masks on distinct bits, the
    title taken as sent, emoji named by their first character, and an
    archive path that leaves the data as it is. *)

Definition sampleScheme : Collaborators := {|
  Flag_f_installed_date := 1;
  Flag_f_archived := 2;
  Flag_f_masks := 8;
  ClientFlag_f_special := Z.shiftl 1 27;
  ClientFlag_f_unread := Z.shiftl 1 28;
  ClientFlag_f_featured := Z.shiftl 1 29;
  ClientFlag_f_not_loaded := Z.shiftl 1 30;
  CustomSetId := 18446744073709551615;
  GetSetTitle := vtitle;
  Emoji_Find := λ text,
    match text with
    | EmptyString => None
    | String c _ => Some (Ascii.N_of_ascii c)
    end;
  Emoji_original := λ e, e;
  ApplyArchivedResult := λ _ data, data
|}.

Definition emptySession : SessionData :=
  {| stickerSets := ∅; stickerSetsOrder := [];
     archivedStickerSetsOrder := []; documents := ∅ |}.

Definition stickerOf (set : uint64) (id : DocumentId) : MTPDocument :=
  {| doc_vid := id;
     doc_sticker := Some {| sticker_set := MTPDinputStickerSetID set 0 |} |}.

Definition plainDocument (id : DocumentId) : MTPDocument :=
  {| doc_vid := id; doc_sticker := None |}.

(** The set of the spec's example: id 7, stickers A = 101 and B = 102,
    no flags. *)
Definition set7 (flags : Z) : MTPDstickerSet :=
  {| vid := 7; vaccess_hash := 70; vtitle := "Seven"; vshort_name := "seven";
     vcount := 2; vhash := 0; vflags := flags; vinstalled_date := None;
     vthumb := None |}.

Definition response7 (flags : Z) : MTPDmessages_stickerSet :=
  {| vset := set7 flags;
     vpacks := [ {| vemoticon := "a"; pack_vdocuments := [101; 999; 102] |} ];
     vdocuments := [stickerOf 7 101; plainDocument 55; stickerOf 7 102] |}.

(** A response whose documents carry no sticker metadata. *)
Definition responseEmpty : MTPDmessages_stickerSet :=
  {| vset := set7 0; vpacks := []; vdocuments := [plainDocument 55] |}.

Definition input7 : MTPInputStickerSet := MTPDinputStickerSetID 7 70.

(** A dialog for set 7 right after [prepare], its fetch sent as request 1. *)
Definition dialog7 (data : SessionData) : Dialog :=
  (@prepare sampleScheme 1 input7 data).1.

(** The run a list of events produces from [w], as a function: the trace
    so far is extended event by event, [None] as soon as an event cannot
    happen. *)
Fixpoint runEvents (events : list Event) (w : Dialog)
    (trace : list (Event * list Effect))
  : option (Dialog * list (Event * list Effect)) :=
  match events with
  | [] => Some (w, trace)
  | event :: rest =>
      match @dispatch sampleScheme event w with
      | Some (w', effects) => runEvents rest w' (trace ++ [(event, effects)])
      | None => None
      end
  end.

(** [Inner] and the session once the fetch of set 7 has completed with the
    given flags. *)
Definition fetched7 (flags : Z) (data : SessionData) : Inner * SessionData :=
  (@gotSet sampleScheme (response7 flags) (inner (dialog7 data)) data).1.

(** The custom bucket holding the given stickers. *)
Definition customBucket (stickers : Pack) : StickersSet :=
  withStickers
    (Stickers_Set (@CustomSetId sampleScheme) 0 EmptyString EmptyString 0 0
       (Z.shiftl 1 27) 0 ImagePtr_null)
    stickers.

(** A session in which set 7 is known, featured (a client-only flag) and
    archived, with two other sets around and stickers 300, 101 and 301 in
    the custom bucket. *)
Definition busySession : SessionData :=
  {| stickerSets :=
       <[7 := Stickers_Set 7 70 "Seven" "seven" 2 0
                (Z.lor 2 (Z.shiftl 1 29)) 0 ImagePtr_null]>
         (<[@CustomSetId sampleScheme := customBucket [300; 101; 301]]> ∅);
     stickerSetsOrder := [5; 7; 6];
     archivedStickerSetsOrder := [5; 7; 9];
     documents := ∅ |}.

(** As [busySession], with sticker 101 twice in the custom bucket. *)
Definition repeatSession : SessionData :=
  {| stickerSets :=
       <[@CustomSetId sampleScheme := customBucket [300; 101; 101]]>
         (stickerSets busySession);
     stickerSetsOrder := stickerSetsOrder busySession;
     archivedStickerSetsOrder := archivedStickerSetsOrder busySession;
     documents := documents busySession |}.

(** A session whose order sequences only name registered sets: 5 and 6
    installed, 7 archived. *)
Definition tidySession : SessionData :=
  {| stickerSets :=
       <[5 := Stickers_Set 5 50 "Five" "five" 1 0 1 10 ImagePtr_null]>
         (<[6 := Stickers_Set 6 60 "Six" "six" 1 0 1 20 ImagePtr_null]>
            (<[7 := Stickers_Set 7 70 "Old seven" "seven" 1 0 3 30
                      ImagePtr_null]> ∅));
     stickerSetsOrder := [5; 6];
     archivedStickerSetsOrder := [7];
     documents := ∅ |}.

(** Seven elements, all but the third with a running animation. *)
Definition sampleElements : list Element :=
  (λ d, {| element_document := d;
           element_animated := if decide (d = 103) then 0 else d |})
  <$> [101; 102; 103; 104; 105; 106; 107].

(** A left-to-right widget of width 400 over the sample elements, with a
    window. *)
Definition sampleWidget : Widget :=
  {| widget_elements := sampleElements; widget_rtl := false;
     widget_width := 400; widget_wnd := true |}.

(** ** Proof steps for mask equations

    [bitwise n] reduces an equation between masks to its bits;
    [bit_of H n] reads an equation between masks at bit [n]. *)

Ltac bit_of H n :=
  apply (f_equal (λ z, Z.testbit z n)) in H;
  repeat first
    [ rewrite Z.land_spec in H | rewrite Z.lor_spec in H
    | rewrite Z.bits_0 in H ].

Ltac bitwise n :=
  apply Z.bits_inj'; intros n ?;
  repeat first
    [ rewrite Z.land_spec | rewrite Z.lor_spec
    | rewrite Z.lnot_spec by done | rewrite Z.bits_0 ].

(** * Properties *)

(** ** The Qt idioms on lists *)

Section QtContainerFacts.
Context {A : Type} `{EqDecision A}.
Implicit Types (x y : A) (l : list A).

Lemma indexOf_cons x y l :
  indexOf x (y :: l) =
    if decide (y = x) then 0
    else if decide (0 ≤ indexOf x l) then indexOf x l + 1 else -1.
Proof.
  unfold indexOf. cbn [list_find].
  destruct (decide (y = x)); [done|].
  destruct (list_find _ l) as [[i z]|]; cbn.
  - rewrite decide_True by lia. lia.
  - by rewrite decide_False by lia.
Qed.

Lemma indexOf_bounds x l : -1 ≤ indexOf x l < Z.of_nat (length l).
Proof.
  induction l as [|y l IH]; [cbn; lia|].
  rewrite indexOf_cons. repeat case_decide; cbn [length]; lia.
Qed.

Lemma indexOf_absent x l : x ∉ l ↔ indexOf x l = -1.
Proof.
  induction l as [|y l IH].
  - split; [done|]. intros _. apply not_elem_of_nil.
  - rewrite indexOf_cons, not_elem_of_cons.
    pose proof (indexOf_bounds x l).
    repeat case_decide; subst; split; try lia; try tauto.
    + intros [_ ?%IH]. lia.
    + intros _. split; [congruence|]. apply IH. lia.
Qed.

Lemma indexOf_present x l : x ∈ l ↔ 0 ≤ indexOf x l.
Proof.
  pose proof (indexOf_bounds x l) as Hb.
  pose proof (indexOf_absent x l) as [Ha1 Ha2].
  split.
  - intros Hx. destruct (decide (indexOf x l = -1)) as [Hi|Hi]; [|lia].
    by destruct (Ha2 Hi).
  - intros Hi. destruct (decide (x ∈ l)) as [|Hx]; [done|].
    apply Ha1 in Hx. lia.
Qed.

Lemma indexOf_zero x l : indexOf x l = 0 ↔ head l = Some x.
Proof.
  destruct l as [|y l]; [done|].
  rewrite indexOf_cons. pose proof (indexOf_bounds x l).
  repeat case_decide; subst; cbn; split; try done; try lia; congruence.
Qed.

(** [indexOf] is the first position that holds [x]. *)
Lemma indexOf_first x l i :
  indexOf x l = Z.of_nat i ↔
  l !! i = Some x ∧ ∀ j, (j < i)%nat → l !! j ≠ Some x.
Proof.
  revert i. induction l as [|y l IH]; intros i.
  - cbn. split; [lia|]. by intros [? _].
  - rewrite indexOf_cons. destruct (decide (y = x)) as [->|Hne].
    + split.
      * intros Hi. assert (i = 0%nat) as -> by lia. split; [done|]. lia.
      * intros [_ Hfirst]. destruct i as [|i]; [done|].
        by destruct (Hfirst 0%nat); [lia|].
    + destruct i as [|i].
      * split; [case_decide; lia|]. intros [[=] _]. done.
      * case_decide as Hpos.
        -- assert (indexOf x l + 1 = Z.of_nat (S i) ↔ indexOf x l = Z.of_nat i)
             as -> by lia.
           rewrite IH. cbn. split; intros [Hi Hfirst]; (split; [done|]).
           ++ intros [|j] ?; cbn; [congruence|]. apply Hfirst. lia.
           ++ intros j ?. apply (Hfirst (S j)). lia.
        -- split; [lia|]. intros [Hi _]. cbn in Hi. exfalso.
           apply Hpos, indexOf_present. by eapply list_elem_of_lookup_2.
Qed.

Lemma removeFirst_cons x y l :
  removeFirst x (y :: l) = if decide (y = x) then l else y :: removeFirst x l.
Proof.
  unfold removeFirst, removeAt. rewrite indexOf_cons.
  pose proof (indexOf_bounds x l).
  destruct (decide (y = x)); [done|].
  destruct (decide (0 ≤ indexOf x l)).
  - rewrite !decide_True by lia.
    replace (Z.to_nat (indexOf x l + 1)) with (S (Z.to_nat (indexOf x l))) by lia.
    done.
  - by rewrite decide_False by lia.
Qed.

Lemma removeFirst_absent x l : x ∉ l → removeFirst x l = l.
Proof.
  intros Hx%indexOf_absent. unfold removeFirst. rewrite Hx.
  by rewrite decide_False by lia.
Qed.

(** The element removed is the first one equal to [x]; the rest keeps its
    order. *)
Lemma removeFirst_present x l :
  x ∈ l →
  ∃ l1 l2, l = l1 ++ x :: l2 ∧ (x ∉ l1) ∧ removeFirst x l = l1 ++ l2.
Proof.
  induction l as [|y l IH]; [by intros ?%not_elem_of_nil|].
  intros Hx. rewrite removeFirst_cons. destruct (decide (y = x)) as [->|Hne].
  - exists [], l. split_and!; [done|apply not_elem_of_nil|done].
  - apply elem_of_cons in Hx as [?|Hx]; [congruence|].
    destruct (IH Hx) as (l1 & l2 & -> & Hl1 & ->).
    exists (y :: l1), l2. split_and!; [done| |done].
    apply not_elem_of_cons. split; [congruence|done].
Qed.

Lemma occurrences_cons x y l :
  occurrences x (y :: l) =
    if decide (y = x) then S (occurrences x l) else occurrences x l.
Proof.
  unfold occurrences. rewrite filter_cons. by case_decide.
Qed.

Lemma occurrences_zero x l : occurrences x l = 0%nat ↔ x ∉ l.
Proof.
  induction l as [|y l IH].
  - split; [intros _; apply not_elem_of_nil|done].
  - rewrite occurrences_cons, not_elem_of_cons.
    destruct (decide (y = x)) as [->|Hne].
    + split; [lia|]. by intros [? _].
    + rewrite IH. split; [|by intros [_ ?]].
      intros ?. split; [congruence|done].
Qed.

Lemma occurrences_removeFirst x y l :
  occurrences y (removeFirst x l) =
    if decide (y = x) then Nat.pred (occurrences y l) else occurrences y l.
Proof.
  induction l as [|z l IH].
  - cbn. by case_decide.
  - rewrite removeFirst_cons, (occurrences_cons y z l).
    destruct (decide (z = x)) as [->|Hzx].
    + destruct (decide (x = y)) as [->|Hxy].
      * by rewrite decide_True.
      * by rewrite !decide_False by congruence.
    + rewrite occurrences_cons, IH.
      destruct (decide (z = y)) as [->|Hzy]; [|done].
      by destruct (decide (y = x)).
Qed.

Lemma removeFirst_sublist x l : removeFirst x l `sublist_of` l.
Proof.
  unfold removeFirst, removeAt. repeat case_decide; try done.
  apply sublist_delete.
Qed.
End QtContainerFacts.

(** ** Flag masks *)

Lemma flag_set_false flags mask :
  flag_set flags mask = false ↔ Z.land flags mask = 0.
Proof.
  unfold flag_set. destruct (Z.eqb_spec (Z.land flags mask) 0); cbn; split;
    congruence.
Qed.

Lemma flag_set_true flags mask :
  flag_set flags mask = true ↔ Z.land flags mask ≠ 0.
Proof.
  rewrite <- flag_set_false. destruct (flag_set flags mask); split; congruence.
Qed.

(** A mask inside [keep] that is set in [old] is set in
    [fresh | (old & keep)], whatever [fresh] is. *)
Lemma flag_set_kept fresh old keep mask :
  Z.land keep mask = mask →
  flag_set old mask = true →
  flag_set (Z.lor fresh (Z.land old keep)) mask = true.
Proof.
  rewrite !flag_set_true. intros Hin Hset Hzero. apply Hset.
  bitwise n. bit_of Hzero n. bit_of Hin n.
  destruct (Z.testbit fresh n), (Z.testbit old n), (Z.testbit keep n),
    (Z.testbit mask n); done.
Qed.

Section InstallDoneFacts.
Context `{Collaborators}.

Lemma installedFlags_archived flags :
  Z.land Flag_f_installed_date Flag_f_archived = 0 →
  flag_set (installedFlags flags) Flag_f_archived = false.
Proof.
  intros Hbits. apply flag_set_false. unfold installedFlags, flags_not.
  bitwise n. bit_of Hbits n.
  destruct (Z.testbit flags n), (Z.testbit Flag_f_installed_date n),
    (Z.testbit Flag_f_archived n), (Z.testbit (Z.ones 32) n); done.
Qed.

Lemma installedFlags_installed flags :
  Z.land (installedFlags flags) Flag_f_installed_date = Flag_f_installed_date.
Proof.
  unfold installedFlags. bitwise n.
  destruct (Z.testbit Flag_f_installed_date n); [|by rewrite andb_false_r].
  by rewrite orb_true_r.
Qed.

(** Bits outside the archived and installed masks are kept (below bit 32,
    where all flags live). *)
Lemma installedFlags_other flags mask :
  Z.land Flag_f_installed_date mask = 0 →
  flag_set flags mask = false →
  flag_set (installedFlags flags) mask = false.
Proof.
  rewrite !flag_set_false. intros Hbits Hzero.
  unfold installedFlags, flags_not. bitwise n.
  bit_of Hbits n. bit_of Hzero n.
  destruct (Z.testbit flags n), (Z.testbit Flag_f_installed_date n),
    (Z.testbit mask n); try done.
  all: cbn; by rewrite ?andb_false_r.
Qed.

Lemma cleanCustom_lookup_ne pack sets id :
  id ≠ CustomSetId → cleanCustom pack sets !! id = sets !! id.
Proof.
  intros Hne. unfold cleanCustom.
  destruct (sets !! CustomSetId); [|done].
  case_decide.
  - by rewrite lookup_delete_ne.
  - by rewrite lookup_insert_ne.
Qed.

Lemma installDone_session result now self data :
  (installDone result now self data).1.2
  = applyResult result (reconcileInstalled now self data).
Proof. done. Qed.

Lemma installDone_inner result now self data :
  (installDone result now self data).1.1 = installedInner now self.
Proof. done. Qed.

Lemma dropArchived_not_archived self order :
  flag_set (_setFlags self) Flag_f_archived = false →
  dropArchived self order = order.
Proof. unfold dropArchived. by intros ->. Qed.

Lemma dropArchived_archived self order :
  flag_set (_setFlags self) Flag_f_archived = true →
  dropArchived self order = removeFirst (_setId self) order.
Proof. unfold dropArchived, removeFirst. by intros ->. Qed.

Lemma removeStickers_cons sticker pack stickers :
  removeStickers (sticker :: pack) stickers
  = removeStickers pack (removeFirst sticker stickers).
Proof. done. Qed.

Lemma removeStickers_occurrences pack stickers (S : DocumentId) :
  occurrences S (removeStickers pack stickers)
  = (occurrences S stickers - occurrences S pack)%nat.
Proof.
  revert stickers. induction pack as [|p pack IH]; intros stickers.
  - change (occurrences S []) with 0%nat. by rewrite Nat.sub_0_r.
  - rewrite removeStickers_cons, IH, occurrences_removeFirst,
      (occurrences_cons S p pack).
    destruct (decide (S = p)) as [->|Hne].
    + rewrite !decide_True by done. lia.
    + rewrite !decide_False by congruence. done.
Qed.

Lemma removeStickers_sublist pack stickers :
  removeStickers pack stickers `sublist_of` stickers.
Proof.
  revert stickers. induction pack as [|p pack IH]; intros stickers; [done|].
  rewrite removeStickers_cons. etrans; [apply IH|apply removeFirst_sublist].
Qed.

Lemma NoDup_occurrences (l : list DocumentId) S :
  NoDup l → (occurrences S l ≤ 1)%nat.
Proof.
  induction 1 as [|x l Hx _ IH]; [cbn; lia|].
  rewrite occurrences_cons. case_decide as Heq; [|done].
  subst. apply occurrences_zero in Hx. lia.
Qed.

Lemma removeStickers_self (pack : Pack) : removeStickers pack pack = [].
Proof.
  destruct (removeStickers pack pack) as [|S rest] eqn:Heq; [done|].
  pose proof (removeStickers_occurrences pack pack S) as Hocc.
  rewrite Heq, Nat.sub_diag in Hocc.
  apply occurrences_zero in Hocc. by destruct Hocc; left.
Qed.

End InstallDoneFacts.

Section InstallDoneResults.
Context `{Collaborators}.

(** C3.  On install completion for a set whose flags say it is archived,
    the first position of the archived-order sequence that holds the
    set's id is removed, and nothing happens to the sequence when the id
    is absent.  The archived mask is cleared, the installed mask is set
    and the install date is the current time, in [Inner] and in the
    registry entry.  Since the archived mask is now clear, a further
    completion on the same [Inner] leaves the archived-order sequence it
    finds alone: the removal happens once. *)
Theorem installDone_archived_removed_once result now self data
    (Hbits : Z.land Flag_f_installed_date Flag_f_archived = 0)
    (Harchived : flag_set (_setFlags self) Flag_f_archived = true) :
  ∃ data',
    (installDone result now self data).1.2 = applyResult result data' ∧
    let self' := (installDone result now self data).1.1 in
    let id := _setId self in
    let archived := archivedStickerSetsOrder data in
    let archived' := archivedStickerSetsOrder data' in
    (id ∉ archived → archived' = archived) ∧
    (id ∈ archived →
       ∃ l1 l2, archived = l1 ++ id :: l2 ∧ (id ∉ l1) ∧ archived' = l1 ++ l2) ∧
    occurrences id archived' = Nat.pred (occurrences id archived) ∧
    flag_set (_setFlags self') Flag_f_archived = false ∧
    Z.land (_setFlags self') Flag_f_installed_date = Flag_f_installed_date ∧
    _setInstallDate self' = now ∧
    (id ≠ CustomSetId →
       ∃ it, stickerSets data' !! id = Some it ∧
             set_flags it = _setFlags self' ∧ set_installDate it = now) ∧
    ∀ result2 now2 data2,
      ∃ data2',
        (installDone result2 now2 self' data2).1.2 = applyResult result2 data2' ∧
        archivedStickerSetsOrder data2' = archivedStickerSetsOrder data2.
Proof.
  exists (reconcileInstalled now self data).
  split; [apply installDone_session|].
  rewrite installDone_inner. cbn zeta.
  assert (archivedStickerSetsOrder (reconcileInstalled now self data)
          = removeFirst (_setId self) (archivedStickerSetsOrder data)) as ->
    by (by apply dropArchived_archived).
  split_and!.
  - apply removeFirst_absent.
  - apply removeFirst_present.
  - rewrite occurrences_removeFirst. by rewrite decide_True.
  - by apply installedFlags_archived.
  - apply installedFlags_installed.
  - done.
  - intros Hid. cbn. rewrite cleanCustom_lookup_ne by done.
    unfold upsertSet. cbn. rewrite lookup_insert_eq.
    eexists. split; [done|]. by destruct (stickerSets data !! _setId self).
  - intros result2 now2 data2.
    exists (reconcileInstalled now2 (installedInner now self) data2).
    split; [apply installDone_session|].
    apply dropArchived_not_archived. by apply installedFlags_archived.
Qed.

(** C4.  On every install completion the set's id ends at position 0 of
    the install-order sequence: already first, the sequence is unchanged;
    absent, the id is put in front; first found at a later position, it is
    removed from there and put in front. *)
Theorem installDone_set_first_in_order result now self data :
  ∃ data',
    (installDone result now self data).1.2 = applyResult result data' ∧
    let id := _setId self in
    let order := stickerSetsOrder data in
    let order' := stickerSetsOrder data' in
    order' !! 0%nat = Some id ∧
    (order !! 0%nat = Some id → order' = order) ∧
    (id ∉ order → order' = id :: order) ∧
    (∀ i, i ≠ 0%nat → order !! i = Some id →
          (∀ j, (j < i)%nat → order !! j ≠ Some id) →
          order' = id :: delete i order).
Proof.
  exists (reconcileInstalled now self data).
  split; [apply installDone_session|]. cbn.
  set (id := _setId self). set (order := stickerSetsOrder data).
  unfold reorder. split_and!.
  - case_decide as Hidx; [done|].
    apply indexOf_zero in Hidx.
    by destruct order.
  - intros Hhead. rewrite decide_False; [done|].
    intros Hidx. apply Hidx, indexOf_zero. by destruct order.
  - intros Habsent%indexOf_absent. rewrite Habsent.
    rewrite decide_True by lia. by rewrite decide_False by lia.
  - intros i Hi Hat Hfirst.
    assert (indexOf id order = Z.of_nat i) as -> by (by apply indexOf_first).
    rewrite !decide_True by lia. unfold removeAt, insertAt.
    rewrite decide_True by lia. cbn. by rewrite Nat2Z.id.
Qed.

(** C5.  On install completion the loop over the installed pack removes
    from the sticker list of the custom bucket one occurrence per sticker
    of the pack, the stickers that stay keeping their order; a sticker
    the bucket holds more often than the pack stays in it, and with a
    bucket that holds no sticker twice no sticker of the pack is left.
    A bucket whose list becomes empty is erased from the registry;
    otherwise the entry stays, with the shortened list as its stickers
    and every other field as it was.  When the installed set is the
    custom bucket itself its list has just been overwritten with the
    pack, so the entry is erased; an absent bucket stays absent. *)
Theorem installDone_cleans_custom_bucket result now self data :
  ∃ data',
    (installDone result now self data).1.2 = applyResult result data' ∧
    (_setId self = CustomSetId → stickerSets data' !! CustomSetId = None) ∧
    (_setId self ≠ CustomSetId →
     stickerSets data !! CustomSetId = None →
     stickerSets data' !! CustomSetId = None) ∧
    ∀ custom,
      _setId self ≠ CustomSetId →
      stickerSets data !! CustomSetId = Some custom →
      ∃ rest,
        rest `sublist_of` set_stickers custom ∧
        (∀ S, occurrences S rest
              = (occurrences S (set_stickers custom)
                 - occurrences S (_pack self))%nat) ∧
        (NoDup (set_stickers custom) → ∀ S, S ∈ _pack self → S ∉ rest) ∧
        (rest = [] → stickerSets data' !! CustomSetId = None) ∧
        (rest ≠ [] →
         ∃ custom',
           stickerSets data' !! CustomSetId = Some custom' ∧
           set_stickers custom' = rest ∧
           (set_id custom', set_access custom', set_title custom',
            set_shortName custom', set_count custom', set_hash custom',
            set_flags custom', set_installDate custom',
            set_thumbnail custom', set_emoji custom')
           = (set_id custom, set_access custom, set_title custom,
              set_shortName custom, set_count custom, set_hash custom,
              set_flags custom, set_installDate custom,
              set_thumbnail custom, set_emoji custom)).
Proof.
  exists (reconcileInstalled now self data).
  split; [apply installDone_session|].
  cbn. unfold cleanCustom, upsertSet. cbn. split_and!.
  - intros Hcustom. rewrite Hcustom, lookup_insert_eq. cbn.
    rewrite decide_True by apply removeStickers_self.
    apply lookup_delete_eq.
  - intros Hother Habsent. rewrite lookup_insert_ne by done.
    rewrite Habsent. by rewrite lookup_insert_ne by done.
  - intros custom Hother Hcustom.
    exists (removeStickers (_pack self) (set_stickers custom)).
    split; [apply removeStickers_sublist|].
    split; [apply removeStickers_occurrences|].
    split.
    { intros Hnodup S HS. apply occurrences_zero.
      rewrite removeStickers_occurrences.
      pose proof (NoDup_occurrences _ S Hnodup).
      destruct (occurrences S (_pack self)) eqn:Hocc; [|lia].
      by apply occurrences_zero in Hocc. }
    rewrite lookup_insert_ne by done. rewrite Hcustom.
    split; intros Hrest.
    + rewrite decide_True by done. apply lookup_delete_eq.
    + rewrite decide_False by done.
      eexists. split; [apply lookup_insert_eq|]. done.
Qed.

End InstallDoneResults.

Lemma installDone_archived_removed_once_witness :
  let self := (fetched7 2 busySession).1 in
  let data := (fetched7 2 busySession).2 in
  flag_set (_setFlags self) (@Flag_f_archived sampleScheme) = true ∧
  archivedStickerSetsOrder data = [5; 7; 9] ∧
  occurrences 7
    (archivedStickerSetsOrder
       (@installDone sampleScheme
          mtpc_messages_stickerSetInstallResultSuccess 1000 self data).1.2)
  = 0%nat.
Proof.
  intros self data.
  destruct (@installDone_archived_removed_once sampleScheme
              mtpc_messages_stickerSetInstallResultSuccess 1000 self data
              eq_refl eq_refl) as (data' & Heq & _ & _ & Hocc & _).
  unfold applyResult in Heq. subst data'.
  split_and!; [reflexivity|reflexivity|].
  etrans; [exact Hocc|reflexivity].
Defined.

Lemma installDone_set_first_in_order_witness :
  stickerSetsOrder (fetched7 2 busySession).2 = [5; 7; 6] ∧
  stickerSetsOrder
    (@installDone sampleScheme
       mtpc_messages_stickerSetInstallResultSuccess 1000
       (fetched7 2 busySession).1 (fetched7 2 busySession).2).1.2
  = [7; 5; 6].
Proof.
  destruct (@installDone_set_first_in_order sampleScheme
              mtpc_messages_stickerSetInstallResultSuccess 1000
              (fetched7 2 busySession).1 (fetched7 2 busySession).2)
    as (data' & Heq & _ & _ & _ & Hmoved).
  unfold applyResult in Heq. subst data'.
  split; [reflexivity|].
  etrans; [apply (Hmoved 1%nat)|reflexivity].
  - done.
  - reflexivity.
  - intros [|j] ?; [done|lia].
Defined.

Lemma installDone_cleans_custom_bucket_witness :
  stickerSets (fetched7 2 busySession).2 !! @CustomSetId sampleScheme
  = Some (customBucket [300; 101; 301]) ∧
  _pack (fetched7 2 busySession).1 = [101; 102] ∧
  101 ∉ default []
    (set_stickers <$>
       stickerSets
         (@installDone sampleScheme
            mtpc_messages_stickerSetInstallResultSuccess 1000
            (fetched7 2 busySession).1 (fetched7 2 busySession).2).1.2
       !! @CustomSetId sampleScheme).
Proof.
  destruct (@installDone_cleans_custom_bucket sampleScheme
              mtpc_messages_stickerSetInstallResultSuccess 1000
              (fetched7 2 busySession).1 (fetched7 2 busySession).2)
    as (data' & Heq & _ & _ & Hfound).
  destruct (Hfound (customBucket [300; 101; 301]))
    as (rest & _ & _ & Hgone & Hempty & Hrest).
  - vm_compute. discriminate.
  - reflexivity.
  - unfold applyResult in Heq. subst data'.
    split_and!; [reflexivity|reflexivity|].
    destruct rest as [|r rest].
    + rewrite Hempty by done. apply not_elem_of_nil.
    + destruct Hrest as (custom' & Hlookup & Hstickers & _); [done|].
      rewrite Hlookup. cbn [fmap option_fmap option_map default].
      rewrite Hstickers. apply Hgone.
      * compute_done.
      * compute_done.
Defined.

(** The sticker list of the custom bucket can hold a sticker of the
    installed pack after install completion: with 101 twice in the
    bucket and once in the pack, one 101 stays. *)
Lemma installDone_custom_bucket_counterexample :
  stickerSets (fetched7 2 repeatSession).2 !! @CustomSetId sampleScheme
  = Some (customBucket [300; 101; 101]) ∧
  _pack (fetched7 2 repeatSession).1 = [101; 102] ∧
  ¬ ∀ S,
      S ∈ _pack (fetched7 2 repeatSession).1 →
      S ∉ default []
        (set_stickers <$>
           stickerSets
             (@installDone sampleScheme
                mtpc_messages_stickerSetInstallResultSuccess 1000
                (fetched7 2 repeatSession).1 (fetched7 2 repeatSession).2).1.2
           !! @CustomSetId sampleScheme).
Proof.
  split_and!; [reflexivity..|]. intros Hremoved.
  apply (Hremoved 101); [compute_done|].
  vm_compute. apply list_elem_of_further, list_elem_of_here.
Qed.

(** ** The parser *)

Section ParserFacts.
Context `{Collaborators}.

Lemma collectDocuments_pack v docs pack :
  (collectDocuments v docs pack).1
  = pack ++ (doc_vid <$> filter (λ item, is_Some (doc_sticker item)) v).
Proof.
  revert docs pack. induction v as [|item v IH]; intros docs pack.
  - cbn. by rewrite app_nil_r.
  - cbn [collectDocuments processDocument]. unfold document.
    rewrite lookup_insert_eq. cbn [mbind option_bind sticker].
    destruct (doc_sticker item) as [s|] eqn:Hs.
    + rewrite IH, filter_cons_True by (by rewrite Hs).
      by rewrite <- app_assoc.
    + rewrite IH, filter_cons_False; [done|].
      rewrite Hs. by intros [].
Qed.

Lemma collectPack_filter docs stickers p :
  collectPack docs stickers p
  = p ++ filter (λ id, resolvesToSticker docs id = true) stickers.
Proof.
  revert p. induction stickers as [|id stickers IH]; intros p.
  - cbn. by rewrite app_nil_r.
  - cbn [collectPack]. destruct (resolvesToSticker docs id) eqn:Hid.
    + rewrite IH, filter_cons_True by done. by rewrite <- app_assoc.
    + rewrite IH, filter_cons_False; [done|]. by rewrite Hid.
Qed.

(** Every pack of the emoji map was built from one pack of the response
    whose emoticon is a known emoji, out of those of its references that
    resolve to sticker documents. *)
Lemma collectEmoji_lookup docs packs emoji e p :
  collectEmoji docs packs emoji !! e = Some p →
  emoji !! e = Some p ∨
  ∃ pack found,
    pack ∈ packs ∧ Emoji_Find (vemoticon pack) = Some found ∧
    Emoji_original found = e ∧
    p = filter (λ id, resolvesToSticker docs id = true) (pack_vdocuments pack).
Proof.
  revert emoji. induction packs as [|pack packs IH]; intros emoji Hp.
  - by left.
  - cbn [collectEmoji] in Hp.
    destruct (Emoji_Find (vemoticon pack)) as [found|] eqn:Hfound.
    + apply IH in Hp as [Hp|(pack' & found' & ? & ? & ? & ?)].
      * destruct (decide (Emoji_original found = e)) as [He|He].
        -- rewrite He, lookup_insert_eq in Hp. injection Hp as <-.
           right. exists pack, found. split_and!; [left|done|done|].
           by rewrite collectPack_filter.
        -- rewrite lookup_insert_ne in Hp by done. by left.
      * right. exists pack', found'. split_and!; [by right|done..].
    + apply IH in Hp as [Hp|(pack' & found' & ? & ? & ? & ?)]; [by left|].
      right. exists pack', found'. split_and!; [by right|done..].
Qed.

Lemma resolvesToSticker_true docs id :
  resolvesToSticker docs id = true ↔
  ∃ doc, docs !! id = Some doc ∧ is_Some (sticker doc).
Proof.
  unfold resolvesToSticker, document. destruct (docs !! id) as [doc|].
  - rewrite bool_decide_eq_true. split; [by exists doc|].
    by intros (? & [= <-] & ?).
  - split; [done|]. by intros (? & ? & _).
Qed.

(** The fields of [Inner] and of the session that [gotSet] computes from
    the response alone. *)
Lemma gotSet_parsed response self data :
  let self' := (gotSet response self data).1.1 in
  let data' := (gotSet response self data).1.2 in
  _pack self' = validStickers response ∧
  _emoji self' = collectEmoji (documents data') (vpacks response) ∅ ∧
  _setId self' = vid (vset response) ∧
  _setThumbnail self'
  = match vthumb (vset response) with
    | Some thumb => Images_Create (vset response) thumb
    | None => ImagePtr_null
    end ∧
  _installRequest self' = _installRequest self ∧
  stickerSetsOrder data' = stickerSetsOrder data ∧
  archivedStickerSetsOrder data' = archivedStickerSetsOrder data.
Proof.
  unfold gotSet, validStickers.
  pose proof (collectDocuments_pack (vdocuments response) (documents data) [])
    as Hpack.
  destruct (collectDocuments _ _ _) as [pack docs]. cbn in Hpack. subst pack.
  destruct (stickerSets data !! vid (vset response)); case_decide; done.
Qed.

(** The two ways [gotSet] ends, by whether the parsed pack is empty. *)
Lemma gotSet_outcome response self data :
  let self' := (gotSet response self data).1.1 in
  let effects := (gotSet response self data).2 in
  (validStickers response = [] →
     effects = [ShowInformBox lng_stickers_not_found None] ∧
     _loaded self' = _loaded self ∧
     loaded self' = false ∧
     ∀ session, updateButtons self' session = [lng_cancel]) ∧
  (validStickers response ≠ [] →
     effects = [ResizeRows (rowsOf (validStickers response)); FireUpdateControls] ∧
     _loaded self' = true ∧
     loaded self' = true).
Proof.
  cbn zeta. destruct (gotSet_parsed response self data) as (Hpack & _).
  revert Hpack. unfold gotSet, loaded, updateButtons, loaded.
  destruct (collectDocuments _ _ _) as [pack docs].
  destruct (stickerSets data !! vid (vset response)); case_decide; cbn;
    intros <-; (split; [intros Hv|intros Hv]); try done.
  - rewrite bool_decide_eq_true_2 by done. by rewrite andb_false_r.
  - by rewrite bool_decide_eq_false_2.
  - rewrite bool_decide_eq_true_2 by done. by rewrite andb_false_r.
  - by rewrite bool_decide_eq_false_2.
Qed.

End ParserFacts.

Section FetchResults.
Context `{Collaborators}.

Lemma clientFlagsMask_covers mask :
  mask ∈ [ClientFlag_f_featured; ClientFlag_f_not_loaded;
          ClientFlag_f_unread; ClientFlag_f_special] →
  Z.land clientFlagsMask mask = mask.
Proof.
  intros Hmask. unfold clientFlagsMask.
  repeat (apply elem_of_cons in Hmask as [->|Hmask]);
    [..|by apply elem_of_nil in Hmask].
  all: bitwise n.
  all: destruct (Z.testbit ClientFlag_f_featured n),
         (Z.testbit ClientFlag_f_not_loaded n),
         (Z.testbit ClientFlag_f_unread n),
         (Z.testbit ClientFlag_f_special n); done.
Qed.

(** C1.  When the registry already holds the id of the fetched set, the
    entry's new flags are the flags of the response or-ed with the
    client-only bits of the old flags, so each client-only flag
    (featured, not-loaded, unread, special) that was set stays set
    whatever flags the response carries; the entry's stickers, emoji map
    and thumbnail are the freshly parsed ones. *)
Theorem gotSet_known_set_keeps_client_flags response self data it
    (Hknown : stickerSets data !! vid (vset response) = Some it) :
  let set := vset response in
  let self' := (gotSet response self data).1.1 in
  let data' := (gotSet response self data).1.2 in
  ∃ it',
    stickerSets data' !! vid set = Some it' ∧
    set_flags it'
    = Z.lor (vflags set) (Z.land (set_flags it) clientFlagsMask) ∧
    (∀ mask,
       mask ∈ [ClientFlag_f_featured; ClientFlag_f_not_loaded;
               ClientFlag_f_unread; ClientFlag_f_special] →
       flag_set (set_flags it) mask = true →
       flag_set (set_flags it') mask = true) ∧
    set_stickers it' = validStickers response ∧
    set_emoji it' = collectEmoji (documents data') (vpacks response) ∅ ∧
    set_thumbnail it'
    = match vthumb set with
      | Some thumb => Images_Create set thumb
      | None => ImagePtr_null
      end ∧
    _setFlags self' = set_flags it'.
Proof.
  cbn zeta. unfold gotSet, validStickers.
  pose proof (collectDocuments_pack (vdocuments response) (documents data) [])
    as Hpack.
  destruct (collectDocuments _ _ _) as [pack docs]. cbn in Hpack. subst pack.
  rewrite Hknown.
  eexists. split.
  { case_decide; cbn; apply lookup_insert_eq. }
  cbn. split_and!; try done.
  - intros mask Hmask. apply flag_set_kept. by apply clientFlagsMask_covers.
  - by case_decide.
  - by case_decide.
Qed.

(** C2, as the code has it.  When the registry does not hold the id of
    the fetched set, the fetch leaves the registry and both order
    sequences as they are: no entry is inserted.  The parsed pack and the
    flags exactly as the response reported them are kept in the dialog's
    own fields. *)
Theorem gotSet_unknown_set_not_inserted response self data
    (Hunknown : stickerSets data !! vid (vset response) = None) :
  let self' := (gotSet response self data).1.1 in
  let data' := (gotSet response self data).1.2 in
  stickerSets data' = stickerSets data ∧
  stickerSetsOrder data' = stickerSetsOrder data ∧
  archivedStickerSetsOrder data' = archivedStickerSetsOrder data ∧
  _setId self' = vid (vset response) ∧
  _setFlags self' = vflags (vset response) ∧
  _pack self' = validStickers response.
Proof.
  cbn zeta. unfold gotSet, validStickers.
  pose proof (collectDocuments_pack (vdocuments response) (documents data) [])
    as Hpack.
  destruct (collectDocuments _ _ _) as [pack docs]. cbn in Hpack. subst pack.
  rewrite Hunknown. by case_decide.
Qed.

(** C8.  The pack [gotSet] keeps is made of the documents of the response
    that carry sticker metadata, the others are skipped; every pack of
    the emoji map holds only references that resolve to sticker documents
    of the store, the others are dropped without any effect.  When the
    pack is empty the only effect is the "not found" dialog: the loaded
    flag is left as it was, [loaded()] is false, no controls update is
    fired and nothing is sent; otherwise the widget is resized, the
    loaded flag is set and the controls update is fired. *)
Theorem gotSet_empty_pack_not_found response self data :
  let self' := (gotSet response self data).1.1 in
  let data' := (gotSet response self data).1.2 in
  let effects := (gotSet response self data).2 in
  _pack self' = validStickers response ∧
  (∀ e p id, _emoji self' !! e = Some p → id ∈ p →
     ∃ doc, documents data' !! id = Some doc ∧ is_Some (sticker doc)) ∧
  (∀ e p, _emoji self' !! e = Some p →
     ∃ pack found,
       pack ∈ vpacks response ∧
       Emoji_Find (vemoticon pack) = Some found ∧ Emoji_original found = e ∧
       p = filter (λ id, resolvesToSticker (documents data') id = true)
             (pack_vdocuments pack)) ∧
  (validStickers response = [] →
     effects = [ShowInformBox lng_stickers_not_found None] ∧
     _loaded self' = _loaded self ∧
     loaded self' = false ∧
     ∀ session, updateButtons self' session = [lng_cancel]) ∧
  (validStickers response ≠ [] →
     effects = [ResizeRows (rowsOf (validStickers response)); FireUpdateControls] ∧
     _loaded self' = true ∧
     loaded self' = true).
Proof.
  cbn zeta.
  destruct (gotSet_parsed response self data) as (Hpack & Hemoji & _).
  assert (∀ e p,
    _emoji (gotSet response self data).1.1 !! e = Some p →
    ∃ pack found,
      pack ∈ vpacks response ∧
      Emoji_Find (vemoticon pack) = Some found ∧ Emoji_original found = e ∧
      p = filter (λ id, resolvesToSticker
                          (documents (gotSet response self data).1.2) id = true)
            (pack_vdocuments pack)) as Hpacks.
  { intros e p Hp. rewrite Hemoji in Hp.
    by apply collectEmoji_lookup in Hp as [Hp|Hp]. }
  split; [done|]. split.
  { intros e p id Hp Hid.
    destruct (Hpacks e p Hp) as (pack & found & _ & _ & _ & ->).
    apply list_elem_of_filter in Hid as [Hid _].
    by apply resolvesToSticker_true. }
  split; [done|]. apply gotSet_outcome.
Qed.

End FetchResults.

Section InstallResults.
Context `{Collaborators}.

(** C7.  For a set whose flags carry the masks bit, [install] sends
    nothing and changes nothing: [Inner] is returned as it was and the
    only effect is the dialog "masks pack", which is not the "not found"
    dialog.  Pressed through the dialog's button, the whole dialog state
    (session data and pending requests included) stays as it was. *)
Theorem install_masks_set_refused requestId self
    (Hmasks : isMasksSet self = true) :
  install requestId self
  = (self, [ShowInformBox lng_stickers_masks_pack (Some LayerOption_KeepOther)]) ∧
  lng_stickers_masks_pack ≠ lng_stickers_not_found ∧
  ∀ w, inner w = self →
       lng_stickers_add_pack ∈ buttons w → requestId ≠ 0 →
       dispatch (AddPressed requestId) w
       = Some (w, [ShowInformBox lng_stickers_masks_pack
                     (Some LayerOption_KeepOther)]).
Proof.
  assert (install requestId self
    = (self, [ShowInformBox lng_stickers_masks_pack
                (Some LayerOption_KeepOther)])) as Hinstall.
  { unfold install. by rewrite Hmasks. }
  split_and!; [done|done|].
  intros w <- Hadd Hid. cbn [dispatch].
  rewrite decide_True by done. rewrite Hinstall. cbn.
  rewrite app_nil_r. by destruct w.
Qed.

End InstallResults.

Lemma gotSet_known_set_keeps_client_flags_witness :
  let old := Stickers_Set 7 70 "Seven" "seven" 2 0
               (Z.lor 2 (Z.shiftl 1 29)) 0 ImagePtr_null in
  let data' :=
    (@gotSet sampleScheme (response7 0) (inner (dialog7 busySession))
       busySession).1.2 in
  stickerSets busySession !! 7 = Some old ∧
  flag_set (set_flags old) (@ClientFlag_f_featured sampleScheme) = true ∧
  flag_set (vflags (vset (response7 0))) (@ClientFlag_f_featured sampleScheme)
  = false ∧
  ∃ it', stickerSets data' !! 7 = Some it' ∧
         flag_set (set_flags it') (@ClientFlag_f_featured sampleScheme) = true ∧
         set_stickers it' = [101; 102].
Proof.
  intros old data'.
  destruct (@gotSet_known_set_keeps_client_flags sampleScheme (response7 0)
              (inner (dialog7 busySession)) busySession old eq_refl)
    as (it' & Hit' & _ & Hkept & Hstickers & _).
  split_and!; [reflexivity..|].
  exists it'. split_and!; [exact Hit'| |exact Hstickers].
  apply Hkept; [|reflexivity]. compute_done.
Defined.

(** C2, as stated, fails on the code: fetching
    [{id: 7, stickers: [101, 102], flags: {}}] into an empty registry
    leaves the registry without an entry for id 7. *)
Lemma gotSet_unknown_set_counterexample :
  stickerSets emptySession = ∅ ∧
  validStickers (response7 0) = [101; 102] ∧
  ¬ ∃ it,
      stickerSets
        (@gotSet sampleScheme (response7 0) (inner (dialog7 emptySession))
           emptySession).1.2 !! 7
      = Some it.
Proof.
  split_and!; [reflexivity..|]. intros [it Hit]. vm_compute in Hit.
  discriminate.
Qed.

Lemma gotSet_unknown_set_not_inserted_witness :
  stickerSets emptySession !! vid (vset (response7 0)) = None ∧
  stickerSets
    (@gotSet sampleScheme (response7 0) (inner (dialog7 emptySession))
       emptySession).1.2
  = ∅.
Proof.
  split; [reflexivity|].
  apply (@gotSet_unknown_set_not_inserted sampleScheme (response7 0)
           (inner (dialog7 emptySession)) emptySession eq_refl).
Defined.

Lemma gotSet_empty_pack_not_found_witness :
  validStickers responseEmpty = [] ∧
  (@gotSet sampleScheme responseEmpty (inner (dialog7 emptySession))
     emptySession).2
  = [ShowInformBox lng_stickers_not_found None].
Proof.
  split; [reflexivity|].
  apply (@gotSet_empty_pack_not_found sampleScheme responseEmpty
           (inner (dialog7 emptySession)) emptySession).
  reflexivity.
Defined.

Lemma install_masks_set_refused_witness :
  let self := (fetched7 8 emptySession).1 in
  @isMasksSet sampleScheme self = true ∧
  @install sampleScheme 2 self
  = (self, [ShowInformBox lng_stickers_masks_pack (Some LayerOption_KeepOther)]).
Proof.
  intros self. split; [reflexivity|].
  apply (@install_masks_set_refused sampleScheme 2 self eq_refl).
Defined.

(** ** The dialog as a transition system *)

Section DialogFacts.
Context `{Collaborators}.
Implicit Types (w : Dialog) (trace : list (Event * list Effect)).

Lemma takeRequest_Some id requests request rest :
  takeRequest id requests = Some (request, rest) →
  ∃ i, requests !! i = Some (id, request) ∧ rest = delete i requests.
Proof.
  unfold takeRequest.
  destruct (list_find _ requests) as [[i [id' request']]|] eqn:Hfind; [|done].
  intros [= -> <-]. apply list_find_Some in Hfind as (Hi & Hid & _).
  cbn in Hid. subst id'. by exists i.
Qed.

Lemma count_delete {A} (P : A → Prop) `{∀ x, Decision (P x)}
    (l : list A) i x :
  l !! i = Some x →
  length (filter P l)
  = (length (filter P (delete i l)) + if decide (P x) then 1 else 0)%nat.
Proof.
  intros Hi. rewrite (delete_Permutation l i x Hi) at 1.
  rewrite filter_cons. case_decide; cbn; lia.
Qed.

Lemma install_cases requestId self :
  (isMasksSet self = true ∧
   install requestId self
   = (self, [ShowInformBox lng_stickers_masks_pack
               (Some LayerOption_KeepOther)])) ∨
  (isMasksSet self = false ∧ _installRequest self ≠ 0 ∧
   install requestId self = (self, [])) ∨
  (isMasksSet self = false ∧ _installRequest self = 0 ∧
   install requestId self
   = (withInstallRequest self requestId,
      [SendRequest requestId
         (MTPmessages_InstallStickerSet (_input self) false)])).
Proof.
  unfold install. destruct (isMasksSet self); [by left|right].
  case_decide; [left|right]; done.
Qed.

(** What one event does, field by field. *)
Lemma dispatch_inv event w w' effects :
  dispatch event w = Some (w', effects) →
  match event with
  | FetchDone id response =>
      ∃ i input,
        pending w !! i = Some (id, MTPmessages_GetStickerSet input) ∧
        pending w' = delete i (pending w) ∧
        inner w' = (gotSet response (inner w) (session w)).1.1 ∧
        session w' = (gotSet response (inner w) (session w)).1.2 ∧
        effects = (gotSet response (inner w) (session w)).2 ∧
        if decide (validStickers response = [])
        then buttons w' = buttons w ∧ boxTitle w' = boxTitle w
        else buttons w' = updateButtons (inner w') (session w') ∧
             boxTitle w' = title (inner w')
  | FetchFailed id =>
      ∃ i input,
        pending w !! i = Some (id, MTPmessages_GetStickerSet input) ∧
        pending w' = delete i (pending w) ∧
        inner w' = (fetchFail (inner w)).1 ∧
        session w' = session w ∧ effects = (fetchFail (inner w)).2 ∧
        buttons w' = buttons w ∧ boxTitle w' = boxTitle w
  | AddPressed requestId =>
      lng_stickers_add_pack ∈ buttons w ∧ requestId ≠ 0 ∧
      inner w' = (install requestId (inner w)).1 ∧
      effects = (install requestId (inner w)).2 ∧
      session w' = session w ∧
      buttons w' = buttons w ∧ boxTitle w' = boxTitle w ∧
      pending w'
      = pending w ++
        omap (λ e, match e with
                   | SendRequest id request => Some (id, request)
                   | _ => None
                   end) effects
  | InstallDone id result now =>
      ∃ i input archived,
        pending w !! i
        = Some (id, MTPmessages_InstallStickerSet input archived) ∧
        pending w' = delete i (pending w) ∧
        inner w' = installedInner now (inner w) ∧
        session w'
        = applyResult result (reconcileInstalled now (inner w) (session w)) ∧
        effects
        = (installDone result now (inner w) (session w)).2
          ++ [ApiStickerSetInstalled (_setId (inner w)); CloseBox] ∧
        (buttons w' = buttons w ∨
         buttons w' = updateButtons (inner w') (session w')) ∧
        boxTitle w' = boxTitle w
  | InstallFailed id =>
      ∃ i input archived,
        pending w !! i
        = Some (id, MTPmessages_InstallStickerSet input archived) ∧
        pending w' = delete i (pending w) ∧
        inner w' = inner w ∧ session w' = session w ∧
        effects = [ShowInformBox lng_stickers_not_found None] ∧
        buttons w' = buttons w ∧ boxTitle w' = boxTitle w
  | SessionChanged data notified =>
      inner w' = inner w ∧ pending w' = pending w ∧ session w' = data ∧
      effects = [] ∧ boxTitle w' = boxTitle w ∧
      buttons w' = if notified then updateButtons (inner w) data
                   else buttons w
  end.
Proof.
  destruct event as [id response|id|requestId|id result now|id|data notified];
    cbn [dispatch].
  - destruct (takeRequest id (pending w)) as [[[input|] rest]|] eqn:Htake;
      [|done..].
    apply takeRequest_Some in Htake as (i & Hi & ->).
    destruct (gotSet_outcome response (inner w) (session w))
      as (Hempty & Hfull).
    destruct (gotSet response (inner w) (session w)) as [[self data] effs].
    cbn in Hempty, Hfull |- *.
    destruct (decide (validStickers response = [])) as [Hv|Hv].
    + destruct (Hempty Hv) as (-> & _). cbn. intros [= <- <-].
      by exists i, input.
    + destruct (Hfull Hv) as (-> & _). cbn. intros [= <- <-].
      by exists i, input.
  - destruct (takeRequest id (pending w)) as [[[input|] rest]|] eqn:Htake;
      [|done..].
    apply takeRequest_Some in Htake as (i & Hi & ->).
    intros [= <- <-]. by exists i, input.
  - case_decide as Hguard; [|done]. destruct Hguard.
    destruct (install requestId (inner w)) as [self effs].
    by intros [= <- <-].
  - destruct (takeRequest id (pending w)) as [[[|input archived] rest]|]
      eqn:Htake; [done| |done].
    apply takeRequest_Some in Htake as (i & Hi & ->).
    cbn. intros [= <- <-]. exists i, input, archived. cbn.
    split_and!; try done.
    destruct result; cbn; [|by left].
    destruct (flag_set _ _); cbn; by right.
  - destruct (takeRequest id (pending w)) as [[[|input archived] rest]|]
      eqn:Htake; [done| |done].
    apply takeRequest_Some in Htake as (i & Hi & ->).
    intros [= <- <-]. by exists i, input, archived.
  - by intros [= <- <-].
Qed.

Lemma runs_app w0 trace w trace' w' :
  runs w0 trace w → runs w trace' w' → runs w0 (trace ++ trace') w'.
Proof.
  intros Hruns. induction 1 as [|trace' w1 event w2 effects _ IH Hstep].
  - by rewrite app_nil_r.
  - rewrite app_assoc. by eapply runs_snoc.
Qed.

Lemma installsSent_snoc trace event effects :
  installsSent (trace ++ [(event, effects)])
  = (installsSent trace
     + length (filter (λ e, sendsInstall e = true) effects))%nat.
Proof.
  unfold installsSent.
  rewrite bind_app, filter_app, length_app, bind_singleton. cbn. lia.
Qed.

Lemma installsSent_app trace trace' :
  installsSent (trace ++ trace')
  = (installsSent trace + installsSent trace')%nat.
Proof.
  unfold installsSent. rewrite bind_app, filter_app, length_app. lia.
Qed.

End DialogFacts.

Section InvariantFacts.
Context `{Collaborators}.
Implicit Types (w : Dialog) (trace : list (Event * list Effect)).

Lemma fetches_delete w i id request :
  pending w !! i = Some (id, request) →
  fetchesInFlight w
  = (length (filter (λ r, isFetch r.2 = true) (delete i (pending w)))
     + if isFetch request then 1 else 0)%nat.
Proof.
  intros Hi. unfold fetchesInFlight.
  rewrite (count_delete _ _ _ _ Hi). cbn.
  destruct (isFetch request); by case_decide.
Qed.

Lemma installs_delete w i id request :
  pending w !! i = Some (id, request) →
  installsInFlight w
  = (length (filter (λ r, isInstall r.2 = true) (delete i (pending w)))
     + if isInstall request then 1 else 0)%nat.
Proof.
  intros Hi. unfold installsInFlight.
  rewrite (count_delete _ _ _ _ Hi). cbn.
  destruct (isInstall request); by case_decide.
Qed.

Lemma prepare_fetch_inv fetchId set data :
  fetch_inv [] (prepare fetchId set data).1.
Proof.
  unfold fetch_inv. destruct set; cbn; split_and!; try done; try lia.
  all: try (intros _; split_and!; try done; by intros ?%list_elem_of_singleton).
  all: try by intros ??? ?%elem_of_nil.
  all: by intros ?? ?%elem_of_nil.
Qed.

Lemma prepare_install_inv fetchId set data :
  install_inv [] (prepare fetchId set data).1.
Proof.
  unfold install_inv. destruct set; cbn; split_and!; try done; try lia.
  all: by case_decide; [|cbn; lia].
Qed.

Lemma elem_of_snoc {A} (l : list A) (x y : A) :
  y ∈ l ++ [x] ↔ y ∈ l ∨ y = x.
Proof. by rewrite elem_of_app, list_elem_of_singleton. Qed.

(** An event other than the fetch callbacks, on a dialog whose fetch is
    over, keeps [fetch_inv] if it keeps the pack, the loaded flag and the
    title. *)
Lemma fetch_inv_frame trace w event w' effects :
  fetch_inv trace w →
  fetchesInFlight w = 0%nat →
  fetchesInFlight w' = 0%nat →
  _pack (inner w') = _pack (inner w) →
  _loaded (inner w') = _loaded (inner w) →
  boxTitle w' = boxTitle w →
  (∀ id response, event ≠ FetchDone id response) →
  (∀ id, event ≠ FetchFailed id) →
  fetch_inv (trace ++ [(event, effects)]) w'.
Proof.
  intros (Hle & Hpend & Hdone & Hfail & Hsome) Hw Hw' Hpack Hloaded Htitle
    Hnot_done Hnot_fail.
  unfold fetch_inv. rewrite Hw', Hpack, Hloaded, Htitle. split_and!.
  - lia.
  - lia.
  - intros id response effs [Hin|[= <- _]]%elem_of_snoc.
    + by destruct (Hdone _ _ _ Hin) as (_ & ? & ? & ?).
    + by destruct (Hnot_done id response).
  - intros id effs [Hin|[= <- _]]%elem_of_snoc.
    + by destruct (Hfail _ _ Hin) as (_ & ? & ?).
    + by destruct (Hnot_fail id).
  - intros _. destruct (Hsome Hw) as [(id & response & effs & Hin)
                                      |(id & effs & Hin)].
    + left. exists id, response, effs. apply elem_of_snoc. by left.
    + right. exists id, effs. apply elem_of_snoc. by left.
Qed.

Lemma fetchesInFlight_add w w' requestId :
  pending w'
  = pending w ++
    omap (λ e, match e with
               | SendRequest id request => Some (id, request)
               | _ => None
               end) (install requestId (inner w)).2 →
  fetchesInFlight w' = fetchesInFlight w.
Proof.
  intros Hpending. unfold fetchesInFlight. rewrite Hpending, filter_app.
  destruct (install_cases requestId (inner w))
    as [[_ ->]|[(_ & _ & ->)|(_ & _ & ->)]]; cbn.
  - by rewrite app_nil_r.
  - by rewrite app_nil_r.
  - rewrite decide_False by done. by rewrite app_nil_r.
Qed.

Lemma install_keeps requestId self :
  _pack (install requestId self).1 = _pack self ∧
  _loaded (install requestId self).1 = _loaded self ∧
  _setFlags (install requestId self).1 = _setFlags self.
Proof.
  by destruct (install_cases requestId self)
    as [[_ ->]|[(_ & _ & ->)|(_ & _ & ->)]].
Qed.

Lemma updateButtons_add self data :
  lng_stickers_add_pack ∈ updateButtons self data → loaded self = true.
Proof.
  unfold updateButtons. destruct (loaded self); [done|].
  by intros ?%list_elem_of_singleton.
Qed.

Lemma loaded_true self :
  loaded self = true ↔ _loaded self = true ∧ _pack self ≠ [].
Proof.
  unfold loaded. rewrite andb_true_iff, negb_true_iff, bool_decide_eq_false.
  done.
Qed.

Lemma fetch_inv_step trace w event w' effects :
  fetch_inv trace w →
  dispatch event w = Some (w', effects) →
  fetch_inv (trace ++ [(event, effects)]) w'.
Proof.
  intros Hinv Hstep. pose proof Hinv as (Hle & Hpend & Hdone & Hfail & Hsome).
  apply dispatch_inv in Hstep.
  destruct event as [id response|id|requestId|id result now|id|data notified].
  - (* the fetch completes *)
    destruct Hstep as (i & input & Hi & Hpending & Hinner & _ & _ & Hbox).
    pose proof (fetches_delete w i _ _ Hi) as Hf. cbn in Hf.
    assert (fetchesInFlight w = 1%nat) as Hw by lia.
    assert (fetchesInFlight w' = 0%nat) as Hw'
      by (unfold fetchesInFlight; rewrite Hpending; lia).
    destruct (Hpend Hw) as (Hloaded & _ & Htitle & _).
    destruct (gotSet_parsed response (inner w) (session w)) as (Hpack & _).
    destruct (gotSet_outcome response (inner w) (session w))
      as (Hempty & Hfull).
    cbn zeta in Hpack, Hempty, Hfull. rewrite <- Hinner in Hpack, Hempty, Hfull.
    unfold fetch_inv. rewrite Hw'. split_and!; [lia|lia|..].
    + intros id' response' effs [Hin|[= -> -> _]]%elem_of_snoc.
      { destruct (Hdone _ _ _ Hin) as (? & _). lia. }
      split_and!; [done|done| |].
      * intros Hv. destruct (Hempty Hv) as (_ & -> & _).
        rewrite decide_True in Hbox by done. destruct Hbox as [_ ->]. done.
      * intros Hv. by destruct (Hfull Hv) as (_ & -> & _).
    + intros id' effs [Hin|[=]]%elem_of_snoc.
      destruct (Hfail _ _ Hin) as (? & _). lia.
    + intros _. left. exists id, response, effects.
      apply elem_of_snoc. by right.
  - (* the fetch fails *)
    destruct Hstep as (i & input & Hi & Hpending & Hinner & _ & _ & _ & Htitle').
    pose proof (fetches_delete w i _ _ Hi) as Hf. cbn in Hf.
    assert (fetchesInFlight w = 1%nat) as Hw by lia.
    assert (fetchesInFlight w' = 0%nat) as Hw'
      by (unfold fetchesInFlight; rewrite Hpending; lia).
    destruct (Hpend Hw) as (_ & Hpack & _).
    unfold fetch_inv. rewrite Hw', Hinner. cbn. split_and!; [lia|lia|..].
    + intros id' response' effs [Hin|[=]]%elem_of_snoc.
      destruct (Hdone _ _ _ Hin) as (? & _). lia.
    + intros id' effs [Hin|_]%elem_of_snoc; [|done].
      destruct (Hfail _ _ Hin) as (? & _). lia.
    + intros _. right. exists id, effects. apply elem_of_snoc. by right.
  - (* the add button *)
    destruct Hstep as (Hadd & _ & Hinner & -> & _ & _ & Htitle & Hpending).
    assert (fetchesInFlight w = 0%nat) as Hw.
    { destruct (decide (fetchesInFlight w = 1%nat)) as [Hone|]; [|lia].
      by destruct (Hpend Hone) as (_ & _ & _ & ? & _). }
    destruct (install_keeps requestId (inner w)) as (Hpack & Hloaded & _).
    apply fetch_inv_frame with w; try done.
    + rewrite <- Hw. by eapply fetchesInFlight_add.
    + by rewrite Hinner.
    + by rewrite Hinner.
  - (* the install completes *)
    destruct Hstep
      as (i & input & archived & Hi & Hpending & Hinner & _ & _ & _ & Htitle).
    pose proof (fetches_delete w i _ _ Hi) as Hf.
    pose proof (installs_delete w i _ _ Hi) as Hn. cbn in Hf, Hn.
    assert (fetchesInFlight w = 0%nat) as Hw.
    { destruct (decide (fetchesInFlight w = 1%nat)) as [Hone|]; [|lia].
      destruct (Hpend Hone) as (_ & _ & _ & _ & _ & ?). lia. }
    apply fetch_inv_frame with w; try done.
    + unfold fetchesInFlight. rewrite Hpending. lia.
    + by rewrite Hinner.
    + by rewrite Hinner.
  - (* the install fails *)
    destruct Hstep
      as (i & input & archived & Hi & Hpending & Hinner & _ & _ & _ & Htitle).
    pose proof (fetches_delete w i _ _ Hi) as Hf.
    pose proof (installs_delete w i _ _ Hi) as Hn. cbn in Hf, Hn.
    assert (fetchesInFlight w = 0%nat) as Hw.
    { destruct (decide (fetchesInFlight w = 1%nat)) as [Hone|]; [|lia].
      destruct (Hpend Hone) as (_ & _ & _ & _ & _ & ?). lia. }
    apply fetch_inv_frame with w; try done.
    + unfold fetchesInFlight. rewrite Hpending. lia.
    + by rewrite Hinner.
    + by rewrite Hinner.
  - (* the session data changes *)
    destruct Hstep as (Hinner & Hpending & _ & _ & Htitle & Hbuttons).
    assert (fetchesInFlight w' = fetchesInFlight w) as Hw'
      by (unfold fetchesInFlight; by rewrite Hpending).
    assert (installsInFlight w' = installsInFlight w) as Hn'
      by (unfold installsInFlight; by rewrite Hpending).
    unfold fetch_inv. rewrite Hw', Hn', Hinner, Htitle. split_and!.
    + done.
    + intros Hone. destruct (Hpend Hone) as (Hl & ? & ? & Hno & ? & ?).
      split_and!; try done.
      rewrite Hbuttons. destruct notified; [|done].
      intros Hadd%updateButtons_add%loaded_true. destruct Hadd. congruence.
    + intros id response effs [Hin|[=]]%elem_of_snoc. by apply (Hdone id response effs).
    + intros id effs [Hin|[=]]%elem_of_snoc. by apply (Hfail id effs).
    + intros Hzero. destruct (Hsome Hzero) as [(id & response & effs & Hin)
                                               |(id & effs & Hin)].
      * left. exists id, response, effs. apply elem_of_snoc. by left.
      * right. exists id, effs. apply elem_of_snoc. by left.
Qed.

Lemma gotSet_sends_nothing response self data :
  filter (λ e, sendsInstall e = true) (gotSet response self data).2 = [].
Proof.
  destruct (gotSet_outcome response self data) as (Hempty & Hfull).
  cbn zeta in Hempty, Hfull.
  destruct (decide (validStickers response = [])) as [Hv|Hv].
  - destruct (Hempty Hv) as (-> & _). by rewrite filter_cons_False.
  - destruct (Hfull Hv) as (-> & _). by rewrite !filter_cons_False.
Qed.

Lemma installDone_sends_nothing result now self data :
  filter (λ e, sendsInstall e = true)
    ((installDone result now self data).2
     ++ [ApiStickerSetInstalled (_setId self); CloseBox]) = [].
Proof.
  unfold installDone. cbn -[filter].
  destruct result;
    [destruct (flag_set (_setFlags self) Flag_f_archived)|]; cbn -[filter];
    by rewrite !filter_cons_False.
Qed.

Lemma install_inv_step trace w event w' effects :
  Z.land Flag_f_installed_date Flag_f_masks = 0 →
  fetch_inv trace w →
  install_inv trace w →
  dispatch event w = Some (w', effects) →
  install_inv (trace ++ [(event, effects)]) w'.
Proof.
  intros Hbits (Hle & Hpend & _) (Hone & Hzero & Hsent) Hstep.
  apply dispatch_inv in Hstep. unfold install_inv. rewrite installsSent_snoc.
  destruct event as [id response|id|requestId|id result now|id|data notified].
  - (* the fetch completes: no install request was sent yet *)
    destruct Hstep as (i & input & Hi & Hpending & Hinner & _ & -> & _).
    pose proof (fetches_delete w i _ _ Hi) as Hf.
    pose proof (installs_delete w i _ _ Hi) as Hn. cbn in Hf, Hn.
    destruct (Hpend ltac:(lia)) as (_ & _ & _ & _ & Hreq & Hnone).
    destruct (Hzero Hreq) as [_ Hnot_sent].
    destruct (gotSet_parsed response (inner w) (session w))
      as (_ & _ & _ & _ & Hsame & _). cbn zeta in Hsame.
    rewrite gotSet_sends_nothing, Hinner, Hsame, Hreq, Hnot_sent.
    unfold installsInFlight. rewrite Hpending. cbn. split_and!; [lia|..|done].
    intros _. split; lia.
  - (* the fetch fails *)
    destruct Hstep as (i & input & Hi & Hpending & Hinner & _ & -> & _).
    pose proof (fetches_delete w i _ _ Hi) as Hf.
    pose proof (installs_delete w i _ _ Hi) as Hn. cbn in Hf, Hn.
    destruct (Hpend ltac:(lia)) as (_ & _ & _ & _ & Hreq & Hnone).
    destruct (Hzero Hreq) as [_ Hnot_sent].
    rewrite Hinner. cbn -[filter]. rewrite Hreq, Hnot_sent, filter_cons_False by done.
    unfold installsInFlight. rewrite Hpending. cbn. split_and!; [lia|..|done].
    intros _. split; lia.
  - (* the add button *)
    destruct Hstep as (Hadd & Hid & Hinner & -> & _ & _ & _ & Hpending).
    assert (fetchesInFlight w = 0%nat) as Hw.
    { destruct (decide (fetchesInFlight w = 1%nat)) as [Hw|]; [|lia].
      by destruct (Hpend Hw) as (_ & _ & _ & ? & _). }
    assert (fetchesInFlight w' = 0%nat) as Hw'
      by (rewrite <- Hw; by eapply fetchesInFlight_add).
    unfold installsInFlight in *. rewrite Hw', Hpending, Hinner, filter_app.
    destruct (install_cases requestId (inner w))
      as [[Hmasks ->]|[(Hmasks & Hreq & ->)|(Hmasks & Hreq & ->)]];
      cbn -[filter].
    + rewrite filter_cons_False, app_nil_r, Nat.add_0_r by done.
      split_and!; [done|done|]. intros Hreq.
      by destruct (Hsent Hreq) as (? & _ & ?).
    + rewrite app_nil_r, Nat.add_0_r.
      split_and!; [done|done|]. intros _.
      by destruct (Hsent Hreq) as (? & _ & ?).
    + destruct (Hzero Hreq) as [Hnone ->].
      rewrite !filter_cons_True, !filter_nil, length_app, Hnone by done.
      cbn [length]. split_and!; [lia|done|]. intros _.
      split_and!; [done|done|lia].
  - (* the install completes *)
    destruct Hstep
      as (i & input & archived & Hi & Hpending & Hinner & _ & -> & _).
    pose proof (fetches_delete w i _ _ Hi) as Hf.
    pose proof (installs_delete w i _ _ Hi) as Hn. cbn in Hf, Hn.
    rewrite installDone_sends_nothing, Hinner. cbn.
    unfold installsInFlight, fetchesInFlight in *. rewrite Hpending.
    rewrite Nat.add_0_r. split_and!; [lia|..].
    + intros Hreq. destruct (Hzero Hreq). lia.
    + intros Hreq. destruct (Hsent Hreq) as (Hmasks & ? & ?).
      split_and!; [|lia|done].
      unfold isMasksSet in *. cbn. by apply installedFlags_other.
  - (* the install fails *)
    destruct Hstep
      as (i & input & archived & Hi & Hpending & Hinner & _ & -> & _).
    pose proof (fetches_delete w i _ _ Hi) as Hf.
    pose proof (installs_delete w i _ _ Hi) as Hn. cbn in Hf, Hn.
    rewrite filter_cons_False, Hinner by done. cbn -[filter].
    unfold installsInFlight, fetchesInFlight in *. rewrite Hpending.
    rewrite Nat.add_0_r. split_and!; [lia|..].
    + intros Hreq. destruct (Hzero Hreq). lia.
    + intros Hreq. destruct (Hsent Hreq) as (Hmasks & ? & ?).
      split_and!; [done|lia|done].
  - (* the session data changes *)
    destruct Hstep as (Hinner & Hpending & _ & -> & _).
    unfold installsInFlight, fetchesInFlight in *.
    rewrite Hpending, Hinner. cbn. by rewrite Nat.add_0_r.
Qed.

Lemma runs_inv_from trace0 w0 trace w :
  Z.land Flag_f_installed_date Flag_f_masks = 0 →
  fetch_inv trace0 w0 → install_inv trace0 w0 →
  runs w0 trace w →
  fetch_inv (trace0 ++ trace) w ∧ install_inv (trace0 ++ trace) w.
Proof.
  intros Hbits Hfetch Hinstall.
  induction 1 as [|trace w event w' effects _ [IHf IHi] Hstep].
  - by rewrite app_nil_r.
  - rewrite app_assoc. split.
    + by eapply fetch_inv_step.
    + by eapply install_inv_step.
Qed.

Lemma runs_fetch_inv fetchId set data trace w :
  runs (prepare fetchId set data).1 trace w → fetch_inv trace w.
Proof.
  induction 1 as [|trace w event w' effects _ IH Hstep].
  - apply prepare_fetch_inv.
  - by eapply fetch_inv_step.
Qed.

Lemma runs_install_inv fetchId set data trace w :
  Z.land Flag_f_installed_date Flag_f_masks = 0 →
  runs (prepare fetchId set data).1 trace w → install_inv trace w.
Proof.
  intros Hbits Hruns.
  by apply (runs_inv_from [] (prepare fetchId set data).1 trace w Hbits
              (prepare_fetch_inv _ _ _) (prepare_install_inv _ _ _)).
Qed.

(** With an install request sent and the set not a masks set, the add
    button does nothing at all. *)
Lemma add_pressed_noop w requestId w' effects :
  _installRequest (inner w) ≠ 0 →
  isMasksSet (inner w) = false →
  dispatch (AddPressed requestId) w = Some (w', effects) →
  w' = w ∧ effects = [].
Proof.
  intros Hreq Hmasks Hstep. apply dispatch_inv in Hstep.
  destruct Hstep as (_ & _ & Hinner & -> & Hsession & Hbuttons & Htitle
                     & Hpending).
  destruct (install_cases requestId (inner w))
    as [[? _]|[(_ & _ & Hnoop)|(_ & ? & _)]]; [congruence| |done].
  rewrite Hnoop in Hinner, Hpending |- *. cbn in Hinner, Hpending.
  rewrite app_nil_r in Hpending. split; [|done].
  destruct w, w'. cbn in *. congruence.
Qed.

End InvariantFacts.

Lemma runEvents_runs events w0 trace w trace' w' :
  @runs sampleScheme w0 trace w →
  runEvents events w trace = Some (w', trace') →
  @runs sampleScheme w0 trace' w'.
Proof.
  revert trace w. induction events as [|event events IH]; intros trace w Hruns.
  - by intros [= <- <-].
  - cbn [runEvents].
    destruct (@dispatch sampleScheme event w) as [[w1 effects]|] eqn:Hstep;
      [|done].
    apply IH. by eapply runs_snoc.
Qed.

Section DialogResults.
Context `{Collaborators}.

Lemma installRequest_kept event w w' effects :
  dispatch event w = Some (w', effects) →
  _installRequest (inner w) ≠ 0 →
  _installRequest (inner w') = _installRequest (inner w).
Proof.
  intros Hstep Hreq. apply dispatch_inv in Hstep.
  destruct event as [id response|id|requestId|id result now|id|data notified].
  - destruct Hstep as (_ & _ & _ & _ & -> & _).
    by destruct (gotSet_parsed response (inner w) (session w))
      as (_ & _ & _ & _ & ? & _).
  - by destruct Hstep as (_ & _ & _ & _ & -> & _).
  - destruct Hstep as (_ & _ & -> & _).
    by destruct (install_cases requestId (inner w))
      as [[_ ->]|[(_ & _ & ->)|(_ & ? & _)]].
  - by destruct Hstep as (_ & _ & _ & _ & _ & -> & _).
  - by destruct Hstep as (_ & _ & _ & _ & _ & -> & _).
  - by destruct Hstep as (-> & _).
Qed.

Lemma runs_installRequest_kept w trace' w' :
  runs w trace' w' →
  _installRequest (inner w) ≠ 0 →
  _installRequest (inner w') = _installRequest (inner w).
Proof.
  induction 1 as [|trace' w1 event w2 effects _ IH Hstep]; [done|].
  intros Hreq. rewrite <- (IH Hreq).
  eapply installRequest_kept; [done|]. by rewrite (IH Hreq).
Qed.

(** C6.  In every run of a dialog at most one install request awaits its
    callback.  While one does, [install] returns [Inner] unchanged with
    no effect, and pressing the add button leaves the whole dialog as it
    is and sends nothing.  So when a first press sends the request, a
    second press before any callback changes nothing and exactly one
    install request is pending. *)
Theorem install_single_request_in_flight fetchId input data trace w
    (Hbits : Z.land Flag_f_installed_date Flag_f_masks = 0)
    (Hruns : runs (prepare fetchId input data).1 trace w) :
  (installsInFlight w ≤ 1)%nat ∧
  (installsInFlight w = 1%nat →
     (∀ requestId, install requestId (inner w) = (inner w, [])) ∧
     ∀ requestId w' effects,
       dispatch (AddPressed requestId) w = Some (w', effects) →
       w' = w ∧ effects = []) ∧
  (∀ id1 id2 w1 effects1 w2 effects2,
     dispatch (AddPressed id1) w = Some (w1, effects1) →
     dispatch (AddPressed id2) w1 = Some (w2, effects2) →
     (∃ request, SendRequest id1 request ∈ effects1) →
     w2 = w1 ∧ effects2 = [] ∧ installsInFlight w2 = 1%nat).
Proof.
  assert (∀ trace w,
    runs (prepare fetchId input data).1 trace w →
    installsInFlight w = 1%nat →
    _installRequest (inner w) ≠ 0 ∧ isMasksSet (inner w) = false) as Hbusy.
  { clear trace w Hruns. intros trace w Hruns Hone.
    destruct (runs_install_inv _ _ _ _ _ Hbits Hruns) as (_ & Hzero & Hsent).
    assert (_installRequest (inner w) ≠ 0) as Hreq.
    { intros Hreq. destruct (Hzero Hreq). lia. }
    split; [done|]. by destruct (Hsent Hreq). }
  pose proof (runs_install_inv _ _ _ _ _ Hbits Hruns) as (Hle & Hzero & _).
  split_and!; [done| |].
  - intros Hone. destruct (Hbusy _ _ Hruns Hone) as [Hreq Hmasks]. split.
    + intros requestId.
      by destruct (install_cases requestId (inner w))
        as [[? _]|[(_ & _ & ->)|(_ & ? & _)]]; [congruence| |].
    + intros requestId w' effects. by apply add_pressed_noop.
  - intros id1 id2 w1 effects1 w2 effects2 Hstep1 Hstep2 [request Hsent].
    assert (installsInFlight w1 = 1%nat) as Hone.
    { apply dispatch_inv in Hstep1
        as (_ & _ & _ & Heffects & _ & _ & _ & Hpending).
      unfold installsInFlight in *. rewrite Hpending, Heffects.
      destruct (install_cases id1 (inner w))
        as [[_ Hcase]|[(_ & _ & Hcase)|(_ & Hreq & Hcase)]];
        rewrite Hcase in Heffects |- *; cbn -[filter] in Heffects |- *;
        subst effects1.
      - apply list_elem_of_singleton in Hsent. done.
      - by apply elem_of_nil in Hsent.
      - destruct (Hzero Hreq) as [Hnone _].
        rewrite filter_app, length_app, Hnone, filter_cons_True by done.
        done. }
    assert (runs (prepare fetchId input data).1
              (trace ++ [(AddPressed id1, effects1)]) w1) as Hruns1
      by (by eapply runs_snoc).
    destruct (Hbusy _ _ Hruns1 Hone) as [Hreq Hmasks].
    destruct (add_pressed_noop _ _ _ _ Hreq Hmasks Hstep2) as [-> ->].
    done.
Qed.

(** C9.  Once an install request has been sent in a run of a dialog,
    [_installRequest] is non-zero and keeps its value whatever happens
    afterwards, the completion or the failure of that request included.
    From then on [install] returns [Inner] unchanged with no effect, the
    add button does nothing, and no further install request is sent: the
    whole run sends exactly one. *)
Theorem install_request_never_reset fetchId input data trace w trace' w'
    (Hbits : Z.land Flag_f_installed_date Flag_f_masks = 0)
    (Hruns : runs (prepare fetchId input data).1 trace w)
    (Hissued : installsSent trace ≠ 0%nat)
    (Hlater : runs w trace' w') :
  _installRequest (inner w) ≠ 0 ∧
  _installRequest (inner w') = _installRequest (inner w) ∧
  (∀ requestId, install requestId (inner w') = (inner w', [])) ∧
  (∀ requestId w'' effects,
     dispatch (AddPressed requestId) w' = Some (w'', effects) →
     w'' = w' ∧ effects = []) ∧
  installsSent trace' = 0%nat ∧
  installsSent (trace ++ trace') = 1%nat.
Proof.
  pose proof (runs_fetch_inv _ _ _ _ _ Hruns) as Hfetch.
  pose proof (runs_install_inv _ _ _ _ _ Hbits Hruns) as Hinstall.
  destruct (runs_inv_from _ _ _ _ Hbits Hfetch Hinstall Hlater)
    as [_ (_ & _ & Hsent')].
  destruct Hinstall as (_ & Hzero & Hsent).
  assert (_installRequest (inner w) ≠ 0) as Hreq.
  { intros Hreq. by destruct (Hzero Hreq). }
  pose proof (runs_installRequest_kept _ _ _ Hlater Hreq) as Hkept.
  assert (_installRequest (inner w') ≠ 0) as Hreq' by congruence.
  destruct (Hsent Hreq) as (_ & _ & Hone).
  destruct (Hsent' Hreq') as (Hmasks & _ & Hone').
  split_and!; [done|done| | | |done].
  - intros requestId.
    by destruct (install_cases requestId (inner w'))
      as [[? _]|[(_ & _ & ->)|(_ & ? & _)]]; [congruence| |].
  - intros requestId w'' effects. by apply add_pressed_noop.
  - rewrite installsSent_app in Hone'. lia.
Qed.

(** C10.  In every run of a dialog, [loaded()] is true exactly when the
    fetch handler ran on a response with at least one valid sticker.
    After a fetch failure the loaded flag is set and the pack is empty,
    so [loaded()] is false; after a fetch whose parsed pack is empty the
    loaded flag is still unset, [loaded()] is false and the title, as
    [title()] computes it and as the box shows it, is still the
    loading one. *)
Theorem loaded_iff_stickers_fetched fetchId input data trace w
    (Hruns : runs (prepare fetchId input data).1 trace w) :
  (loaded (inner w) = true ↔
   ∃ id response effects,
     (FetchDone id response, effects) ∈ trace ∧
     validStickers response ≠ []) ∧
  (∀ id effects,
     (FetchFailed id, effects) ∈ trace →
     _loaded (inner w) = true ∧ _pack (inner w) = [] ∧
     loaded (inner w) = false) ∧
  (∀ id response effects,
     (FetchDone id response, effects) ∈ trace →
     validStickers response = [] →
     _loaded (inner w) = false ∧ loaded (inner w) = false ∧
     title (inner w) = TitleLang lng_contacts_loading ∧
     boxTitle w = TitleLang lng_contacts_loading).
Proof.
  destruct (runs_fetch_inv _ _ _ _ _ Hruns)
    as (Hle & Hpend & Hdone & Hfail & Hsome).
  split_and!.
  - rewrite loaded_true. split.
    + intros [Hloaded Hpack].
      assert (fetchesInFlight w = 0%nat) as Hzero.
      { destruct (decide (fetchesInFlight w = 1%nat)) as [Hone|]; [|lia].
        by destruct (Hpend Hone) as (_ & ? & _). }
      destruct (Hsome Hzero) as [(id & response & effects & Hin)
                                 |(id & effects & Hin)].
      * exists id, response, effects. split; [done|].
        destruct (Hdone _ _ _ Hin) as (_ & <- & _). done.
      * by destruct (Hfail _ _ Hin) as (_ & _ & ?).
    + intros (id & response & effects & Hin & Hv).
      destruct (Hdone _ _ _ Hin) as (_ & -> & _ & Hfull). by split; [apply Hfull|].
  - intros id effects Hin. destruct (Hfail _ _ Hin) as (_ & Hl & Hp).
    split_and!; [done|done|]. unfold loaded. rewrite Hl, Hp. done.
  - intros id response effects Hin Hv.
    destruct (Hdone _ _ _ Hin) as (_ & _ & Hempty & _).
    destruct (Hempty Hv) as [Hl Ht].
    split_and!; [done| | |done].
    + unfold loaded. by rewrite Hl.
    + unfold title. by rewrite Hl.
Qed.

End DialogResults.

Lemma install_single_request_in_flight_witness :
  match runEvents [FetchDone 1 (response7 0); AddPressed 2]
          (dialog7 emptySession) [] with
  | Some (w, trace) =>
      @runs sampleScheme (dialog7 emptySession) trace w ∧
      installsInFlight w = 1%nat ∧
      @dispatch sampleScheme (AddPressed 3) w = Some (w, [])
  | None => False
  end.
Proof.
  destruct (runEvents _ _ _) as [[w trace]|] eqn:Hrun;
    [|vm_compute in Hrun; discriminate].
  assert (@runs sampleScheme (dialog7 emptySession) trace w) as Hruns
    by (eapply runEvents_runs; [apply runs_nil|exact Hrun]).
  destruct (@install_single_request_in_flight sampleScheme 1 input7
              emptySession trace w eq_refl Hruns) as (_ & Hbusy & _).
  vm_compute in Hrun. injection Hrun as <- <-.
  split; [exact Hruns|]. split; [reflexivity|].
  destruct (Hbusy eq_refl) as [_ Hnoop].
  match goal with
  | |- ?step = _ => destruct step as [[w' effects]|] eqn:Hstep
  end.
  - by destruct (Hnoop 3 w' effects Hstep) as [-> ->].
  - vm_compute in Hstep. discriminate.
Defined.

Lemma install_request_never_reset_witness :
  match runEvents [FetchDone 1 (response7 0); AddPressed 2]
          (dialog7 emptySession) [] with
  | Some (w, trace) =>
      match runEvents [InstallFailed 2; AddPressed 3] w [] with
      | Some (w', trace') =>
          @runs sampleScheme (dialog7 emptySession) trace w ∧
          installsSent trace ≠ 0%nat ∧
          @runs sampleScheme w trace' w' ∧
          installsInFlight w' = 0%nat ∧
          _installRequest (inner w') = 2 ∧
          installsSent trace' = 0%nat
      | None => False
      end
  | None => False
  end.
Proof.
  destruct (runEvents _ (dialog7 emptySession) _) as [[w trace]|] eqn:Hrun;
    [|vm_compute in Hrun; discriminate].
  destruct (runEvents _ w _) as [[w' trace']|] eqn:Hrun'.
  - assert (@runs sampleScheme (dialog7 emptySession) trace w) as Hruns
      by (eapply runEvents_runs; [apply runs_nil|exact Hrun]).
    assert (@runs sampleScheme w trace' w') as Hlater
      by (eapply runEvents_runs; [apply runs_nil|exact Hrun']).
    assert (installsSent trace ≠ 0%nat) as Hissued.
    { vm_compute in Hrun. injection Hrun as <- <-. vm_compute. discriminate. }
    destruct (@install_request_never_reset sampleScheme 1 input7 emptySession
                trace w trace' w' eq_refl Hruns Hissued Hlater)
      as (_ & Hkept & _ & _ & Hnone & _).
    split_and!; [exact Hruns|exact Hissued|exact Hlater| | |exact Hnone].
    + vm_compute in Hrun. injection Hrun as <- <-.
      vm_compute in Hrun'. injection Hrun' as <- <-. reflexivity.
    + rewrite Hkept. vm_compute in Hrun. injection Hrun as <- <-. reflexivity.
  - vm_compute in Hrun. injection Hrun as <- <-.
    vm_compute in Hrun'. discriminate.
Defined.

Lemma loaded_iff_stickers_fetched_witness :
  match runEvents [FetchDone 1 responseEmpty; SessionChanged busySession true]
          (dialog7 emptySession) [] with
  | Some (w, trace) =>
      @runs sampleScheme (dialog7 emptySession) trace w ∧
      validStickers responseEmpty = [] ∧
      loaded (inner w) = false ∧
      boxTitle w = TitleLang lng_contacts_loading
  | None => False
  end.
Proof.
  destruct (runEvents _ _ _) as [[w trace]|] eqn:Hrun;
    [|vm_compute in Hrun; discriminate].
  assert (@runs sampleScheme (dialog7 emptySession) trace w) as Hruns
    by (eapply runEvents_runs; [apply runs_nil|exact Hrun]).
  destruct (@loaded_iff_stickers_fetched sampleScheme 1 input7 emptySession
              trace w Hruns) as (_ & _ & Hempty).
  assert ((FetchDone 1 responseEmpty,
           [ShowInformBox lng_stickers_not_found None]) ∈ trace) as Hin.
  { vm_compute in Hrun. injection Hrun as _ <-. apply list_elem_of_here. }
  destruct (Hempty _ _ _ Hin eq_refl) as (_ & Hloaded & _ & Htitle).
  done.
Defined.

(** * Further properties of the reconciliation *)

Section MoveToFront.
Context {A : Type} `{EqDecision A}.
Implicit Types (x y : A) (l : list A).

Lemma removeFirst_elem_of x y l :
  y ∈ removeFirst x l → y ∈ l.
Proof. intros Hy. eapply elem_of_sublist; [done|apply removeFirst_sublist]. Qed.

Lemma removeFirst_elem_of_ne x y l :
  y ≠ x → y ∈ l → y ∈ removeFirst x l.
Proof.
  intros Hne Hy. destruct (decide (x ∈ l)) as [Hx|Hx].
  - destruct (removeFirst_present x l Hx) as (l1 & l2 & -> & _ & ->).
    apply elem_of_app in Hy as [Hy|[->|Hy]%elem_of_cons]; [|done|];
      apply elem_of_app; [by left|by right].
  - by rewrite removeFirst_absent.
Qed.

Lemma removeFirst_filter_ne x l :
  filter (λ y, y ≠ x) (removeFirst x l) = filter (λ y, y ≠ x) l.
Proof.
  destruct (decide (x ∈ l)) as [Hx|Hx].
  - destruct (removeFirst_present x l Hx) as (l1 & l2 & -> & _ & ->).
    rewrite !filter_app, filter_cons_False; [done|]. by intros [].
  - by rewrite removeFirst_absent.
Qed.

Lemma removeFirst_NoDup x l : NoDup l → NoDup (removeFirst x l).
Proof. intros Hl. eapply sublist_NoDup; [done|apply removeFirst_sublist]. Qed.

Lemma removeFirst_NoDup_gone x l : NoDup l → x ∉ removeFirst x l.
Proof.
  intros Hl. destruct (decide (x ∈ l)) as [Hx|Hx].
  - destruct (removeFirst_present x l Hx) as (l1 & l2 & -> & Hl1 & ->).
    apply NoDup_app in Hl as (_ & _ & Hl2). apply NoDup_cons in Hl2 as [Hl2 _].
    by intros [?|?]%elem_of_app.
  - by rewrite removeFirst_absent.
Qed.

Lemma removeFirst_length x l :
  length (removeFirst x l)
  = if decide (x ∈ l) then Nat.pred (length l) else length l.
Proof.
  case_decide as Hx.
  - destruct (removeFirst_present x l Hx) as (l1 & l2 & -> & _ & ->).
    rewrite !length_app. cbn. lia.
  - by rewrite removeFirst_absent.
Qed.
End MoveToFront.

Section ReconcileMore.
Context `{Collaborators}.

Lemma reorder_eq (id : uint64) order :
  reorder id order = id :: removeFirst id order.
Proof.
  unfold reorder, removeFirst.
  pose proof (indexOf_bounds id order) as Hb.
  destruct (decide (indexOf id order = 0)) as [Hzero|Hnz].
  - rewrite Hzero. cbn. apply indexOf_zero in Hzero.
    destruct order as [|x order]; [done|]. by injection Hzero as ->.
  - rewrite decide_True by done. unfold insertAt. cbn.
    destruct (decide (0 < indexOf id order)).
    + by rewrite decide_True by lia.
    + by rewrite decide_False by lia.
Qed.

(** X1.  The install-order step is a move to front: afterwards the order
    holds the installed id and exactly the ids it held before, the ids
    other than the installed one in their old relative order; a
    duplicate-free order stays duplicate-free, and its length grows by one
    exactly when the id was not in it. *)
Theorem installDone_order_keeps_others result now self data :
  ∃ data',
    (installDone result now self data).1.2 = applyResult result data' ∧
    let id := _setId self in
    let order := stickerSetsOrder data in
    let order' := stickerSetsOrder data' in
    (∀ x, x ∈ order' ↔ x = id ∨ x ∈ order) ∧
    filter (λ x, x ≠ id) order' = filter (λ x, x ≠ id) order ∧
    (NoDup order → NoDup order') ∧
    length order'
    = if decide (id ∈ order) then length order else S (length order).
Proof.
  exists (reconcileInstalled now self data).
  split; [apply installDone_session|]. cbn. rewrite reorder_eq.
  set (id := _setId self). set (order := stickerSetsOrder data).
  split_and!.
  - intros x. rewrite elem_of_cons. split.
    + intros [->|Hx]; [by left|right]. by eapply removeFirst_elem_of.
    + intros [->|Hx]; [by left|].
      destruct (decide (x = id)) as [->|Hne]; [by left|right].
      by apply removeFirst_elem_of_ne.
  - rewrite filter_cons_False by (by intros []). apply removeFirst_filter_ne.
  - intros Hnodup. apply NoDup_cons. split.
    + by apply removeFirst_NoDup_gone.
    + by apply removeFirst_NoDup.
  - cbn. rewrite removeFirst_length. case_decide as Hid; [|done].
    destruct order; [by apply elem_of_nil in Hid|done].
Qed.

(** X2.  Under a set id other than the custom bucket's, install
    completion touches two registry entries at most: every entry other
    than the set's and the custom bucket is as before, and so is the
    document store.  The set's entry then holds the dialog's pack and
    emoji map, the new flags and the install date; its id, access hash,
    title, short name, count, hash and thumbnail are those of the entry
    that was there, and those of the dialog only when there was none. *)
Theorem installDone_registry_entry result now self data
    (Hother : _setId self ≠ CustomSetId) :
  ∃ data',
    (installDone result now self data).1.2 = applyResult result data' ∧
    (∀ k, k ≠ _setId self → k ≠ CustomSetId →
          stickerSets data' !! k = stickerSets data !! k) ∧
    documents data' = documents data ∧
    ∃ it,
      stickerSets data' !! _setId self = Some it ∧
      set_stickers it = _pack self ∧ set_emoji it = _emoji self ∧
      set_flags it = installedFlags (_setFlags self) ∧
      set_installDate it = now ∧
      (set_id it, set_access it, set_title it, set_shortName it,
       set_count it, set_hash it, set_thumbnail it)
      = match stickerSets data !! _setId self with
        | Some old =>
            (set_id old, set_access old, set_title old, set_shortName old,
             set_count old, set_hash old, set_thumbnail old)
        | None =>
            (_setId self, _setAccess self, _setTitle self,
             _setShortName self, _setCount self, _setHash self,
             _setThumbnail self)
        end.
Proof.
  exists (reconcileInstalled now self data).
  split; [apply installDone_session|]. cbn. split_and!.
  - intros k Hk Hcustom. rewrite cleanCustom_lookup_ne by done.
    unfold upsertSet. cbn. by rewrite lookup_insert_ne.
  - done.
  - rewrite cleanCustom_lookup_ne by done. unfold upsertSet. cbn.
    rewrite lookup_insert_eq. eexists. split; [done|].
    by destruct (stickerSets data !! _setId self).
Qed.

Lemma cleanCustom_is_Some pack sets k :
  k ≠ CustomSetId → is_Some (sets !! k) → is_Some (cleanCustom pack sets !! k).
Proof. intros Hk. by rewrite cleanCustom_lookup_ne. Qed.

Lemma upsertSet_is_Some self sets k :
  is_Some (sets !! k) → is_Some (upsertSet self sets !! k).
Proof.
  intros Hk. unfold upsertSet. destruct (decide (k = _setId self)) as [->|Hne].
  - by rewrite lookup_insert_eq.
  - by rewrite lookup_insert_ne.
Qed.

Lemma dropArchived_elem_of self order x :
  x ∈ dropArchived self order → x ∈ order.
Proof.
  unfold dropArchived. destruct (flag_set _ _); [|done].
  apply (removeFirst_elem_of (_setId self) x order).
Qed.

(** X3.  When every id of the two order sequences has a registry entry,
    neither sequence names the custom bucket and the installed set is not
    the custom bucket, the same holds after install completion: no id of
    either sequence is left without an entry. *)
Theorem installDone_orders_stay_registered result now self data
    (Hother : _setId self ≠ CustomSetId)
    (Hcustom : CustomSetId ∉ stickerSetsOrder data)
    (Hcustom' : CustomSetId ∉ archivedStickerSetsOrder data)
    (Horder : ∀ x, x ∈ stickerSetsOrder data →
                   is_Some (stickerSets data !! x))
    (Harchived : ∀ x, x ∈ archivedStickerSetsOrder data →
                      is_Some (stickerSets data !! x)) :
  ∃ data',
    (installDone result now self data).1.2 = applyResult result data' ∧
    (∀ x, x ∈ stickerSetsOrder data' → is_Some (stickerSets data' !! x)) ∧
    (∀ x, x ∈ archivedStickerSetsOrder data' →
          is_Some (stickerSets data' !! x)).
Proof.
  exists (reconcileInstalled now self data).
  split; [apply installDone_session|]. cbn -[upsertSet cleanCustom]. split.
  - intros x. rewrite reorder_eq, elem_of_cons. intros [->|Hx].
    + apply cleanCustom_is_Some; [done|]. unfold upsertSet.
      by rewrite lookup_insert_eq.
    + apply removeFirst_elem_of in Hx.
      apply cleanCustom_is_Some; [by intros ->|].
      by apply upsertSet_is_Some, Horder.
  - intros x Hx%dropArchived_elem_of.
    apply cleanCustom_is_Some; [by intros ->|].
    by apply upsertSet_is_Some, Harchived.
Qed.

(** X4.  On a success result install completion always asks for the
    installed sets to be written and for the observers to be notified,
    and it asks for the archived sets to be written whenever it changed
    the archived-order sequence; the [setInstalled] event with the set's
    id is its last effect.  On an archive result it asks for no write and
    no notification itself: the only effect is the [setInstalled] event. *)
Theorem installDone_persists_what_it_changes now self data :
  let done :=
    installDone mtpc_messages_stickerSetInstallResultSuccess now self data in
  In WriteInstalledStickers done.2 ∧
  In NotifyStickersUpdated done.2 ∧
  (archivedStickerSetsOrder done.1.2 ≠ archivedStickerSetsOrder data →
     In WriteArchivedStickers done.2) ∧
  last done.2 = Some (FireSetInstalled (_setId self)) ∧
  ∀ c,
    (installDone (mtpc_messages_stickerSetInstallResultArchive c)
       now self data).2
    = [FireSetInstalled (_setId self)].
Proof.
  cbn. unfold dropArchived.
  destruct (flag_set (_setFlags self) Flag_f_archived); cbn; split_and!;
    try done; auto 10.
Qed.

End ReconcileMore.

Lemma installDone_registry_entry_witness :
  stickerSets (fetched7 2 tidySession).2 !! 5 = stickerSets tidySession !! 5 ∧
  set_title
    <$> stickerSets
          (@installDone sampleScheme
             mtpc_messages_stickerSetInstallResultSuccess 1000
             (fetched7 2 tidySession).1 (fetched7 2 tidySession).2).1.2 !! 7
  = Some "Old seven"%string.
Proof.
  destruct (@installDone_registry_entry sampleScheme
              mtpc_messages_stickerSetInstallResultSuccess 1000
              (fetched7 2 tidySession).1 (fetched7 2 tidySession).2)
    as (data' & Heq & _ & _ & it & Hit & _ & _ & _ & _ & Hkept).
  - vm_compute. discriminate.
  - unfold applyResult in Heq. subst data'. split; [reflexivity|].
    etrans; [exact (f_equal (fmap set_title) Hit)|]. cbn. f_equal.
    change (set_title it) with
      (set_id it, set_access it, set_title it, set_shortName it,
       set_count it, set_hash it, set_thumbnail it).1.1.1.1.2.
    rewrite Hkept. reflexivity.
Defined.

Lemma installDone_orders_stay_registered_witness :
  stickerSetsOrder (fetched7 2 tidySession).2 = [5; 6] ∧
  archivedStickerSetsOrder (fetched7 2 tidySession).2 = [7] ∧
  ∀ x,
    x ∈ stickerSetsOrder
          (@installDone sampleScheme
             mtpc_messages_stickerSetInstallResultSuccess 1000
             (fetched7 2 tidySession).1 (fetched7 2 tidySession).2).1.2 →
    is_Some
      (stickerSets
         (@installDone sampleScheme
            mtpc_messages_stickerSetInstallResultSuccess 1000
            (fetched7 2 tidySession).1 (fetched7 2 tidySession).2).1.2 !! x).
Proof.
  destruct (@installDone_orders_stay_registered sampleScheme
              mtpc_messages_stickerSetInstallResultSuccess 1000
              (fetched7 2 tidySession).1 (fetched7 2 tidySession).2)
    as (data' & Heq & Horder & _).
  - vm_compute. discriminate.
  - compute_done.
  - compute_done.
  - intros x Hx. vm_compute in Hx.
    repeat (apply elem_of_cons in Hx as [->|Hx]; [by eexists|]).
    by apply elem_of_nil in Hx.
  - intros x Hx. vm_compute in Hx.
    repeat (apply elem_of_cons in Hx as [->|Hx]; [by eexists|]).
    by apply elem_of_nil in Hx.
  - unfold applyResult in Heq. subst data'.
    split_and!; [reflexivity|reflexivity|exact Horder].
Defined.

Section DialogMore.
Context `{Collaborators}.

Lemma reconcileInstalled_entry now self data :
  _setId self ≠ CustomSetId →
  ∃ it,
    stickerSets (reconcileInstalled now self data) !! _setId self = Some it ∧
    set_flags it = installedFlags (_setFlags self).
Proof.
  intros Hother. cbn. rewrite cleanCustom_lookup_ne by done.
  unfold upsertSet. cbn. rewrite lookup_insert_eq.
  eexists. split; [done|]. by destruct (stickerSets data !! _setId self).
Qed.

Lemma installed_not_notInstalled now self data :
  Flag_f_installed_date ≠ 0 →
  Z.land Flag_f_installed_date Flag_f_archived = 0 →
  _setId self ≠ CustomSetId →
  notInstalled (installedInner now self) (reconcileInstalled now self data)
  = false.
Proof.
  intros Hinstalled Hbits Hother. unfold notInstalled.
  destruct (negb (_loaded (installedInner now self))); [done|].
  change (_setId (installedInner now self)) with (_setId self).
  destruct (reconcileInstalled_entry now self data Hother)
    as (it & -> & Hflags).
  rewrite Hflags, installedFlags_archived by done.
  assert (flag_set (installedFlags (_setFlags self)) Flag_f_installed_date
          = true) as ->; [|done].
  apply flag_set_true. by rewrite installedFlags_installed.
Qed.

Lemma updateButtons_no_add self data :
  notInstalled self data = false →
  lng_stickers_add_pack ∉ updateButtons self data.
Proof.
  unfold updateButtons. intros ->.
  destruct (loaded self), (official self);
    intros Hadd; repeat (apply elem_of_cons in Hadd as [?|Hadd]; [done|]);
    by apply elem_of_nil in Hadd.
Qed.

(** X5.  When the install of a set other than the custom bucket completes
    with a success result, the set counts as installed from then on
    ([notInstalled()] is false) and the buttons the dialog is left with do
    not include "add". *)
Theorem install_done_removes_add_button id now w w' effects
    (Hinstalled : Flag_f_installed_date ≠ 0)
    (Hbits : Z.land Flag_f_installed_date Flag_f_archived = 0)
    (Hother : _setId (inner w) ≠ CustomSetId)
    (Hstep : dispatch
               (InstallDone id mtpc_messages_stickerSetInstallResultSuccess now)
               w
             = Some (w', effects)) :
  notInstalled (inner w') (session w') = false ∧
  lng_stickers_add_pack ∉ buttons w'.
Proof.
  assert (buttons w' = updateButtons (inner w') (session w')) as Hbuttons.
  { cbn [dispatch] in Hstep.
    destruct (takeRequest id (pending w)) as [[[|input archived] rest]|];
      [done| |done].
    cbn in Hstep.
    destruct (flag_set (_setFlags (inner w)) Flag_f_archived);
      cbn in Hstep; by injection Hstep as <- <-. }
  apply dispatch_inv in Hstep
    as (_ & _ & _ & _ & _ & Hinner & Hsession & _).
  rewrite Hbuttons, Hinner, Hsession. cbn [applyResult].
  split; [by apply installed_not_notInstalled|].
  by apply updateButtons_no_add, installed_not_notInstalled.
Qed.

(** X6.  The "add" button is offered exactly when the fetch has loaded a
    non-empty pack and the registry has no entry for the set that is
    both installed and not archived.  "Share" is offered only for a
    loaded set with a short name that the registry holds as installed
    and not archived.  Whatever the state, the dialog has a button that
    closes it ("cancel" or "done"). *)
Theorem updateButtons_offers self data :
  (lng_stickers_add_pack ∈ updateButtons self data ↔
   _loaded self = true ∧ _pack self ≠ [] ∧
   ∀ it, stickerSets data !! _setId self = Some it →
         flag_set (set_flags it) Flag_f_installed_date = false ∨
         flag_set (set_flags it) Flag_f_archived = true) ∧
  (lng_stickers_share_pack ∈ updateButtons self data →
   loaded self = true ∧ _setShortName self ≠ EmptyString ∧
   ∃ it, stickerSets data !! _setId self = Some it ∧
         flag_set (set_flags it) Flag_f_installed_date = true ∧
         flag_set (set_flags it) Flag_f_archived = false) ∧
  (lng_cancel ∈ updateButtons self data ∨
   lng_about_done ∈ updateButtons self data).
Proof.
  unfold updateButtons, notInstalled, loaded, official.
  destruct (_loaded self); cbn [negb andb].
  2:{ split_and!; [split; [|by intros [? _]]|..].
      - intros Hin. exfalso. revert Hin. compute_done.
      - intros Hin. exfalso. revert Hin. compute_done.
      - left. compute_done. }
  destruct (decide (_pack self = [])) as [Hpack|Hpack].
  { rewrite (bool_decide_eq_true_2 _ Hpack). cbn [negb].
    split_and!; [split; [|by intros (_ & ? & _)]|..].
    - intros Hin. exfalso. revert Hin. compute_done.
    - intros Hin. exfalso. revert Hin. compute_done.
    - left. compute_done. }
  rewrite (bool_decide_eq_false_2 _ Hpack). cbn [negb].
  destruct (stickerSets data !! _setId self) as [it|].
  2:{ split_and!; [split; [by intros _|intros _; compute_done]|..].
      - intros Hin. exfalso. revert Hin. compute_done.
      - left. compute_done. }
  destruct (flag_set (set_flags it) Flag_f_installed_date) eqn:Hi;
    cbn [negb orb].
  2:{ split_and!; [split; [|intros _; compute_done]|..].
      - intros _. split_and!; [done..|]. intros ? [= <-]. by left.
      - intros Hin. exfalso. revert Hin. compute_done.
      - left. compute_done. }
  destruct (flag_set (set_flags it) Flag_f_archived) eqn:Ha.
  { split_and!; [split; [|intros _; compute_done]|..].
    - intros _. split_and!; [done..|]. intros ? [= <-]. by right.
    - intros Hin. exfalso. revert Hin. compute_done.
    - left. compute_done. }
  assert (¬ ∀ it0, Some it = Some it0 →
            flag_set (set_flags it0) Flag_f_installed_date = false ∨
            flag_set (set_flags it0) Flag_f_archived = true) as Hno.
  { intros Hit. destruct (Hit it eq_refl); congruence. }
  destruct (decide (_setShortName self = EmptyString)) as [Hn|Hn].
  - rewrite (bool_decide_eq_true_2 _ Hn).
    split_and!; [split; [|by intros (_ & _ & ?)]|..].
    + intros Hin. exfalso. revert Hin. compute_done.
    + intros Hin. exfalso. revert Hin. compute_done.
    + right. compute_done.
  - rewrite (bool_decide_eq_false_2 _ Hn).
    split_and!; [split; [|by intros (_ & _ & ?)]|..].
    + intros Hin. exfalso. revert Hin. compute_done.
    + intros _. split_and!; [done..|]. by exists it.
    + left. compute_done.
Qed.

End DialogMore.

Lemma install_done_removes_add_button_witness :
  match runEvents [FetchDone 1 (response7 0); AddPressed 2]
          (dialog7 emptySession) [] with
  | Some (w, _) =>
      match @dispatch sampleScheme
              (InstallDone 2 mtpc_messages_stickerSetInstallResultSuccess 1000)
              w with
      | Some (w', _) =>
          lng_stickers_add_pack ∈ buttons w ∧
          lng_stickers_add_pack ∉ buttons w'
      | None => False
      end
  | None => False
  end.
Proof.
  destruct (runEvents _ _ _) as [[w trace]|] eqn:Hrun;
    [|vm_compute in Hrun; discriminate].
  vm_compute in Hrun. injection Hrun as <- _.
  match goal with
  | |- match ?step with _ => _ end =>
      destruct step as [[w' effects]|] eqn:Hstep
  end.
  - split; [compute_done|].
    eapply (@install_done_removes_add_button sampleScheme);
      [| |
       |exact Hstep].
    + discriminate.
    + reflexivity.
    + vm_compute. discriminate.
  - vm_compute in Hstep. discriminate.
Defined.

Section FetchMore.
Context `{Collaborators}.

(** X7.  Fetch completion takes every flag bit outside the client-only
    mask from the response: in the dialog's flags, and in the flags of
    the registry entry when there is one, such a bit is set exactly when
    the response sets it, whatever the entry held before. *)
Theorem gotSet_server_flags_from_response response self data mask
    (Hserver : Z.land clientFlagsMask mask = 0) :
  let self' := (gotSet response self data).1.1 in
  let data' := (gotSet response self data).1.2 in
  Z.land (_setFlags self') mask = Z.land (vflags (vset response)) mask ∧
  ∀ it', stickerSets data' !! vid (vset response) = Some it' →
         Z.land (set_flags it') mask = Z.land (vflags (vset response)) mask.
Proof.
  assert (∀ old,
    Z.land (Z.lor (vflags (vset response)) (Z.land old clientFlagsMask)) mask
    = Z.land (vflags (vset response)) mask) as Hbits.
  { intros old. bitwise n. bit_of Hserver n.
    destruct (Z.testbit (vflags (vset response)) n), (Z.testbit old n),
      (Z.testbit clientFlagsMask n), (Z.testbit mask n); done. }
  cbn zeta. unfold gotSet.
  destruct (collectDocuments _ _ _) as [pack docs].
  destruct (stickerSets data !! vid (vset response)) as [it|] eqn:Hit;
    case_decide; cbn; (split; [done|]).
  all: intros it' Hit'; rewrite ?lookup_insert_eq, ?Hit in Hit';
    simplify_eq; cbn; done.
Qed.

(** X8.  Fetch completion never adds or removes a registry entry and
    leaves every entry other than the fetched set's as it is.  Of the
    fetched set's entry it keeps the id, access hash, title, short name,
    count and hash that were stored, and sets the install date to the
    response's (zero when the response has none); only the dialog's own
    fields take the response's access hash, title, short name, count and
    hash. *)
Theorem gotSet_registry_frame response self data :
  let set := vset response in
  let self' := (gotSet response self data).1.1 in
  let data' := (gotSet response self data).1.2 in
  dom (stickerSets data') = dom (stickerSets data) ∧
  (∀ k, k ≠ vid set → stickerSets data' !! k = stickerSets data !! k) ∧
  (∀ it, stickerSets data !! vid set = Some it →
     ∃ it', stickerSets data' !! vid set = Some it' ∧
       (set_id it', set_access it', set_title it', set_shortName it',
        set_count it', set_hash it')
       = (set_id it, set_access it, set_title it, set_shortName it,
          set_count it, set_hash it) ∧
       set_installDate it' = default 0 (vinstalled_date set)) ∧
  (_setAccess self', _setTitle self', _setShortName self', _setCount self',
   _setHash self', _setInstallDate self')
  = (vaccess_hash set, GetSetTitle set, vshort_name set, vcount set,
     vhash set, default 0 (vinstalled_date set)).
Proof.
  cbn zeta. unfold gotSet.
  destruct (collectDocuments _ _ _) as [pack docs].
  destruct (stickerSets data !! vid (vset response)) as [it|] eqn:Hit;
    case_decide; cbn; split_and!; try done.
  all: try (by apply dom_insert_lookup_L).
  all: try (intros k Hk; by rewrite lookup_insert_ne).
  all: intros ? [= <-]; rewrite lookup_insert_eq; by eexists.
Qed.

Lemma rowsOf_bounds pack :
  kStickersPanelPerRow * (rowsOf pack - 1) < Z.of_nat (length pack)
    ≤ kStickersPanelPerRow * rowsOf pack.
Proof.
  unfold rowsOf, kStickersPanelPerRow.
  pose proof (Z.div_mod (Z.of_nat (length pack)) 5 ltac:(lia)) as Hdm.
  pose proof (Z.mod_pos_bound (Z.of_nat (length pack)) 5 ltac:(lia)) as Hm.
  case_decide; lia.
Qed.

(** X9.  Whenever fetch completion resizes the widget, the number of rows
    it asks for is the number of parsed stickers divided by the row
    width, rounded up: there is at least one row, the rows hold every
    sticker and the last row is not empty.  With an empty pack it does not
    resize at all. *)
Theorem gotSet_resizes_to_fit response self data rows :
  let self' := (gotSet response self data).1.1 in
  let count := Z.of_nat (length (_pack self')) in
  In (ResizeRows rows) (gotSet response self data).2 →
  1 ≤ rows ∧
  kStickersPanelPerRow * (rows - 1) < count ≤ kStickersPanelPerRow * rows.
Proof.
  cbn zeta. destruct (gotSet_parsed response self data) as (-> & _).
  destruct (gotSet_outcome response self data) as (Hempty & Hfull).
  cbn zeta in Hempty, Hfull.
  destruct (decide (validStickers response = [])) as [Hv|Hv].
  - destruct (Hempty Hv) as (-> & _). by intros [?|[]].
  - destruct (Hfull Hv) as (-> & _). intros [[= <-]|[?|[]]]; [|done].
    pose proof (rowsOf_bounds (validStickers response)) as Hrows.
    destruct (validStickers response); [done|]. cbn [length] in *.
    unfold kStickersPanelPerRow in *. lia.
Qed.

End FetchMore.

Lemma gotSet_server_flags_from_response_witness :
  ∃ old it',
    stickerSets busySession !! 7 = Some old ∧
    flag_set (set_flags old) (@Flag_f_archived sampleScheme) = true ∧
    stickerSets
      (@gotSet sampleScheme (response7 0) (inner (dialog7 busySession))
         busySession).1.2 !! 7
    = Some it' ∧
    flag_set (set_flags it') (@Flag_f_archived sampleScheme) = false.
Proof.
  destruct (@gotSet_server_flags_from_response sampleScheme (response7 0)
              (inner (dialog7 busySession)) busySession
              (@Flag_f_archived sampleScheme) eq_refl) as [_ Hentry].
  eexists _, _. split; [reflexivity|]. split; [reflexivity|].
  split; [reflexivity|].
  apply flag_set_false. etrans; [apply Hentry; reflexivity|reflexivity].
Defined.

Lemma gotSet_resizes_to_fit_witness :
  In (ResizeRows 1)
    (@gotSet sampleScheme (response7 0) (inner (dialog7 emptySession))
       emptySession).2 ∧
  kStickersPanelPerRow * (1 - 1) < 2 ≤ kStickersPanelPerRow * 1.
Proof.
  assert (In (ResizeRows 1)
            (@gotSet sampleScheme (response7 0) (inner (dialog7 emptySession))
               emptySession).2) as Hin by (left; reflexivity).
  split; [exact Hin|].
  apply (@gotSet_resizes_to_fit sampleScheme (response7 0)
           (inner (dialog7 emptySession)) emptySession 1 Hin).
Defined.

(** * Further properties of the runs of a dialog *)

Section RunsMore.
Context `{Collaborators}.
Implicit Types (w : Dialog) (trace : list (Event * list Effect)).

Lemma gotSet_keeps response self data :
  _input (gotSet response self data).1.1 = _input self.
Proof.
  unfold gotSet. destruct (collectDocuments _ _ _) as [pack docs].
  by destruct (stickerSets data !! vid (vset response)); case_decide.
Qed.

Lemma install_keeps_more requestId self :
  _input (install requestId self).1 = _input self ∧
  _setTitle (install requestId self).1 = _setTitle self.
Proof.
  by destruct (install_cases requestId self)
    as [[_ ->]|[(_ & _ & ->)|(_ & _ & ->)]].
Qed.

Lemma dispatch_input event w w' effects :
  dispatch event w = Some (w', effects) →
  _input (inner w') = _input (inner w).
Proof.
  intros Hstep. apply dispatch_inv in Hstep.
  destruct event as [id response|id|requestId|id result now|id|data notified].
  - destruct Hstep as (_ & _ & _ & _ & -> & _). apply gotSet_keeps.
  - by destruct Hstep as (_ & _ & _ & _ & -> & _).
  - destruct Hstep as (_ & _ & -> & _). apply install_keeps_more.
  - by destruct Hstep as (_ & _ & _ & _ & _ & -> & _).
  - by destruct Hstep as (_ & _ & _ & _ & _ & -> & _).
  - by destruct Hstep as (-> & _).
Qed.

Lemma runs_input fetchId input data trace w :
  runs (prepare fetchId input data).1 trace w → _input (inner w) = input.
Proof.
  induction 1 as [|trace w event w' effects _ IH Hstep].
  - by destruct input.
  - by rewrite (dispatch_input _ _ _ _ Hstep).
Qed.

(** What a step sends: nothing, unless it is a press on "add" that finds
    no request recorded. *)
Lemma dispatch_sends event w w' effects id request :
  dispatch event w = Some (w', effects) →
  SendRequest id request ∈ effects →
  event = AddPressed id ∧ id ≠ 0 ∧
  request = MTPmessages_InstallStickerSet (_input (inner w)) false ∧
  _installRequest (inner w') = id.
Proof.
  intros Hstep Hsend. apply dispatch_inv in Hstep.
  destruct event as [id' response|id'|requestId|id' result now|id'
                    |data notified].
  - destruct Hstep as (_ & _ & _ & _ & _ & _ & -> & _). exfalso.
    destruct (gotSet_outcome response (inner w) (session w))
      as (Hempty & Hfull). cbn zeta in Hempty, Hfull.
    destruct (decide (validStickers response = [])) as [Hv|Hv].
    + destruct (Hempty Hv) as (Heff & _). rewrite Heff in Hsend.
      by apply list_elem_of_singleton in Hsend.
    + destruct (Hfull Hv) as (Heff & _). rewrite Heff in Hsend.
      repeat (apply elem_of_cons in Hsend as [?|Hsend]; [done|]).
      by apply elem_of_nil in Hsend.
  - destruct Hstep as (_ & _ & _ & _ & _ & _ & -> & _). exfalso.
    by apply list_elem_of_singleton in Hsend.
  - destruct Hstep as (_ & Hid & -> & -> & _).
    destruct (install_cases requestId (inner w))
      as [[_ Hcase]|[(_ & _ & Hcase)|(_ & _ & Hcase)]];
      rewrite Hcase in Hsend |- *; cbn in Hsend |- *.
    + by apply list_elem_of_singleton in Hsend.
    + by apply elem_of_nil in Hsend.
    + apply list_elem_of_singleton in Hsend. by injection Hsend as -> ->.
  - destruct Hstep as (_ & _ & _ & _ & _ & _ & _ & -> & _). exfalso.
    apply elem_of_app in Hsend as [Hsend|Hsend].
    + unfold installDone in Hsend. cbn in Hsend.
      apply elem_of_app in Hsend as [Hsend|Hsend];
        [|by apply list_elem_of_singleton in Hsend].
      destruct result; [|by apply elem_of_nil in Hsend].
      apply elem_of_app in Hsend as [Hsend|Hsend].
      * destruct (flag_set _ _); [by apply list_elem_of_singleton in Hsend
                                 |by apply elem_of_nil in Hsend].
      * repeat (apply elem_of_cons in Hsend as [?|Hsend]; [done|]).
        by apply elem_of_nil in Hsend.
    + repeat (apply elem_of_cons in Hsend as [?|Hsend]; [done|]).
      by apply elem_of_nil in Hsend.
  - destruct Hstep as (_ & _ & _ & _ & _ & _ & _ & -> & _). exfalso.
    by apply list_elem_of_singleton in Hsend.
  - destruct Hstep as (_ & _ & _ & -> & _). exfalso.
    by apply elem_of_nil in Hsend.
Qed.

(** X10.  In every run of a dialog, whatever is sent after the fetch of
    [prepare] is sent by a press on "add" and is the request to install,
    not archived, the very set the dialog was opened with, under a
    non-zero id; that id is what [_installRequest] holds at the end of
    the run.  The run never sends the fetch again. *)
Theorem runs_send_only_the_install fetchId input data trace w
    (Hruns : runs (prepare fetchId input data).1 trace w) :
  ∀ event effects id request,
    (event, effects) ∈ trace →
    SendRequest id request ∈ effects →
    event = AddPressed id ∧ id ≠ 0 ∧
    request = MTPmessages_InstallStickerSet input false ∧
    _installRequest (inner w) = id.
Proof.
  induction Hruns as [|trace w event w' effects Hruns IH Hstep].
  - by intros ???? ?%elem_of_nil.
  - intros event0 effects0 id request [Hin|[= -> ->]]%elem_of_snoc Hsend.
    + destruct (IH _ _ _ _ Hin Hsend) as (-> & Hid & -> & Hreq).
      split_and!; [done..|].
      rewrite (installRequest_kept _ _ _ _ Hstep); [done|congruence].
    + destruct (dispatch_sends _ _ _ _ _ _ Hstep Hsend)
        as (-> & Hid & -> & Hreq).
      by rewrite (runs_input _ _ _ _ _ Hruns).
Qed.

Lemma elem_of_counted {A} (P : A → Prop) `{∀ x, Decision (P x)}
    (l : list A) x :
  x ∈ l → P x → (0 < length (filter P l))%nat.
Proof.
  intros Hx HP.
  assert (x ∈ filter P l) as Hin by (by apply list_elem_of_filter).
  destruct (filter P l); [by apply elem_of_nil in Hin|cbn; lia].
Qed.

Lemma elem_of_delete {A} (l : list A) i x : x ∈ delete i l → x ∈ l.
Proof. intros Hx. eapply elem_of_sublist; [done|apply sublist_delete]. Qed.

(** X11.  In every run of a dialog the pending requests are the fetch
    [prepare] sent, under the id it was sent with, and install requests
    for the set the dialog was opened with, under the non-zero id that
    [_installRequest] holds. *)
Theorem runs_pending_are_recorded fetchId input data trace w
    (Hbits : Z.land Flag_f_installed_date Flag_f_masks = 0)
    (Hruns : runs (prepare fetchId input data).1 trace w) :
  ∀ id request,
    (id, request) ∈ pending w →
    (request = MTPmessages_GetStickerSet input ∧ id = fetchId) ∨
    (request = MTPmessages_InstallStickerSet input false ∧
     id = _installRequest (inner w) ∧ id ≠ 0).
Proof.
  induction Hruns as [|trace w event w' effects Hruns IH Hstep].
  - intros id request Hin. left.
    cbn in Hin. destruct input; cbn in Hin;
      apply list_elem_of_singleton in Hin; by injection Hin as -> ->.
  - pose proof (runs_fetch_inv _ _ _ _ _ Hruns) as (Hle & Hpend & _).
    pose proof (runs_install_inv _ _ _ _ _ Hbits Hruns) as (_ & Hzero & _).
    pose proof (runs_input _ _ _ _ _ Hruns) as Hinput.
    assert (∀ id request,
      (id, request) ∈ pending w → _installRequest (inner w) = 0 →
      fetchesInFlight w = 0%nat → False) as Hnone.
    { intros id request Hin Hreq Hfetch. destruct (Hzero Hreq) as [Hinst _].
      destruct (IH _ _ Hin) as [[-> _]|(-> & _)].
      - pose proof (elem_of_counted (λ r, isFetch r.2 = true) _ _ Hin eq_refl).
        unfold fetchesInFlight in Hfetch. lia.
      - pose proof (elem_of_counted (λ r, isInstall r.2 = true) _ _ Hin
                      eq_refl).
        unfold installsInFlight in Hinst. lia. }
    intros id request Hin.
    pose proof Hstep as Hinv. apply dispatch_inv in Hinv.
    destruct event as [id' response|id'|requestId|id' result now|id'
                      |data0 notified].
    + destruct Hinv as (i & input' & Hi & Hpending & Hinner & _).
      rewrite Hpending in Hin. apply elem_of_delete in Hin.
      destruct (gotSet_parsed response (inner w) (session w))
        as (_ & _ & _ & _ & Hsame & _). cbn zeta in Hsame.
      rewrite Hinner, Hsame. by apply IH.
    + destruct Hinv as (i & input' & Hi & Hpending & Hinner & _).
      rewrite Hpending in Hin. apply elem_of_delete in Hin.
      rewrite Hinner. cbn. by apply IH.
    + destruct Hinv as (Hadd & Hid & Hinner & -> & _ & _ & _ & Hpending).
      rewrite Hpending, Hinner in *.
      destruct (install_cases requestId (inner w))
        as [[_ Hcase]|[(_ & _ & Hcase)|(_ & Hreq & Hcase)]];
        rewrite Hcase in Hin |- *; cbn in Hin |- *.
      * rewrite app_nil_r in Hin. by apply IH.
      * rewrite app_nil_r in Hin. by apply IH.
      * apply elem_of_snoc in Hin as [Hin|[= -> ->]].
        -- exfalso. apply (Hnone _ _ Hin Hreq).
           destruct (decide (fetchesInFlight w = 1%nat)) as [Hone|]; [|lia].
           by destruct (Hpend Hone) as (_ & _ & _ & ? & _).
        -- right. by rewrite Hinput.
    + destruct Hinv as (i & input' & archived & Hi & Hpending & Hinner & _).
      rewrite Hpending in Hin. apply elem_of_delete in Hin.
      rewrite Hinner. cbn. by apply IH.
    + destruct Hinv as (i & input' & archived & Hi & Hpending & Hinner & _).
      rewrite Hpending in Hin. apply elem_of_delete in Hin.
      rewrite Hinner. by apply IH.
    + destruct Hinv as (Hinner & Hpending & _).
      rewrite Hpending in Hin. rewrite Hinner. by apply IH.
Qed.

(** X13.  In every run of a dialog the title the box shows is either the
    loading one or, with a loaded non-empty pack, the title of the set.
    After a failed fetch [title()] would yield the "failed" title, but
    nothing makes the box ask for it: the box still shows the loading
    title. *)
Theorem runs_box_title fetchId input data trace w
    (Hruns : runs (prepare fetchId input data).1 trace w) :
  (boxTitle w = TitleLang lng_contacts_loading ∨
   loaded (inner w) = true ∧ boxTitle w = TitleText (_setTitle (inner w))) ∧
  ∀ id effects,
    (FetchFailed id, effects) ∈ trace →
    title (inner w) = TitleLang lng_attach_failed ∧
    boxTitle w = TitleLang lng_contacts_loading.
Proof.
  assert (boxTitle w = TitleLang lng_contacts_loading ∨
          loaded (inner w) = true ∧
          boxTitle w = TitleText (_setTitle (inner w))) as Htitle.
  { induction Hruns as [|trace w event w' effects Hruns IH Hstep].
    - left. by destruct input.
    - pose proof (runs_fetch_inv _ _ _ _ _ Hruns) as (Hle & Hpend & _).
      pose proof Hstep as Hinv. apply dispatch_inv in Hinv.
      destruct event as [id' response|id'|requestId|id' result now|id'
                        |data0 notified].
      + destruct Hinv as (i & input' & Hi & _ & Hinner & _ & _ & Hbox).
        pose proof (fetches_delete w i _ _ Hi) as Hf. cbn in Hf.
        destruct (Hpend ltac:(lia)) as (_ & _ & Hloading & _).
        destruct (gotSet_parsed response (inner w) (session w))
          as (Hpack & _).
        destruct (gotSet_outcome response (inner w) (session w))
          as (_ & Hfull). cbn zeta in Hpack, Hfull.
        rewrite <- Hinner in Hpack, Hfull.
        destruct (decide (validStickers response = [])) as [Hv|Hv].
        * left. destruct Hbox as [_ ->]. done.
        * right. destruct Hbox as [_ ->].
          destruct (Hfull Hv) as (_ & Hl & Hloaded). split; [done|].
          unfold title. rewrite Hl, Hpack. cbn.
          by rewrite bool_decide_eq_false_2.
      + destruct Hinv as (i & input' & Hi & _ & _ & _ & _ & _ & Hbox).
        pose proof (fetches_delete w i _ _ Hi) as Hf. cbn in Hf.
        destruct (Hpend ltac:(lia)) as (_ & _ & Hloading & _).
        left. congruence.
      + destruct Hinv as (_ & _ & Hinner & _ & _ & _ & Hbox & _).
        destruct (install_keeps requestId (inner w)) as (Hp & Hl & _).
        destruct (install_keeps_more requestId (inner w)) as (_ & Ht).
        unfold loaded. rewrite Hbox, Hinner, Hp, Hl, Ht. exact IH.
      + destruct Hinv
          as (i & input' & archived & _ & _ & Hinner & _ & _ & _ & Hbox).
        unfold loaded. rewrite Hbox, Hinner. exact IH.
      + destruct Hinv
          as (i & input' & archived & _ & _ & Hinner & _ & _ & _ & Hbox).
        unfold loaded. rewrite Hbox, Hinner. exact IH.
      + destruct Hinv as (Hinner & _ & _ & _ & Hbox & _).
        unfold loaded. rewrite Hbox, Hinner. exact IH. }
  split; [done|]. intros id effects Hin.
  destruct (runs_fetch_inv _ _ _ _ _ Hruns) as (_ & _ & _ & Hfail & _).
  destruct (Hfail _ _ Hin) as (_ & Hl & Hp).
  split.
  - unfold title. by rewrite Hl, Hp.
  - destruct Htitle as [?|[Hloaded _]]; [done|].
    apply loaded_true in Hloaded as [_ ?]. done.
Qed.

End RunsMore.

Lemma runs_send_only_the_install_witness :
  match runEvents
          [FetchDone 1 (response7 0); AddPressed 2; InstallFailed 2;
           AddPressed 3]
          (dialog7 emptySession) [] with
  | Some (w, trace) =>
      @runs sampleScheme (dialog7 emptySession) trace w ∧
      trace !! 1%nat
      = Some (AddPressed 2,
              [SendRequest 2 (MTPmessages_InstallStickerSet input7 false)]) ∧
      _installRequest (inner w) = 2
  | None => False
  end.
Proof.
  destruct (runEvents _ _ _) as [[w trace]|] eqn:Hrun;
    [|vm_compute in Hrun; discriminate].
  assert (@runs sampleScheme (dialog7 emptySession) trace w) as Hruns
    by (eapply runEvents_runs; [apply runs_nil|exact Hrun]).
  pose proof (@runs_send_only_the_install sampleScheme 1 input7 emptySession
                trace w Hruns) as Hsent.
  assert (trace !! 1%nat
          = Some (AddPressed 2,
                  [SendRequest 2 (MTPmessages_InstallStickerSet input7 false)]))
    as Hat.
  { vm_compute in Hrun. injection Hrun as _ <-. reflexivity. }
  split_and!; [exact Hruns|exact Hat|].
  eapply Hsent; [by eapply list_elem_of_lookup_2|apply list_elem_of_here].
Defined.

Lemma runs_pending_are_recorded_witness :
  match runEvents [FetchDone 1 (response7 0); AddPressed 2]
          (dialog7 emptySession) [] with
  | Some (w, trace) =>
      @runs sampleScheme (dialog7 emptySession) trace w ∧
      pending w = [(2, MTPmessages_InstallStickerSet input7 false)] ∧
      _installRequest (inner w) = 2
  | None => False
  end.
Proof.
  destruct (runEvents _ _ _) as [[w trace]|] eqn:Hrun;
    [|vm_compute in Hrun; discriminate].
  assert (@runs sampleScheme (dialog7 emptySession) trace w) as Hruns
    by (eapply runEvents_runs; [apply runs_nil|exact Hrun]).
  pose proof (@runs_pending_are_recorded sampleScheme 1 input7 emptySession
                trace w eq_refl Hruns) as Hpending.
  assert (pending w = [(2, MTPmessages_InstallStickerSet input7 false)])
    as Hat.
  { vm_compute in Hrun. injection Hrun as <- _. reflexivity. }
  split_and!; [exact Hruns|exact Hat|].
  destruct (Hpending 2 (MTPmessages_InstallStickerSet input7 false))
    as [[? _]|(_ & Hid & _)]; [rewrite Hat; apply list_elem_of_here|done|done].
Defined.

Lemma runs_box_title_witness :
  match runEvents [FetchFailed 1; SessionChanged busySession true]
          (dialog7 emptySession) [] with
  | Some (w, trace) =>
      @runs sampleScheme (dialog7 emptySession) trace w ∧
      title (inner w) = TitleLang lng_attach_failed ∧
      boxTitle w = TitleLang lng_contacts_loading
  | None => False
  end.
Proof.
  destruct (runEvents _ _ _) as [[w trace]|] eqn:Hrun;
    [|vm_compute in Hrun; discriminate].
  assert (@runs sampleScheme (dialog7 emptySession) trace w) as Hruns
    by (eapply runEvents_runs; [apply runs_nil|exact Hrun]).
  destruct (@runs_box_title sampleScheme 1 input7 emptySession trace w Hruns)
    as [_ Hfailed].
  split; [exact Hruns|].
  apply (Hfailed 1 [ShowInformBox lng_stickers_not_found None]).
  vm_compute in Hrun. injection Hrun as _ <-. apply list_elem_of_here.
Defined.

(** * The sticker grid *)

Lemma int_wrap_id z : - 2 ^ 31 ≤ z < 2 ^ 31 → int_wrap z = z.
Proof.
  intros Hz. unfold int_wrap. rewrite Z.mod_small by lia. lia.
Qed.

Lemma to_size_t_nonneg z : 0 ≤ z < 2 ^ 31 → to_size_t z = z.
Proof. intros Hz. unfold to_size_t. apply Z.mod_small. lia. Qed.

Lemma to_size_t_neg z : - 2 ^ 31 ≤ z < 0 → 2 ^ 63 ≤ to_size_t z.
Proof.
  intros Hz. unfold to_size_t.
  replace z with (z + 2 ^ 64 + (-1) * 2 ^ 64) by lia.
  rewrite Z.mod_add by lia. rewrite Z.mod_small by lia. lia.
Qed.

Lemma quot_pos_bounds a b :
  0 ≤ a → 0 < b → 0 ≤ a ÷ b ≤ a ∧ b * (a ÷ b) ≤ a < b * (a ÷ b + 1).
Proof.
  intros Ha Hb. rewrite Z.quot_div_nonneg by lia.
  pose proof (Z.div_mod a b ltac:(lia)).
  pose proof (Z.mod_pos_bound a b Hb).
  assert (0 ≤ a / b) by (apply Z.div_pos; lia).
  nia.
Qed.

Lemma quot_unique a b q :
  0 < b → b * q ≤ a < b * (q + 1) → 0 ≤ q → a ÷ b = q.
Proof.
  intros Hb Ha Hq. assert (0 ≤ a) by nia.
  destruct (quot_pos_bounds a b) as [_ Hq']; [lia..|]. nia.
Qed.

Lemma quot_neg_bounds a b : a ≤ 0 → 0 < b → a ≤ a ÷ b ≤ 0.
Proof.
  intros Ha Hb.
  assert (a ÷ b = - (- a ÷ b)) as ->
    by (rewrite Z.quot_opp_l by lia; lia).
  destruct (quot_pos_bounds (- a) b); lia.
Qed.

Section GridFacts.
Context `{StickersStyle}.

(** The row or column a coordinate falls in, as the hit test computes
    it: [-1] before the padding, else the quotient. *)
Lemma cell_of_coordinate pad size z q :
  0 < size ≤ 2 ^ 11 → 0 ≤ pad ≤ 2 ^ 11 → - 2 ^ 28 ≤ z ≤ 2 ^ 28 →
  q = (if decide (pad ≤ z) then int_wrap (z - pad) ÷ size else -1) →
  (-1 ≤ q ≤ 2 ^ 28) ∧
  ∀ i, 0 ≤ i → (q = i ↔ pad + i * size ≤ z < pad + (i + 1) * size).
Proof.
  intros Hsize Hpad Hz ->. case_decide as Hle.
  - rewrite int_wrap_id by lia.
    destruct (quot_pos_bounds (z - pad) size) as [Hq Hq']; [lia..|].
    split; [lia|]. intros i Hi. split.
    + intros <-. lia.
    + intros Hcell. apply quot_unique; lia.
  - split; [lia|]. intros i Hi. split; [lia|]. nia.
Qed.

Lemma hit_test_cell (rtl : bool) width pack (l : Z * Z)
    (Hstyle : styleInRange)
    (Hx : coordinate l.1) (Hy : coordinate l.2) (Hwidth : coordinate width) :
  let lx := if rtl then width - l.1 else l.1 in
  let k := stickerFromGlobalPos rtl width pack l in
  (k = -1 ∨ 0 ≤ k < Z.of_nat (length pack)) ∧
  ∀ i j,
    0 ≤ i → 0 ≤ j < kStickersPanelPerRow →
    (k = i * kStickersPanelPerRow + j ↔
     i * kStickersPanelPerRow + j < Z.of_nat (length pack) ∧
     cellLeft j ≤ lx < cellLeft (j + 1) ∧
     cellTop i ≤ l.2 < cellTop (i + 1)).
Proof.
  destruct Hstyle as (Hw & Hh & Hleft & Htop).
  unfold coordinate in *. cbn zeta.
  unfold stickerFromGlobalPos, cellLeft, cellTop, kStickersPanelPerRow.
  assert ((if rtl then int_wrap (width - l.1) else l.1)
          = (if rtl then width - l.1 else l.1)) as ->
    by (destruct rtl; [apply int_wrap_id; lia|done]).
  set (lx := if rtl then width - l.1 else l.1).
  assert (- 2 ^ 28 ≤ lx ≤ 2 ^ 28) as Hlx by (unfold lx; destruct rtl; lia).
  destruct (cell_of_coordinate stickersPadding_top stickersSize_height l.2 _
              Hh Htop ltac:(lia) eq_refl) as [Hrow Hrows].
  destruct (cell_of_coordinate stickersPadding_left stickersSize_width lx _
              Hw Hleft Hlx eq_refl) as [Hcol Hcols].
  set (row := if decide (stickersPadding_top ≤ l.2) then _ else _) in *.
  set (col := if decide (stickersPadding_left ≤ lx) then _ else _) in *.
  clearbody row col.
  destruct (decide (0 ≤ row ∧ 0 ≤ col ∧ col < 5)) as [(Hr & Hc & Hc')|Hout].
  - rewrite (int_wrap_id (row * 5)) by lia.
    rewrite (int_wrap_id (row * 5 + col)) by lia. case_decide as Hin.
    + split; [right; lia|]. intros i j Hi Hj.
      rewrite <- (Hcols j), <- (Hrows i) by lia. split.
      * intros Hk. assert (row = i ∧ col = j) as [-> ->] by lia. lia.
      * intros (_ & -> & ->). lia.
    + split; [by left|]. intros i j Hi Hj.
      rewrite <- (Hcols j), <- (Hrows i) by lia. split; [lia|].
      intros (? & -> & ->). lia.
  - split; [by left|]. intros i j Hi Hj.
    rewrite <- (Hcols j), <- (Hrows i) by lia. split; [lia|].
    intros (_ & -> & ->). lia.
Qed.

(** X14.  Hit testing yields [-1] or an index into the pack, so every
    [_pack[index]] guarded by it is in range.  It yields the index of row
    [i], column [j] exactly for the points of that cell of the grid (the
    x coordinate taken from the right edge in a right-to-left layout),
    provided the pack has such an element. *)
Theorem stickerFromGlobalPos_hits (rtl : bool) width pack (l : Z * Z)
    (Hstyle : styleInRange)
    (Hx : coordinate l.1) (Hy : coordinate l.2) (Hwidth : coordinate width) :
  let lx := if rtl then width - l.1 else l.1 in
  let k := stickerFromGlobalPos rtl width pack l in
  (k = -1 ∨ 0 ≤ k < Z.of_nat (length pack)) ∧
  ∀ i j,
    0 ≤ i → 0 ≤ j < kStickersPanelPerRow →
    (k = i * kStickersPanelPerRow + j ↔
     i * kStickersPanelPerRow + j < Z.of_nat (length pack) ∧
     cellLeft j ≤ lx < cellLeft (j + 1) ∧
     cellTop i ≤ l.2 < cellTop (i + 1)).
Proof. by apply hit_test_cell. Qed.

End GridFacts.

Lemma stickerFromGlobalPos_hits_witness :
  @styleInRange sampleStyle ∧
  @stickerFromGlobalPos sampleStyle false 400 [101; 102; 103; 104; 105; 106]
    (8 + 64 - 1, 8 + 64)
  = 1 * kStickersPanelPerRow + 0 ∧
  @stickerFromGlobalPos sampleStyle true 400 [101; 102; 103; 104; 105; 106]
    (400 - 8, 8 + 64)
  = 1 * kStickersPanelPerRow + 0.
Proof.
  assert (@styleInRange sampleStyle) as Hstyle by (repeat split; by cbn).
  split; [exact Hstyle|]. split.
  - apply (@stickerFromGlobalPos_hits sampleStyle false 400
             [101; 102; 103; 104; 105; 106] (8 + 64 - 1, 8 + 64) Hstyle);
      [split; by cbn..|done|done|]. repeat split; by cbn.
  - apply (@stickerFromGlobalPos_hits sampleStyle true 400
             [101; 102; 103; 104; 105; 106] (400 - 8, 8 + 64) Hstyle);
      [split; by cbn..|done|done|]. repeat split; by cbn.
Defined.

Section PaintFacts.
Context `{StickersStyle}.
Implicit Types (elements : list Element).

Lemma paintRow_negative elements i :
  countInRange elements →
  - 2 ^ 28 ≤ i < 0 →
  paintRow elements i (seqZ 0 5) = [].
Proof.
  unfold countInRange. intros Hcount Hi. rewrite seqZ_cons by lia.
  cbn [paintRow]. unfold kStickersPanelPerRow.
  rewrite (int_wrap_id (i * 5)), (int_wrap_id (i * 5 + 0)) by lia.
  pose proof (to_size_t_neg (i * 5 + 0) ltac:(lia)).
  rewrite decide_True; [done|]. lia.
Qed.

Lemma paintRow_elem elements i (len : nat) j0 index pos :
  styleInRange → countInRange elements →
  0 ≤ i ≤ 2 ^ 28 → 0 ≤ j0 → j0 + Z.of_nat len ≤ 5 →
  (index, pos) ∈ paintRow elements i (seqZ j0 (Z.of_nat len)) ↔
  ∃ j, j0 ≤ j < j0 + Z.of_nat len ∧ index = i * 5 + j ∧
       index < Z.of_nat (length elements) ∧
       pos = (cellLeft j, cellTop i).
Proof.
  intros (Hw & Hh & Hleft & Htop) Hcount Hi. unfold countInRange in Hcount.
  revert j0. induction len as [|len IH]; intros j0 Hj0 Hlen.
  - cbn. split; [by intros ?%elem_of_nil|]. intros (j & ? & _). lia.
  - rewrite seqZ_cons by lia. cbn [paintRow]. unfold kStickersPanelPerRow.
    rewrite (int_wrap_id (i * 5)), (int_wrap_id (i * 5 + j0)) by lia.
    rewrite to_size_t_nonneg by lia.
    replace (Z.pred (Z.of_nat (S len))) with (Z.of_nat len) by lia.
    case_decide as Hbreak.
    + split; [by intros ?%elem_of_nil|]. intros (j & ? & -> & ? & _). lia.
    + rewrite elem_of_cons, IH by lia.
      rewrite (int_wrap_id (j0 * _)), (int_wrap_id (i * _)) by nia.
      rewrite !int_wrap_id by nia. split.
      * intros [[= -> ->]|(j & ? & -> & ? & ->)].
        -- exists j0. split_and!; [lia|lia|done|lia|done].
        -- exists j. split_and!; [lia|lia|done|done|done].
      * intros (j & Hj & -> & ? & ->).
        destruct (decide (j = j0)) as [->|]; [by left|right].
        exists j. split_and!; [lia|lia|done|done|done].
Qed.

Lemma paintRow_NoDup elements i (len : nat) j0 :
  styleInRange → countInRange elements →
  0 ≤ i ≤ 2 ^ 28 → 0 ≤ j0 → j0 + Z.of_nat len ≤ 5 →
  NoDup (paintRow elements i (seqZ j0 (Z.of_nat len))).
Proof.
  intros Hstyle Hcount Hi.
  revert j0. induction len as [|len IH]; intros j0 Hj0 Hlen.
  - cbn. constructor.
  - rewrite seqZ_cons by lia. cbn [paintRow].
    replace (Z.pred (Z.of_nat (S len))) with (Z.of_nat len) by lia.
    case_decide; [constructor|]. apply NoDup_cons. split; [|apply IH; lia].
    unfold kStickersPanelPerRow.
    rewrite (int_wrap_id (i * 5)), (int_wrap_id (i * 5 + j0)) by lia.
    intros (j & ? & ? & _)%paintRow_elem; [lia|done..|lia|lia].
Qed.

Lemma paintEvent_elem rectTop rectBottom elements
    (Hstyle : styleInRange) (Hcount : countInRange elements)
    (Htop : coordinate rectTop) (Hbottom : coordinate rectBottom) :
  NoDup (paintEvent rectTop rectBottom elements) ∧
  ∀ index pos,
    (index, pos) ∈ paintEvent rectTop rectBottom elements ↔
    0 ≤ index < Z.of_nat (length elements) ∧
    rectTop ÷ stickersSize_height ≤ index `div` kStickersPanelPerRow
      ≤ rectBottom ÷ stickersSize_height ∧
    pos = (cellLeft (index `mod` kStickersPanelPerRow),
           cellTop (index `div` kStickersPanelPerRow)).
Proof.
  pose proof Hstyle as (Hw & Hh & Hleft & Hpad).
  unfold coordinate, kStickersPanelPerRow in *.
  assert (- 2 ^ 27 ≤ rectTop ÷ stickersSize_height ≤ 2 ^ 27) as Hfrom.
  { destruct (decide (0 ≤ rectTop)).
    - destruct (quot_pos_bounds rectTop stickersSize_height); lia.
    - destruct (quot_neg_bounds rectTop stickersSize_height); lia. }
  assert (- 2 ^ 27 ≤ rectBottom ÷ stickersSize_height ≤ 2 ^ 27) as Hto.
  { destruct (decide (0 ≤ rectBottom)).
    - destruct (quot_pos_bounds rectBottom stickersSize_height); lia.
    - destruct (quot_neg_bounds rectBottom stickersSize_height); lia. }
  unfold paintEvent. destruct elements as [|element elements'] eqn:Helements.
  { split; [constructor|]. intros index pos. cbn.
    split; [by intros ?%elem_of_nil|lia]. }
  rewrite <- Helements in *. clear Helements element elements'.
  unfold kStickersPanelPerRow. rewrite int_wrap_id by lia.
  set (from := rectTop ÷ stickersSize_height) in *.
  set (to := rectBottom ÷ stickersSize_height) in *.
  assert (∀ i index pos,
    i ∈ seqZ from (to + 1 - from) →
    (index, pos) ∈ paintRow elements i (seqZ 0 5) →
    0 ≤ i ∧ ∃ j, 0 ≤ j < 5 ∧ index = i * 5 + j ∧
      index < Z.of_nat (length elements) ∧ pos = (cellLeft j, cellTop i))
    as Hrow.
  { intros i index pos Hi%elem_of_seqZ Hin.
    destruct (decide (i < 0)) as [Hneg|Hpos].
    - rewrite (paintRow_negative elements i) in Hin by (done || lia).
      by apply elem_of_nil in Hin.
    - split; [lia|].
      apply (paintRow_elem elements i 5 0) in Hin; [|done|done|lia..].
      destruct Hin as (j & ? & ? & ? & ?). exists j. split_and!; try done; lia. }
  split.
  - apply NoDup_bind.
    + intros i1 i2 [index pos] Hi1 Hi2 Hin1 Hin2.
      destruct (Hrow _ _ _ Hi1 Hin1) as (? & j1 & ? & ? & _).
      destruct (Hrow _ _ _ Hi2 Hin2) as (? & j2 & ? & ? & _). lia.
    + intros i Hi%elem_of_seqZ. destruct (decide (i < 0)).
      * rewrite (paintRow_negative elements i) by (done || lia). constructor.
      * apply (paintRow_NoDup elements i 5 0); [done|done|lia..].
    + apply NoDup_seqZ.
  - intros index pos. rewrite list_elem_of_bind. split.
    + intros (i & Hin & Hi).
      destruct (Hrow _ _ _ Hi Hin) as (? & j & ? & -> & ? & ->).
      apply elem_of_seqZ in Hi.
      assert ((i * 5 + j) `div` 5 = i) as ->
        by (symmetry; apply (Z.div_unique _ 5 i j); lia).
      assert ((i * 5 + j) `mod` 5 = j) as ->
        by (symmetry; apply (Z.mod_unique _ 5 i j); lia).
      split_and!; [lia|lia|lia|lia|done].
    + intros (Hindex & Hrows & ->).
      pose proof (Z.div_mod index 5 ltac:(lia)) as Hdm.
      pose proof (Z.mod_pos_bound index 5 ltac:(lia)) as Hm.
      exists (index `div` 5). split; [|apply elem_of_seqZ; lia].
      apply (paintRow_elem elements _ 5 0);
        [done|done|unfold countInRange in Hcount; lia|lia|lia|].
      exists (index `mod` 5). split_and!; [lia|lia|lia|lia|done].
Qed.

(** X15.  A paint event calls [paintSticker] exactly for the elements of
    the rows from [rect.top / height] to [rect.bottom / height], each
    once, with an index into [_elements] and the origin of the element's
    cell as position; a row before the first one paints nothing. *)
Theorem paintEvent_paints rectTop rectBottom elements
    (Hstyle : styleInRange) (Hcount : countInRange elements)
    (Htop : coordinate rectTop) (Hbottom : coordinate rectBottom) :
  NoDup (paintEvent rectTop rectBottom elements) ∧
  ∀ index pos,
    (index, pos) ∈ paintEvent rectTop rectBottom elements ↔
    0 ≤ index < Z.of_nat (length elements) ∧
    rectTop ÷ stickersSize_height ≤ index `div` kStickersPanelPerRow
      ≤ rectBottom ÷ stickersSize_height ∧
    pos = (cellLeft (index `mod` kStickersPanelPerRow),
           cellTop (index `div` kStickersPanelPerRow)).
Proof. by apply paintEvent_elem. Qed.

(** X16.  Painting and hit testing agree: in a left-to-right layout,
    every point of the cell whose origin a paint event passes to
    [paintSticker] for an element hit-tests to that element's index in a
    pack of the same length. *)
Theorem paintEvent_hit_test_round_trip rectTop rectBottom elements
    width pack index pos (x y : Z)
    (Hstyle : styleInRange) (Hcount : countInRange elements)
    (Htop : coordinate rectTop) (Hbottom : coordinate rectBottom)
    (Hwidth : coordinate width)
    (Hpack : length pack = length elements)
    (Hpainted : (index, pos) ∈ paintEvent rectTop rectBottom elements)
    (Hx : pos.1 ≤ x < pos.1 + stickersSize_width)
    (Hy : pos.2 ≤ y < pos.2 + stickersSize_height) :
  stickerFromGlobalPos false width pack (x, y) = index.
Proof.
  destruct (paintEvent_elem rectTop rectBottom elements Hstyle Hcount
              Htop Hbottom) as [_ Hpaints].
  apply Hpaints in Hpainted as (Hindex & _ & ->).
  pose proof Hstyle as (Hw & Hh & Hleft & Hpad).
  unfold countInRange, coordinate, kStickersPanelPerRow in *.
  pose proof (Z.div_mod index 5 ltac:(lia)) as Hdm.
  pose proof (Z.mod_pos_bound index 5 ltac:(lia)) as Hm.
  cbn [fst snd] in Hx, Hy. unfold cellLeft, cellTop in Hx, Hy.
  destruct (hit_test_cell false width pack (x, y) Hstyle) as [_ Hcell].
  - unfold coordinate. cbn. nia.
  - unfold coordinate. cbn. nia.
  - done.
  - cbn zeta in Hcell. unfold kStickersPanelPerRow in Hcell.
    assert (stickerFromGlobalPos false width pack (x, y)
            = index `div` 5 * 5 + index `mod` 5) as ->; [|lia].
    apply Hcell; [lia|lia|].
    rewrite Hpack. unfold cellLeft, cellTop. cbn [fst snd].
    split_and!; lia.
Qed.

End PaintFacts.

Lemma sampleStyle_in_range : @styleInRange sampleStyle.
Proof. repeat split; by cbn. Qed.

Lemma paintEvent_paints_witness :
  @styleInRange sampleStyle ∧ countInRange sampleElements ∧
  coordinate (-70) ∧ coordinate 63 ∧
  (4, (8 + 4 * 64, 8)) ∈ @paintEvent sampleStyle (-70) 63 sampleElements ∧
  ¬ (5, (8, 8 + 64)) ∈ @paintEvent sampleStyle (-70) 63 sampleElements.
Proof.
  assert (countInRange sampleElements) as Hcount by (by cbn).
  assert (coordinate (-70)) as Htop by (split; by cbn).
  assert (coordinate 63) as Hbottom by (split; by cbn).
  destruct (@paintEvent_paints sampleStyle (-70) 63 sampleElements
              sampleStyle_in_range Hcount Htop Hbottom) as [_ Hpaints].
  split_and!; [apply sampleStyle_in_range|done..| |].
  - apply Hpaints. repeat split; by cbn.
  - intros (_ & [_ Hrow] & _)%Hpaints. by cbn in Hrow.
Defined.

Lemma paintEvent_hit_test_round_trip_witness :
  (6, (8 + 64, 8 + 64)) ∈ @paintEvent sampleStyle 0 200 sampleElements ∧
  @stickerFromGlobalPos sampleStyle false 400
    [101; 102; 103; 104; 105; 106; 107] (8 + 64 + 63, 8 + 64 + 63)
  = 6.
Proof.
  assert ((6, (8 + 64, 8 + 64)) ∈ @paintEvent sampleStyle 0 200 sampleElements)
    as Hpainted by compute_done.
  split; [exact Hpainted|].
  eapply (@paintEvent_hit_test_round_trip sampleStyle 0 200 sampleElements);
    [apply sampleStyle_in_range|by cbn|split; by cbn|split; by cbn
    |split; by cbn|reflexivity|exact Hpainted|split; by cbn|split; by cbn].
Defined.

Section PauseFacts.
Context `{StickersStyle}.
Implicit Types (elements : list Element).

Lemma pauseRow_elem elements i (len : nat) j0 k :
  countInRange elements →
  0 ≤ i ≤ 2 ^ 28 → 0 ≤ j0 → j0 + Z.of_nat len ≤ 5 →
  k ∈ pauseRow elements i (seqZ j0 (Z.of_nat len)) →
  ∃ j, j0 ≤ j < j0 + Z.of_nat len ∧ k = i * 5 + j ∧
       k < Z.of_nat (length elements) ∧
       ∃ element, elements !! Z.to_nat k = Some element ∧
                  element_animated element ≠ 0.
Proof.
  unfold countInRange. intros Hcount Hi.
  revert j0. induction len as [|len IH]; intros j0 Hj0 Hlen.
  - cbn. by intros ?%elem_of_nil.
  - rewrite seqZ_cons by lia. cbn [pauseRow]. unfold kStickersPanelPerRow.
    rewrite (int_wrap_id (i * 5)), (int_wrap_id (i * 5 + j0)) by lia.
    rewrite to_size_t_nonneg by lia.
    replace (Z.pred (Z.of_nat (S len))) with (Z.of_nat len) by lia.
    assert (k ∈ pauseRow elements i (seqZ (Z.succ j0) (Z.of_nat len)) →
            ∃ j, j0 ≤ j < j0 + Z.of_nat (S len) ∧ k = i * 5 + j ∧
                 k < Z.of_nat (length elements) ∧
                 ∃ element, elements !! Z.to_nat k = Some element ∧
                            element_animated element ≠ 0) as Hrest.
    { intros (j & ? & ? & ? & ?)%IH; [|lia..].
      exists j. split_and!; [lia|lia|done..]. }
    case_decide as Hbreak; [by intros ?%elem_of_nil|].
    destruct (elements !! Z.to_nat (i * 5 + j0)) as [element|] eqn:Hat;
      [|done].
    case_decide as Hanimated; [|done].
    intros [->|Hin]%elem_of_cons; [|by apply Hrest].
    exists j0. split_and!; [lia|lia|done|lia|]. by exists element.
Qed.

Lemma pauseInRows_elem elements fromRow tillRow :
  countInRange elements →
  0 ≤ fromRow → fromRow ≤ tillRow ≤ 2 ^ 28 →
  ∃ paused,
    pauseInRows elements fromRow tillRow = Some paused ∧
    ∀ k, k ∈ paused →
      0 ≤ k < Z.of_nat (length elements) ∧
      fromRow ≤ k `div` 5 < tillRow ∧
      ∃ element, elements !! Z.to_nat k = Some element ∧
                 element_animated element ≠ 0.
Proof.
  intros Hcount Hfrom Htill. unfold pauseInRows.
  rewrite decide_True by lia. eexists. split; [done|].
  intros k (i & Hin & Hi%elem_of_seqZ)%list_elem_of_bind.
  apply (pauseRow_elem elements i 5 0) in Hin; [|done|lia..].
  destruct Hin as (j & ? & -> & ? & ?).
  assert ((i * 5 + j) `div` 5 = i) as ->
    by (symmetry; apply (Z.div_unique _ 5 i j); lia).
  split_and!; [lia|lia|lia|lia|done].
Qed.

(** X17.  With a positive row height, [visibleTopBottomUpdated] meets the
    contract [Expects(fromRow <= tillRow)] of [pauseInRows] on both of
    its calls, and every animation it pauses belongs to an element of
    [_elements] that has one and whose row lies entirely above the
    visible top or entirely at or below the visible bottom: nothing that
    is in view is paused. *)
Theorem visibleTopBottomUpdated_pauses_hidden visibleTop visibleBottom
    elements
    (Hstyle : styleInRange) (Hcount : countInRange elements)
    (Htop : coordinate visibleTop) (Hbottom : coordinate visibleBottom) :
  ∃ paused,
    visibleTopBottomUpdated visibleTop visibleBottom elements = Some paused ∧
    ∀ k, k ∈ paused →
      0 ≤ k < Z.of_nat (length elements) ∧
      (∃ element, elements !! Z.to_nat k = Some element ∧
                  element_animated element ≠ 0) ∧
      (cellTop (k `div` kStickersPanelPerRow + 1) ≤ visibleTop ∨
       visibleBottom ≤ cellTop (k `div` kStickersPanelPerRow)).
Proof.
  destruct Hstyle as (_ & Hh & _ & Hpad).
  unfold coordinate, kStickersPanelPerRow, cellTop in *.
  pose proof Hcount as Hn. unfold countInRange in Hn.
  unfold visibleTopBottomUpdated, kStickersPanelPerRow.
  set (n := Z.of_nat (length elements)) in *.
  rewrite (int_wrap_id n) by lia.
  pose proof (Z.quot_rem' n 5) as Hqr.
  pose proof (Z.rem_bound_pos n 5 ltac:(lia) ltac:(lia)) as Hrem.
  destruct (quot_pos_bounds n 5) as [Hq _]; [lia..|].
  set (rows := n ÷ 5 + (if decide (Z.rem n 5 ≠ 0) then 1 else 0)).
  assert (0 ≤ rows ≤ 2 ^ 15 + 1) as Hrows
    by (unfold rows; case_decide; lia).
  rewrite (int_wrap_id rows) by lia.
  rewrite (int_wrap_id (rows * _)) by nia.
  rewrite (int_wrap_id (_ + rows * _)) by nia.
  rewrite (int_wrap_id (stickersPadding_top + stickersSize_height)) by lia.
  rewrite (int_wrap_id (visibleBottom + stickersSize_height)) by lia.
  rewrite (int_wrap_id (visibleTop - stickersPadding_top)) by lia.
  rewrite (int_wrap_id (_ - visibleBottom)) by nia.
  clearbody rows.
  set (bottom := stickersPadding_top + rows * stickersSize_height) in *.
  (* the rows above the visible part *)
  assert (∃ above,
    (if decide (stickersPadding_top + stickersSize_height ≤ visibleTop
                ∧ visibleTop < bottom)
     then pauseInRows elements 0
            (Z.min ((visibleTop - stickersPadding_top) ÷ stickersSize_height)
               rows)
     else Some []) = Some above ∧
    ∀ k, k ∈ above →
      0 ≤ k < n ∧
      (∃ element, elements !! Z.to_nat k = Some element ∧
                  element_animated element ≠ 0) ∧
      stickersPadding_top + (k `div` 5 + 1) * stickersSize_height
        ≤ visibleTop) as (above & -> & Habove).
  { case_decide as Hcond;
      [|exists []; split; [done|by intros ? ?%elem_of_nil]].
    destruct (quot_pos_bounds (visibleTop - stickersPadding_top)
                stickersSize_height) as [Hq1 Hq2]; [lia..|].
    destruct (pauseInRows_elem elements 0
                (Z.min ((visibleTop - stickersPadding_top)
                          ÷ stickersSize_height) rows))
      as (above & -> & Hin); [done|lia|lia|].
    exists above. split; [done|]. intros k Hk.
    destruct (Hin k Hk) as (? & ? & ?). split_and!; [lia|lia|done|nia]. }
  (* the rows below it *)
  assert (∃ below,
    (if decide (stickersPadding_top < visibleBottom
                ∧ visibleBottom + stickersSize_height ≤ bottom)
     then pauseInRows elements
            (int_wrap
               (rows - Z.min ((bottom - visibleBottom) ÷ stickersSize_height)
                         rows))
            rows
     else Some []) = Some below ∧
    ∀ k, k ∈ below →
      0 ≤ k < n ∧
      (∃ element, elements !! Z.to_nat k = Some element ∧
                  element_animated element ≠ 0) ∧
      visibleBottom
        ≤ stickersPadding_top + k `div` 5 * stickersSize_height)
    as (below & -> & Hbelow).
  { case_decide as Hcond;
      [|exists []; split; [done|by intros ? ?%elem_of_nil]].
    destruct (quot_pos_bounds (bottom - visibleBottom) stickersSize_height)
      as [Hq1 Hq2]; [lia..|].
    rewrite int_wrap_id by lia.
    destruct (pauseInRows_elem elements
                (rows - Z.min ((bottom - visibleBottom) ÷ stickersSize_height)
                          rows) rows)
      as (below & -> & Hin); [done|lia|lia|].
    exists below. split; [done|]. intros k Hk.
    destruct (Hin k Hk) as (? & ? & ?). split_and!; [lia|lia|done|].
    unfold bottom in *. nia. }
  exists (above ++ below). split; [done|].
  intros k [Hk|Hk]%elem_of_app.
  - destruct (Habove k Hk) as (? & ? & ?). split_and!; [lia|lia|done|by left].
  - destruct (Hbelow k Hk) as (? & ? & ?). split_and!; [lia|lia|done|by right].
Qed.

End PauseFacts.

Lemma visibleTopBottomUpdated_pauses_hidden_witness :
  countInRange sampleElements ∧ coordinate 80 ∧ coordinate 90 ∧
  @visibleTopBottomUpdated sampleStyle 80 90 sampleElements
  = Some [0; 1; 3; 4].
Proof.
  assert (countInRange sampleElements) as Hcount by (by cbn).
  assert (coordinate 80) as Htop by (split; by cbn).
  assert (coordinate 90) as Hbottom by (split; by cbn).
  destruct (@visibleTopBottomUpdated_pauses_hidden sampleStyle 80 90
              sampleElements sampleStyle_in_range Hcount Htop Hbottom)
    as (paused & Heq & _).
  split_and!; [done..|]. reflexivity.
Defined.

(** * The pointer over the grid *)

Section PointerFacts.
Context `{Collaborators} `{StickersStyle}.
Implicit Types (self : Inner) (widget : Widget) (p : Pointer).

Lemma pack_lookup_in_range self index :
  0 ≤ index < Z.of_nat (length (_pack self)) →
  ∃ d, _pack self !! Z.to_nat index = Some d ∧ d ∈ _pack self.
Proof.
  intros Hindex.
  destruct (lookup_lt_is_Some_2 (_pack self) (Z.to_nat index)) as [d Hd];
    [lia|].
  exists d. split; [done|]. by eapply list_elem_of_lookup_2.
Qed.

Lemma setSelected_effects widget selected p p' effects :
  setSelected widget selected p = (p', effects) →
  _previewShown p' = _previewShown p ∧ _previewTimer p' = _previewTimer p ∧
  _selected p' = selected ∧
  (∀ setId access doc, ShowMediaPreview setId access doc ∉ effects) ∧
  (∀ doc, PostSendSticker doc ∉ effects) ∧
  (∀ index from to,
     StartOverAnimation index from to ∈ effects →
     (index = _selected p ∨ index = selected) ∧ 0 ≤ index ∧
     to_size_t index < Z.of_nat (length (widget_elements widget))) ∧
  (selected = _selected p → effects = []).
Proof.
  assert (∀ index from to index' from' to',
    StartOverAnimation index' from' to'
      ∈ startOverAnimation widget index from to →
    index' = index ∧ 0 ≤ index ∧
    to_size_t index < Z.of_nat (length (widget_elements widget))) as Hstart.
  { intros index from to index' from' to'. unfold startOverAnimation.
    case_decide as Hguard; [by intros ?%elem_of_nil|].
    intros [= -> _ _]%list_elem_of_singleton. split; [done|].
    split.
    - destruct (decide (0 ≤ index)); [done|]. exfalso. apply Hguard. left. lia.
    - destruct (decide (to_size_t index
                        < Z.of_nat (length (widget_elements widget))));
        [done|]. exfalso. apply Hguard. right. lia. }
  assert (∀ index from to e,
    e ∈ startOverAnimation widget index from to →
    ∃ index' from' to', e = StartOverAnimation index' from' to') as Hkind.
  { intros index from to e. unfold startOverAnimation.
    case_decide; [by intros ?%elem_of_nil|].
    intros ->%list_elem_of_singleton. eauto. }
  unfold setSelected. case_decide as Hchange; intros [= <- <-]; cbn.
  - split_and!; try done.
    + intros setId access doc [Hin|[Hin|Hin]%elem_of_app]%elem_of_app.
      * by destruct (Hkind _ _ _ _ Hin) as (? & ? & ? & ?).
      * by destruct (Hkind _ _ _ _ Hin) as (? & ? & ? & ?).
      * by apply list_elem_of_singleton in Hin.
    + intros doc [Hin|[Hin|Hin]%elem_of_app]%elem_of_app.
      * by destruct (Hkind _ _ _ _ Hin) as (? & ? & ? & ?).
      * by destruct (Hkind _ _ _ _ Hin) as (? & ? & ? & ?).
      * by apply list_elem_of_singleton in Hin.
    + intros index from to [Hin|[Hin|Hin]%elem_of_app]%elem_of_app.
      * destruct (Hstart _ _ _ _ _ _ Hin) as (-> & ? & ?). auto.
      * destruct (Hstart _ _ _ _ _ _ Hin) as (-> & ? & ?). auto.
      * by apply list_elem_of_singleton in Hin.
  - split_and!; try done.
    + intros. by intros ?%elem_of_nil.
    + intros. by intros ?%elem_of_nil.
    + by intros ??? ?%elem_of_nil.
Qed.

(** What one mouse event does that the properties below rest on. *)
Lemma mouseStep_facts self widget event p p' effects :
  mouseStep self widget event p = Some (p', effects) →
  (_previewShown p = -1 ∨
   0 ≤ _previewShown p < Z.of_nat (length (_pack self))) →
  (_previewShown p' = -1 ∨
   0 ≤ _previewShown p' < Z.of_nat (length (_pack self))) ∧
  (∀ setId access doc,
     ShowMediaPreview setId access doc ∈ effects →
     setId = _setId self ∧ access = _setAccess self ∧
     ∃ d, doc = Some d ∧ d ∈ _pack self) ∧
  (∀ doc,
     PostSendSticker doc ∈ effects →
     isMasksSet self = false ∧ ∃ d, doc = Some d ∧ d ∈ _pack self).
Proof.
  assert (∀ index setId access doc,
    0 ≤ index < Z.of_nat (length (_pack self)) →
    ShowMediaPreview setId access doc ∈ showMediaPreview self widget index →
    setId = _setId self ∧ access = _setAccess self ∧
    ∃ d, doc = Some d ∧ d ∈ _pack self) as Hpreview.
  { intros index setId access doc Hindex. unfold showMediaPreview.
    destruct (widget_wnd widget); [|by intros ?%elem_of_nil].
    intros [= -> -> ->]%list_elem_of_singleton.
    destruct (pack_lookup_in_range self index Hindex) as (d & -> & ?).
    split_and!; [done..|]. by exists d. }
  intros Hstep Hshown.
  destruct event as [l|cursor l|l| |cursor]; cbn [mouseStep] in Hstep.
  - injection Hstep as Hstep. unfold mousePressEvent in Hstep.
    case_decide; simplify_eq; cbn; split_and!; try done.
    all: first [by intros ??? ?%elem_of_nil|by intros ? ?%elem_of_nil].
  - injection Hstep as Hstep. unfold mouseMoveEvent, updateSelected in Hstep.
    destruct (setSelected widget _ p) as [p1 effects1] eqn:Hsel.
    apply setSelected_effects in Hsel
      as (Hshown1 & _ & _ & Hno_preview & Hno_send & _).
    repeat case_decide; simplify_eq; cbn; split_and!.
    all: try (rewrite Hshown1; done).
    all: try (right; lia).
    all: try (intros ??? Hin; by destruct (Hno_preview _ _ _ Hin)).
    all: try (intros ? Hin; by destruct (Hno_send _ Hin)).
    + intros setId access doc [Hin|Hin]%elem_of_app.
      * by destruct (Hno_preview _ _ _ Hin).
      * eapply Hpreview; [|done]. lia.
    + intros doc [Hin|Hin]%elem_of_app; [by destruct (Hno_send _ Hin)|].
      unfold showMediaPreview in Hin.
      destruct (widget_wnd widget);
        [by apply list_elem_of_singleton in Hin|by apply elem_of_nil in Hin].
  - injection Hstep as Hstep. unfold mouseReleaseEvent in Hstep.
    repeat case_decide; try destruct (_previewTimer p);
      repeat case_decide; simplify_eq; cbn; split_and!; try done;
      try (by left).
    all: try (first [by intros ??? ?%elem_of_nil|by intros ? ?%elem_of_nil]).
    all: try (intros ??? Hin; by apply list_elem_of_singleton in Hin).
    intros doc [= ->]%list_elem_of_singleton.
    match goal with
    | Hguard : _ ∧ _ ∧ isMasksSet self = false |- _ =>
        destruct Hguard as (? & ? & ?)
    end.
    split; [done|].
    destruct (pack_lookup_in_range self
                (stickerFromGlobalPos (widget_rtl widget)
                   (widget_width widget) (_pack self) l)) as (d & -> & ?);
      [lia|]. by exists d.
  - injection Hstep as Hstep. unfold leaveEventHook in Hstep.
    apply setSelected_effects in Hstep
      as (Hshown1 & _ & _ & Hno_preview & Hno_send & _).
    rewrite Hshown1. split_and!; [done| |].
    + intros ??? Hin. by destruct (Hno_preview _ _ _ Hin).
    + intros ? Hin. by destruct (Hno_send _ Hin).
  - destruct (_previewTimer p); [|done]. injection Hstep as Hstep.
    unfold showPreview in Hstep.
    case_decide; simplify_eq; cbn; split_and!; try done.
    all: try (right; lia).
    all: try (first [by intros ??? ?%elem_of_nil|by intros ? ?%elem_of_nil]).
    + intros setId access doc Hin. eapply Hpreview; [|done]. lia.
    + intros doc Hin. unfold showMediaPreview in Hin.
      destruct (widget_wnd widget);
        [by apply list_elem_of_singleton in Hin|by apply elem_of_nil in Hin].
Qed.

(** X18.  Over any sequence of mouse events on a new widget, the index
    of the shown preview is [-1] or an index into the pack, every media
    preview is asked for a document of the pack under the set's own id
    and access hash, and every sticker posted for sending is a document
    of the pack: no [_pack[index]] of the handlers is out of range.
    Nothing is posted for sending when the set is a masks set. *)
Theorem mouseRun_documents_from_pack self widget events p effects
    (Hrun : mouseRun self widget events Pointer_new = Some (p, effects)) :
  (_previewShown p = -1 ∨
   0 ≤ _previewShown p < Z.of_nat (length (_pack self))) ∧
  (∀ setId access doc,
     ShowMediaPreview setId access doc ∈ effects →
     setId = _setId self ∧ access = _setAccess self ∧
     ∃ d, doc = Some d ∧ d ∈ _pack self) ∧
  (∀ doc,
     PostSendSticker doc ∈ effects →
     isMasksSet self = false ∧ ∃ d, doc = Some d ∧ d ∈ _pack self).
Proof.
  assert (_previewShown Pointer_new = -1 ∨
          0 ≤ _previewShown Pointer_new < Z.of_nat (length (_pack self)))
    as Hstart by (by left).
  revert Hrun Hstart. generalize Pointer_new as p0. revert p effects.
  induction events as [|event events IH]; intros p effects p0 Hrun Hstart.
  - cbn in Hrun. simplify_eq. split_and!; [done|..].
    + by intros ??? ?%elem_of_nil.
    + by intros ? ?%elem_of_nil.
  - cbn [mouseRun] in Hrun.
    destruct (mouseStep self widget event p0) as [[p1 effects1]|] eqn:Hstep;
      [|done].
    cbn in Hrun.
    destruct (mouseRun self widget events p1) as [[p2 effects2]|] eqn:Hrest;
      [|done].
    cbn in Hrun. simplify_eq.
    destruct (mouseStep_facts _ _ _ _ _ _ Hstep Hstart)
      as (Hshown1 & Hpreview1 & Hsend1).
    destruct (IH _ _ _ Hrest Hshown1) as (Hshown2 & Hpreview2 & Hsend2).
    split_and!; [done|..].
    + intros ??? [?|?]%elem_of_app; eauto.
    + intros ? [?|?]%elem_of_app; eauto.
Qed.

End PointerFacts.

Lemma mouseRun_documents_from_pack_witness :
  match @mouseRun sampleScheme sampleStyle (fetched7 0 emptySession).1
          sampleWidget
          [MousePress (8, 8); PreviewTimerFired (8, 8);
           MouseMove (100, 8) (100, 8); MouseRelease (100, 8);
           MousePress (100, 8); MouseRelease (100, 8)] Pointer_new with
  | Some (p, effects) =>
      PostSendSticker (Some 102) ∈ effects ∧
      ShowMediaPreview 7 70 (Some 101) ∈ effects ∧
      (∀ doc, PostSendSticker doc ∈ effects →
         ∃ d, doc = Some d ∧ d ∈ _pack (fetched7 0 emptySession).1) ∧
      (∀ setId access doc, ShowMediaPreview setId access doc ∈ effects →
         ∃ d, doc = Some d ∧ d ∈ _pack (fetched7 0 emptySession).1)
  | None => False
  end.
Proof.
  destruct (mouseRun _ _ _ _) as [[p effects]|] eqn:Hrun;
    [|vm_compute in Hrun; discriminate].
  destruct (@mouseRun_documents_from_pack sampleScheme sampleStyle _ _ _ _ _
              Hrun) as (_ & Hpreviews & Hsends).
  vm_compute in Hrun. injection Hrun as <- <-.
  split_and!.
  - repeat first [apply list_elem_of_here|apply list_elem_of_further].
  - repeat first [apply list_elem_of_here|apply list_elem_of_further].
  - intros doc Hin. by destruct (Hsends doc Hin).
  - intros setId access doc Hin.
    by destruct (Hpreviews setId access doc Hin) as (_ & _ & ?).
Defined.

Section PointerSelection.
Context `{Collaborators} `{StickersStyle}.
Implicit Types (self : Inner) (widget : Widget) (p : Pointer).

Lemma mouseStep_selection self widget event p p' effects :
  styleInRange → coordinate (widget_width widget) →
  countInRange (_pack self) →
  mouseEventInRange event →
  mouseStep self widget event p = Some (p', effects) →
  (_selected p = -1 ∨ 0 ≤ _selected p < Z.of_nat (length (_pack self))) →
  (_selected p' = -1 ∨ 0 ≤ _selected p' < Z.of_nat (length (_pack self))) ∧
  (∀ index from to,
     StartOverAnimation index from to ∈ effects →
     0 ≤ index < Z.of_nat (length (widget_elements widget)) ∧
     index < Z.of_nat (length (_pack self))) ∧
  (isMasksSet self = true → _selected p = -1 →
   _selected p' = -1 ∧
   ∀ e, e ∈ effects → ∃ setId access doc, e = ShowMediaPreview setId access doc).
Proof.
  intros Hstyle Hwidth Hpack Hevent Hstep Hsel. unfold countInRange in Hpack.
  assert (∀ selected p1 effects1,
    (selected = -1 ∨ 0 ≤ selected < Z.of_nat (length (_pack self))) →
    (isMasksSet self = true → selected = -1) →
    setSelected widget selected p = (p1, effects1) →
    (_selected p1 = -1 ∨
     0 ≤ _selected p1 < Z.of_nat (length (_pack self))) ∧
    (∀ index from to,
       StartOverAnimation index from to ∈ effects1 →
       0 ≤ index < Z.of_nat (length (widget_elements widget)) ∧
       index < Z.of_nat (length (_pack self))) ∧
    (isMasksSet self = true → _selected p = -1 →
     _selected p1 = -1 ∧ effects1 = [])) as Hset.
  { intros selected p1 effects1 Hselected Hmasks Heq.
    apply setSelected_effects in Heq as (_ & _ & -> & _ & _ & Hstart & Hsame).
    split_and!; [done| |].
    - intros index from to Hin.
      destruct (Hstart _ _ _ Hin) as (Hwhich & Hpos & Hlt).
      assert (index < Z.of_nat (length (_pack self))) by (destruct Hwhich; lia).
      rewrite to_size_t_nonneg in Hlt by lia. lia.
    - intros Hm Hold. rewrite (Hmasks Hm) in *. split; [done|].
      by apply Hsame. }
  assert (∀ effects1,
    (∀ e, e ∈ showMediaPreview self widget effects1 →
          ∃ setId access doc, e = ShowMediaPreview setId access doc))
    as Hpreview.
  { intros index e. unfold showMediaPreview.
    destruct (widget_wnd widget); [|by intros ?%elem_of_nil].
    intros ->%list_elem_of_singleton. eauto. }
  assert (∀ index from to index',
    StartOverAnimation index from to ∉ showMediaPreview self widget index')
    as Hnot_start.
  { intros index from to index' Hin.
    by destruct (Hpreview _ _ Hin) as (? & ? & ? & ?). }
  destruct event as [l|cursor l|l| |cursor]; cbn [mouseStep] in Hstep.
  - injection Hstep as Hstep. unfold mousePressEvent in Hstep.
    case_decide; simplify_eq; cbn; split_and!; try done.
    all: first [by intros ??? ?%elem_of_nil
               |intros _ ?; split; [done|by intros ? ?%elem_of_nil]].
  - injection Hstep as Hstep. unfold mouseMoveEvent, updateSelected in Hstep.
    destruct Hevent as [[Hcx Hcy] _].
    destruct (hit_test_cell (widget_rtl widget) (widget_width widget)
                (_pack self) cursor Hstyle Hcx Hcy Hwidth) as [Hhit _].
    cbn zeta in Hhit.
    destruct (setSelected widget _ p) as [p1 effects1] eqn:Heq.
    apply Hset in Heq as (Hsel1 & Hstart1 & Hmasks1);
      [|by destruct (isMasksSet self); [left|]
       |by destruct (isMasksSet self)].
    repeat case_decide; simplify_eq; cbn; split_and!; try done.
    + intros index from to [Hin|Hin]%elem_of_app; [by eapply Hstart1|].
      by destruct (Hnot_start _ _ _ _ Hin).
    + intros Hm Hold. destruct (Hmasks1 Hm Hold) as [-> ->].
      split; [done|]. intros e Hin. by eapply Hpreview.
    + intros Hm Hold. destruct (Hmasks1 Hm Hold) as [-> ->].
      split; [done|]. by intros ? ?%elem_of_nil.
    + intros Hm Hold. destruct (Hmasks1 Hm Hold) as [-> ->].
      split; [done|]. by intros ? ?%elem_of_nil.
  - injection Hstep as Hstep. unfold mouseReleaseEvent in Hstep.
    repeat case_decide; try destruct (_previewTimer p);
      repeat case_decide; simplify_eq; cbn; split_and!; try done.
    all: try (by intros ??? ?%elem_of_nil).
    all: try (intros _ ?; split; [done|by intros ? ?%elem_of_nil]).
    + by intros ??? ?%list_elem_of_singleton.
    + intros Hm. match goal with
      | Hguard : _ ∧ _ ∧ isMasksSet self = false |- _ =>
          destruct Hguard as (_ & _ & ?); congruence
      end.
  - injection Hstep as Hstep. unfold leaveEventHook in Hstep.
    apply Hset in Hstep as (Hsel1 & Hstart1 & Hmasks1); [|by left|done].
    split_and!; [done|done|]. intros Hm Hold.
    destruct (Hmasks1 Hm Hold) as [-> ->].
    split; [done|]. by intros ? ?%elem_of_nil.
  - destruct (_previewTimer p); [|done]. injection Hstep as Hstep.
    unfold showPreview in Hstep.
    case_decide; simplify_eq; cbn; split_and!; try done.
    all: try (by intros ??? ?%elem_of_nil).
    all: try (intros _ ?; split; [done|by intros ? ?%elem_of_nil]).
    + intros index from to Hin. by destruct (Hnot_start _ _ _ _ Hin).
    + intros _ ?. split; [done|]. intros e Hin. by eapply Hpreview.
Qed.

(** X19.  Over any sequence of mouse events on a new widget, the selected
    index is [-1] or an index into the pack, and a hover animation is
    only ever started on an element of [_elements].  On a masks set
    nothing is ever selected and the only effects are media previews: no
    hover animation, no cursor change. *)
Theorem mouseRun_selection self widget events p effects
    (Hstyle : styleInRange) (Hwidth : coordinate (widget_width widget))
    (Hpack : countInRange (_pack self))
    (Hevents : Forall mouseEventInRange events)
    (Hrun : mouseRun self widget events Pointer_new = Some (p, effects)) :
  (_selected p = -1 ∨ 0 ≤ _selected p < Z.of_nat (length (_pack self))) ∧
  (∀ index from to,
     StartOverAnimation index from to ∈ effects →
     0 ≤ index < Z.of_nat (length (widget_elements widget)) ∧
     index < Z.of_nat (length (_pack self))) ∧
  (isMasksSet self = true →
   _selected p = -1 ∧
   ∀ e, e ∈ effects → ∃ setId access doc, e = ShowMediaPreview setId access doc).
Proof.
  assert (_selected Pointer_new = -1 ∨
          0 ≤ _selected Pointer_new < Z.of_nat (length (_pack self)))
    as Hstart by (by left).
  assert (isMasksSet self = true → _selected Pointer_new = -1)
    as Hmasks by done.
  revert Hrun Hstart Hmasks. generalize Pointer_new as p0. revert p effects.
  induction Hevents as [|event events Hevent _ IH];
    intros p effects p0 Hrun Hstart Hmasks.
  - cbn in Hrun. simplify_eq. split_and!; [done|..].
    + by intros ??? ?%elem_of_nil.
    + intros Hm. split; [auto|]. by intros ? ?%elem_of_nil.
  - cbn [mouseRun] in Hrun.
    destruct (mouseStep self widget event p0) as [[p1 effects1]|] eqn:Hstep;
      [|done].
    cbn in Hrun.
    destruct (mouseRun self widget events p1) as [[p2 effects2]|] eqn:Hrest;
      [|done].
    cbn in Hrun. simplify_eq.
    destruct (mouseStep_selection _ _ _ _ _ _ Hstyle Hwidth Hpack Hevent
                Hstep Hstart) as (Hsel1 & Hstart1 & Hmasks1).
    destruct (IH _ _ _ Hrest Hsel1) as (Hsel2 & Hstart2 & Hmasks2).
    { intros Hm. by destruct (Hmasks1 Hm (Hmasks Hm)). }
    split_and!; [done|..].
    + intros ??? [?|?]%elem_of_app; eauto.
    + intros Hm. destruct (Hmasks1 Hm (Hmasks Hm)) as [_ Honly1].
      destruct (Hmasks2 Hm) as [? Honly2]. split; [done|].
      intros e [?|?]%elem_of_app; eauto.
Qed.

(** X20.  A click sends, a long press previews.  On a set that is not a
    masks set, a press and a release over an element of the pack, with
    no preview shown, post that element's document for sending.  When
    the preview timer fires in between, the document is previewed
    instead, and the release then only hides the preview: nothing is
    sent. *)
Theorem click_sends_long_press_previews self widget l p index d
    (Hhit : stickerFromGlobalPos (widget_rtl widget) (widget_width widget)
              (_pack self) l = index)
    (Hindex : 0 ≤ index)
    (Hdoc : _pack self !! Z.to_nat index = Some d)
    (Hmasks : isMasksSet self = false)
    (Hhidden : _previewShown p < 0)
    (Hwnd : widget_wnd widget = true) :
  (snd <$> mouseRun self widget [MousePress l; MouseRelease l] p)
  = Some [PostSendSticker (Some d)] ∧
  (snd <$> mouseRun self widget
             [MousePress l; PreviewTimerFired l; MouseRelease l] p)
  = Some [ShowMediaPreview (_setId self) (_setAccess self) (Some d)].
Proof.
  assert (index < Z.of_nat (length (_pack self))) as Hlt.
  { apply lookup_lt_Some in Hdoc. lia. }
  cbn [mouseRun mouseStep mbind option_bind].
  unfold mousePressEvent, showPreview, showMediaPreview.
  rewrite Hhit, Hwnd.
  destruct (decide (0 ≤ index ∧ index < Z.of_nat (length (_pack self))))
    as [_|[]]; [|done].
  cbn. unfold mouseReleaseEvent. cbn. rewrite Hhit.
  destruct (decide (0 ≤ _previewShown p)) as [|_]; [lia|].
  destruct (decide (0 ≤ index)) as [_|[]]; [|done].
  destruct (decide (0 ≤ index ∧ index < Z.of_nat (length (_pack self))
                    ∧ isMasksSet self = false)) as [_|[]]; [|done].
  cbn. by rewrite Hdoc.
Qed.

End PointerSelection.

Lemma mouseRun_selection_witness :
  @styleInRange sampleStyle ∧ coordinate (widget_width sampleWidget) ∧
  match @mouseRun sampleScheme sampleStyle (fetched7 8 emptySession).1
          sampleWidget
          [MouseMove (8, 8) (8, 8); MousePress (8, 8);
           PreviewTimerFired (8, 8); MouseMove (100, 8) (100, 8);
           MouseRelease (100, 8); MouseLeave] Pointer_new with
  | Some (p, effects) =>
      _selected p = -1 ∧
      effects = [ShowMediaPreview 7 70 (Some 101);
                 ShowMediaPreview 7 70 (Some 102)] ∧
      ∀ e, e ∈ effects →
           ∃ setId access doc, e = ShowMediaPreview setId access doc
  | None => False
  end.
Proof.
  assert (coordinate (widget_width sampleWidget)) as Hwidth
    by (split; by cbn).
  split; [exact sampleStyle_in_range|]. split; [exact Hwidth|].
  destruct (mouseRun _ _ _ _) as [[p effects]|] eqn:Hrun;
    [|vm_compute in Hrun; discriminate].
  assert (countInRange (_pack (fetched7 8 emptySession).1)) as Hpack
    by (by vm_compute).
  assert (Forall mouseEventInRange
            [MouseMove (8, 8) (8, 8); MousePress (8, 8);
             PreviewTimerFired (8, 8); MouseMove (100, 8) (100, 8);
             MouseRelease (100, 8); MouseLeave]) as Hevents.
  { repeat (apply Forall_cons; split); try apply Forall_nil;
      repeat split; by cbn. }
  destruct (@mouseRun_selection sampleScheme sampleStyle _ _ _ _ _
              sampleStyle_in_range Hwidth Hpack Hevents Hrun)
    as (_ & _ & Hmasks).
  destruct (Hmasks eq_refl) as [Hselected Honly].
  vm_compute in Hrun. injection Hrun as <- <-. done.
Defined.

Lemma click_sends_long_press_previews_witness :
  (snd <$> @mouseRun sampleScheme sampleStyle (fetched7 0 emptySession).1
             sampleWidget [MousePress (100, 8); MouseRelease (100, 8)]
             Pointer_new)
  = Some [PostSendSticker (Some 102)] ∧
  (snd <$> @mouseRun sampleScheme sampleStyle (fetched7 0 emptySession).1
             sampleWidget
             [MousePress (100, 8); PreviewTimerFired (100, 8);
              MouseRelease (100, 8)] Pointer_new)
  = Some [ShowMediaPreview 7 70 (Some 102)].
Proof.
  apply (@click_sends_long_press_previews sampleScheme sampleStyle
           (fetched7 0 emptySession).1 sampleWidget (100, 8) Pointer_new
           1 102).
  - reflexivity.
  - lia.
  - reflexivity.
  - reflexivity.
  - cbn. lia.
  - reflexivity.
Defined.

